(** * kumuluzee-go-discovery: registration loop and discovery pipeline

    A shallow embedding of [discovery/consul_discovery.go] and of the etcd
    discovery source of package [discovery]: the registration / heartbeat
    loop ([RegisterService], [run], [register], [ttlUpdate],
    [isServiceRegistered], [DeregisterService]) and the discovery pipeline
    ([DiscoverService]) of both backends.

    Go values are modelled as follows.
    - [int64] is [Z] with the two's-complement wrap-around written out
      ([wrap64]); [time.Duration] is an [int64] count of nanoseconds.
    - A Go [error] is an [option error]; [None] is [nil].
    - A nil-pointer dereference or an index out of range is [Panics].
    - Pointer fields that may be nil ([options], [serviceInstance]) are
      [option]s.
    - The backend client, the configuration utility and the clock are outside
      the package: the backend is an abstract state with the operations the
      code calls on it, and every call is recorded in a trace of events.
    - Logging has no effect on control flow and is left out. *)

From Stdlib Require Import ZArith List String Ascii Bool Lia DecimalString.
Import ListNotations.

#[local] Open Scope string_scope.
#[local] Open Scope Z_scope.

(** ** Go runtime values *)

Definition error := string.

Inductive outcome (A : Type) : Type :=
| Returns (a : A)
| Panics (why : string).
Arguments Returns {A} a.
Arguments Panics {A} why.

Definition nilDeref : string := "invalid memory address or nil pointer dereference".
Definition indexOutOfRange : string := "index out of range".

(** [int64] arithmetic wraps around. *)
Definition wrap64 (z : Z) : Z := (z + 2 ^ 63) mod 2 ^ 64 - 2 ^ 63.

Definition int64_range (z : Z) : Prop := - 2 ^ 63 <= z < 2 ^ 63.

(** [time.Millisecond] and [time.Second], in nanoseconds. *)
Definition Millisecond : Z := 1000000.
Definition Second : Z := 1000000000.

(** [time.Duration(n) * unit] *)
Definition Duration (n unit : Z) : Z := wrap64 (n * unit).

(** [strconv.FormatInt(n, 10)] *)
Definition FormatInt (n : Z) : string := NilZero.string_of_int (Z.to_int n).

(** [s != ""] *)
Definition nonEmpty (s : string) : bool := negb (String.eqb s "").

(** ** A state monad with panics

    The methods of a discovery source mutate the receiver and talk to the
    backend; a computation takes the world and either returns a value and the
    new world, or panics. *)

Definition M (W A : Type) : Type := W -> outcome (A * W).

Definition ret {W A} (a : A) : M W A := fun w => Returns (a, w).

Definition bind {W A B} (m : M W A) (k : A -> M W B) : M W B :=
  fun w => match m w with
           | Returns (a, w') => k a w'
           | Panics why => Panics why
           end.

Definition gets {W A} (f : W -> A) : M W A := fun w => Returns (f w, w).
Definition modify {W} (f : W -> W) : M W unit := fun w => Returns (tt, f w).
Definition panic {W A} (why : string) : M W A := fun _ => Panics why.

(** Dereference of a pointer that may be nil. *)
Definition deref {W A} (p : W -> option A) : M W A :=
  fun w => match p w with
           | Some a => Returns (a, w)
           | None => Panics nilDeref
           end.

Declare Scope go_scope.
Delimit Scope go_scope with go.
Notation "x <- m ;; k" := (bind m (fun x => k))
  (at level 61, m at next level, right associativity) : go_scope.
Notation "' pat <- m ;; k" :=
  (bind m (fun x => match x with pat => k end))
  (at level 61, pat pattern, m at next level, right associativity) : go_scope.
Notation "m ;;; k" := (bind m (fun _ => k))
  (at level 61, right associativity) : go_scope.
#[local] Open Scope go_scope.

Fixpoint replaceNth {A} (n : nat) (a : A) (l : list A) : list A :=
  match l, n with
  | [], _ => []
  | _ :: l', O => a :: l'
  | x :: l', S n' => x :: replaceNth n' a l'
  end.

(** ** The world of a discovery source

    The receiver [d] of type [D], the backend it talks to, the goroutines
    started with [go d.run(...)] (each one stands at a call
    [d.run(retryDelay)], kept as its argument) and the events so far. *)
Section World.
Context {D B E : Type}.

Record world := {
  src : D;
  agent : B;
  goroutines : list Z;
  trace : list E
}.

Definition with_src (f : D -> D) (w : world) : world :=
  {| src := f (src w); agent := agent w;
     goroutines := goroutines w; trace := trace w |}.

Definition emit (e : E) : M world unit :=
  modify (fun w => {| src := src w; agent := agent w;
                      goroutines := goroutines w;
                      trace := (trace w ++ [e])%list |}).

(** A call on the backend: recorded, then answered by the backend. *)
Definition call {A} (e : E) (f : B -> A * B) : M world A :=
  emit e ;;;
  fun w => let answer := f (agent w) in
           Returns (fst answer, {| src := src w; agent := snd answer;
                                   goroutines := goroutines w;
                                   trace := trace w |}).

(** [go d.run(retryDelay)] *)
Definition go_run (retryDelay : Z) : M world unit :=
  modify (fun w => {| src := src w; agent := agent w;
                      goroutines := (goroutines w ++ [retryDelay])%list;
                      trace := trace w |}).

(** A goroutine moves on to its next call of [run]. *)
Definition resume (g : nat) (retryDelay : Z) : M world unit :=
  modify (fun w => {| src := src w; agent := agent w;
                      goroutines := replaceNth g retryDelay (goroutines w);
                      trace := trace w |}).
End World.
Arguments world D B E : clear implicits.

(** ** Types shared by both discovery sources

    [RegisterOptions], [DiscoverOptions], [registerConfiguration],
    [discoveredService] and [gatewayURLWatch] are declared in another file of
    the package; the records below have the fields the two sources read and
    write. The functions of that file the sources call
    ([loadServiceRegisterConfiguration], [fillDefaultDiscoverOptions],
    [pickRandomServiceInstance], [getRetryDelays]) are parameters of the
    model. *)

(** [config.Options] *)
Module config.
Record Options := {
  Extension : string;
  ExtensionNamespace : string;
  ConfigPath : string
}.
End config.

(** [RegisterOptions] *)
Record RegisterOptions := {
  ro_Value : string;
  ro_TTL : Z;
  ro_PingInterval : Z;
  ro_Environment : string;
  ro_Version : string;
  ro_Singleton : bool
}.

(** [registerConfiguration], the bundle [loadServiceRegisterConfiguration]
    returns; the fields are the ones the discovery sources read
    ([Env.Name], [Server.HTTP.Port], [Discovery.TTL], ...). *)
Record registerConfiguration := {
  rc_Name : string;
  rc_Env_Name : string;
  rc_Version : string;
  rc_Server_BaseURL : string;
  rc_Server_HTTP_Port : Z;
  rc_Server_HTTP_Address : string;
  rc_Discovery_TTL : Z;
  rc_Discovery_PingInterval : Z
}.

(** [DiscoverOptions] *)
Record DiscoverOptions := {
  do_Value : string;
  do_Environment : string;
  do_Version : string;
  do_AccessType : string
}.

(** The part of [github.com/blang/semver] the sources use: the type of
    versions with its zero value, [ParseTolerant] ([None] is a parse error)
    and the [String] method. *)
Module semver.
Record Lib := {
  Version : Type;
  Zero : Version;
  ParseTolerant : string -> option Version;
  VersionString : Version -> string
}.
End semver.

(** [discoveredService] *)
Record discoveredService {V : Type} := {
  ds_id : string;
  ds_version : V;
  ds_directURL : string
}.
Arguments discoveredService V : clear implicits.

(** [gatewayURLWatch] *)
Record gatewayURLWatch := {
  gatewayID : string;
  gatewayURL : string
}.

(** [for _, w := range gatewayURLs { if w.gatewayID == watcherNamespace ... } ]:
    is there a watch for this namespace? *)
Definition hasWatch (gatewayURLs : list gatewayURLWatch) (watcherNamespace : string) : bool :=
  existsb (fun w => String.eqb (gatewayID w) watcherNamespace) gatewayURLs.

(** The closure passed to [util.Subscribe]: the first watch of the namespace
    takes the new value. *)
Fixpoint gatewayUrlChanged (watcherNamespace value : string)
         (gatewayURLs : list gatewayURLWatch) : list gatewayURLWatch :=
  match gatewayURLs with
  | [] => []
  | w :: rest =>
      if String.eqb (gatewayID w) watcherNamespace
      then {| gatewayID := gatewayID w; gatewayURL := value |} :: rest
      else w :: gatewayUrlChanged watcherNamespace value rest
  end.

(** The gateway URL cached for a namespace: that of the first watch with
    this id, as the loops over [gatewayURLs] find it. *)
Definition gatewayURLOf (gatewayURLs : list gatewayURLWatch) (namespace : string)
  : option string :=
  option_map gatewayURL
             (find (fun w => String.eqb (gatewayID w) namespace) gatewayURLs).

(** [fmt.Sprintf("/environments/%s/services/%s/%s", env, value, version)] *)
Definition watcherNamespaceOf (options : DiscoverOptions) (version : string) : string :=
  "/environments/" ++ do_Environment options ++ "/services/" ++ do_Value options
  ++ "/" ++ version.

(** [strings.Split(s, sep)] for a separator of one byte: the pieces between
    the separators, one more than there are separators. *)
Fixpoint splitOn (sep : ascii) (s : string) : string * list string :=
  match s with
  | EmptyString => (EmptyString, [])
  | String c s' =>
      let '(piece, pieces) := splitOn sep s' in
      if Ascii.eqb c sep then (EmptyString, piece :: pieces)
      else (String c piece, pieces)
  end.

Definition Split (s : string) (sep : ascii) : list string :=
  let '(piece, pieces) := splitOn sep s in piece :: pieces.

(** [strings.HasPrefix(s, prefix)] *)
Definition HasPrefix (s prefix : string) : bool := String.prefix prefix s.

(** [path.Base]: the last element of a path, trailing slashes removed;
    "." for the empty path and "/" for a path of slashes only. *)
Fixpoint stripTrailingSlashes (s : string) : string :=
  match s with
  | EmptyString => EmptyString
  | String c s' =>
      let r := stripTrailingSlashes s' in
      if Ascii.eqb c "/" && String.eqb r "" then EmptyString else String c r
  end.

Definition Base (path : string) : string :=
  if String.eqb path "" then "."
  else
    let path := stripTrailingSlashes path in
    let path := last (Split path "/") "" in
    if String.eqb path "" then "/" else path.

(** The retry delay [run] passes to itself after a failed attempt:
    [newRetryDelay := retryDelay * 2], clamped at [maxRetryDelay]. *)
Definition nextRetryDelay (maxRetryDelay retryDelay : Z) : Z :=
  let newRetryDelay := wrap64 (retryDelay * 2) in
  if newRetryDelay >? maxRetryDelay then maxRetryDelay else newRetryDelay.

(** ** The gateway watch cache, observed

    The cache is consistent with the history when its keys are distinct and
    are, in order, the namespaces read and the namespaces subscribed to; it
    grows when keys are added at its end together with their read and
    subscription. *)
Section Cache.
Context {W : Type}.
Variable keys reads subs : W -> list string.

Definition consistent (w : W) : Prop :=
  NoDup (keys w) /\ reads w = keys w /\ subs w = keys w.

Definition grows (w w' : W) : Prop :=
  exists added,
    keys w' = (keys w ++ added)%list
    /\ reads w' = (reads w ++ added)%list
    /\ subs w' = (subs w ++ added)%list
    /\ (NoDup (keys w) -> NoDup (keys w')).
End Cache.

(** * Consul discovery source *)

(** The part of [github.com/hashicorp/consul/api] the source uses. *)
Module api.
Record AgentServiceCheck := {
  CheckID : string;
  TTL : string;
  DeregisterCriticalServiceAfter : string
}.

Record AgentServiceRegistration := {
  Port : Z;
  ID : string;
  Name : string;
  Tags : list string;
  Address : string;
  Check : AgentServiceCheck
}.

Record AgentService := {
  svc_ID : string;
  svc_Service : string;
  svc_Tags : list string;
  svc_Address : string;
  svc_Port : Z
}.

Record ServiceEntry := {
  Node_Address : string;
  Service : AgentService
}.

(** The agent behind [*api.Client]: a state [B] and the four calls the
    source makes. Every call may change the agent's state, so an instance
    may also script how the outside world evolves between calls. *)
Record Client (B : Type) := {
  ServiceRegister : AgentServiceRegistration -> B -> option error * B;
  UpdateTTL : string -> string -> B -> option error * B;
  ServiceDeregister : string -> B -> option error * B;
  HealthService : string -> string -> bool -> B -> (list ServiceEntry + error) * B
}.
Arguments ServiceRegister {B}.
Arguments UpdateTTL {B}.
Arguments ServiceDeregister {B}.
Arguments HealthService {B}.
End api.

Module Consul.

Record consulServiceInstance := {
  isRegistered : bool;
  id : string;
  name : string;
  versionTag : string;
  singleton : bool
}.

Record consulDiscoverySource := {
  startRetryDelay : Z;
  maxRetryDelay : Z;
  protocol : string;
  configOptions : config.Options;
  options : option registerConfiguration;
  serviceInstance : option consulServiceInstance;
  lastKnownService : string;
  gatewayURLs : list gatewayURLWatch
}.

(** What the source does to the outside world. *)
Inductive event :=
| EvHealthService (service tag : string) (passingOnly : bool)
| EvServiceRegister (reg : api.AgentServiceRegistration)
| EvUpdateTTL (checkID status : string)
| EvServiceDeregister (serviceID : string)
| EvSleep (nanoseconds : Z)
| EvGetString (namespace key : string)
| EvSubscribe (namespace key : string).

Definition set_isRegistered (b : bool) (i : consulServiceInstance) :=
  {| isRegistered := b; id := id i; name := name i;
     versionTag := versionTag i; singleton := singleton i |}.

Section Source.
Context {B : Type}.
Variable client : api.Client B.
Variable loadServiceRegisterConfiguration :
  config.Options -> RegisterOptions -> registerConfiguration.

Definition world := world consulDiscoverySource B event.

Definition sleep (d : Z) : M world unit := emit (EvSleep d).

(** [d.serviceInstance.isRegistered = b] *)
Definition store_isRegistered (b : bool) : M world unit :=
  _ <- deref (fun w => serviceInstance (src w)) ;;
  modify (with_src (fun d =>
    {| startRetryDelay := startRetryDelay d;
       maxRetryDelay := maxRetryDelay d;
       protocol := protocol d;
       configOptions := configOptions d;
       options := options d;
       serviceInstance := option_map (set_isRegistered b) (serviceInstance d);
       lastKnownService := lastKnownService d;
       gatewayURLs := gatewayURLs d |})).

(** [isServiceRegistered]: the health query is made for [reg.id]. *)
Definition isServiceRegistered : M world bool :=
  reg <- deref (fun w => serviceInstance (src w)) ;;
  r <- call (EvHealthService (id reg) "" true)
            (api.HealthService client (id reg) "" true) ;;
  match r with
  | inr _ => ret false
  | inl serviceEntries => ret (0 <? Z.of_nat (List.length serviceEntries))
  end.

Definition register (retryDelay : Z) : M world bool :=
  inst <- deref (fun w => serviceInstance (src w)) ;;
  registered <- isServiceRegistered ;;
  if registered && singleton inst then ret false
  else
    opts <- deref (fun w => options (src w)) ;;
    proto <- gets (fun w => protocol (src w)) ;;
    let agentRegistration :=
      {| api.Port := rc_Server_HTTP_Port opts;
         api.ID := id inst;
         api.Name := name inst;
         api.Tags := [proto; versionTag inst];
         api.Address :=
           if nonEmpty (rc_Server_HTTP_Address opts)
           then rc_Server_HTTP_Address opts else "";
         api.Check :=
           {| api.CheckID := "check-" ++ id inst;
              api.TTL := FormatInt (rc_Discovery_TTL opts) ++ "s";
              api.DeregisterCriticalServiceAfter := FormatInt 10 ++ "s" |} |} in
    err <- call (EvServiceRegister agentRegistration)
                (api.ServiceRegister client agentRegistration) ;;
    match err with
    | Some _ => ret false
    | None => ret true
    end.

(** The note passed to [UpdateTTL] (service id and wall-clock time) is
    free text for the agent and is not kept. *)
Definition ttlUpdate (retryDelay : Z) : M world bool :=
  inst <- deref (fun w => serviceInstance (src w)) ;;
  err <- call (EvUpdateTTL ("check-" ++ id inst) "passing")
              (api.UpdateTTL client ("check-" ++ id inst) "passing") ;;
  match err with
  | Some _ => ret false
  | None => ret true
  end.

(** The first half of [run]: one attempt, which is a registration when
    the instance is not registered and a TTL update otherwise. The result
    is [(ok, firstTTL)]. *)
Definition attempt (retryDelay : Z) : M world (bool * bool) :=
  inst <- deref (fun w => serviceInstance (src w)) ;;
  if negb (isRegistered inst) then
    ok <- register retryDelay ;;
    if ok then store_isRegistered true ;;; ret (true, true)
    else ret (false, false)
  else
    ok <- ttlUpdate retryDelay ;;
    if negb ok then store_isRegistered false ;;; ret (false, false)
    else ret (true, false).

(** The body of [run] up to its tail call [d.run(...)]; the result is the
    argument of that call. *)
Definition runBody (retryDelay : Z) : M world Z :=
  '(ok, firstTTL) <- attempt retryDelay ;;
  if negb ok then
    sleep (Duration retryDelay Millisecond) ;;;
    maxRD <- gets (fun w => maxRetryDelay (src w)) ;;
    ret (nextRetryDelay maxRD retryDelay)
  else
    (if negb firstTTL then
       opts <- deref (fun w => options (src w)) ;;
       sleep (Duration (rc_Discovery_PingInterval opts) Second)
     else ret tt) ;;;
    gets (fun w => startRetryDelay (src w)).

(** [run] calls itself for ever; [fuel] bounds the calls followed. *)
Fixpoint run (fuel : nat) (retryDelay : Z) : M world unit :=
  match fuel with
  | O => ret tt
  | S fuel' => next <- runBody retryDelay ;; run fuel' next
  end.

(** [RegisterService]; [uuid4] is the text of the UUID that [uuid.NewV4]
    produced. The goroutine [go d.run(d.startRetryDelay)] is started, not
    waited for. *)
Definition RegisterService (options : RegisterOptions) (uuid4 : string)
  : M world (string * option error) :=
  d <- gets src ;;
  let regconf := loadServiceRegisterConfiguration (configOptions d) options in
  let inst :=
    {| isRegistered := false;
       id := rc_Name regconf ++ "-" ++ uuid4;
       name := rc_Env_Name regconf ++ "-" ++ rc_Name regconf;
       versionTag := "version=" ++ rc_Version regconf;
       singleton := ro_Singleton options |} in
  modify (with_src (fun d =>
    {| startRetryDelay := startRetryDelay d;
       maxRetryDelay := maxRetryDelay d;
       protocol := protocol d;
       configOptions := configOptions d;
       options := Some regconf;
       serviceInstance := Some inst;
       lastKnownService := lastKnownService d;
       gatewayURLs := gatewayURLs d |})) ;;;
  go_run (startRetryDelay d) ;;;
  ret (id inst, None).

(** [DeregisterService] *)
Definition DeregisterService : M world (option error) :=
  inst <- deref (fun w => serviceInstance (src w)) ;;
  call (EvServiceDeregister (id inst)) (api.ServiceDeregister client (id inst)).

(** *** Discovery *)

Variable sv : semver.Lib.

(** [util.GetString(key)] on the configuration utility made for a namespace:
    the value and whether the key was found. *)
Variable GetString : config.Options -> string -> B -> (string * bool) * B.
Variable fillDefaultDiscoverOptions : DiscoverOptions -> DiscoverOptions.
(** [seed] stands for the state of the random generator. *)
Variable pickRandomServiceInstance :
  list (discoveredService (semver.Version sv)) -> list gatewayURLWatch -> DiscoverOptions ->
  string -> nat -> string * option error.

(** The local variables of the loop over a service's tags. *)
Record tagScan := {
  ts_version : semver.Version sv;
  ts_versionOk : bool;
  ts_protocol : string
}.

(** [for _, tag := range serviceEntry.Service.Tags { ... }]: [t[1]] panics
    when a tag that starts with "version" holds no "="; a version that fails
    to parse ends the loop with [versionOk = false]. *)
Fixpoint scanTags (tags : list string) (st : tagScan) : outcome tagScan :=
  match tags with
  | [] => Returns st
  | tag :: rest =>
      if HasPrefix tag "version" then
        match nth_error (Split tag "=") 1 with
        | None => Panics indexOutOfRange
        | Some t1 =>
            match semver.ParseTolerant sv t1 with
            | None =>
                Returns {| ts_version := ts_version st; ts_versionOk := false;
                           ts_protocol := ts_protocol st |}
            | Some version =>
                scanTags rest {| ts_version := version; ts_versionOk := true;
                                 ts_protocol := ts_protocol st |}
            end
        end
      else if String.eqb tag "https" then
        scanTags rest {| ts_version := ts_version st; ts_versionOk := ts_versionOk st;
                         ts_protocol := "https" |}
      else scanTags rest st
  end.

Definition set_gatewayURLs (f : list gatewayURLWatch -> list gatewayURLWatch)
           (d : consulDiscoverySource) : consulDiscoverySource :=
  {| startRetryDelay := startRetryDelay d;
     maxRetryDelay := maxRetryDelay d;
     protocol := protocol d;
     configOptions := configOptions d;
     options := options d;
     serviceInstance := serviceInstance d;
     lastKnownService := lastKnownService d;
     gatewayURLs := f (gatewayURLs d) |}.

Definition set_lastKnownService (s : string)
           (d : consulDiscoverySource) : consulDiscoverySource :=
  {| startRetryDelay := startRetryDelay d;
     maxRetryDelay := maxRetryDelay d;
     protocol := protocol d;
     configOptions := configOptions d;
     options := options d;
     serviceInstance := serviceInstance d;
     lastKnownService := s;
     gatewayURLs := gatewayURLs d |}.

(** "add a watch for gatewayUrl for discovering service (if not already
    made)" *)
Definition watchGateway (watcherNamespace : string) : M world unit :=
  d <- gets src ;;
  let util :=
    {| config.Extension := config.Extension (configOptions d);
       config.ExtensionNamespace := watcherNamespace;
       config.ConfigPath := config.ConfigPath (configOptions d) |} in
  if hasWatch (gatewayURLs d) watcherNamespace then ret tt
  else
    g <- call (EvGetString watcherNamespace "gatewayUrl") (GetString util "gatewayUrl") ;;
    modify (with_src (set_gatewayURLs (fun gws =>
      (gws ++ [{| gatewayID := watcherNamespace; gatewayURL := fst g |}])%list))) ;;;
    emit (EvSubscribe watcherNamespace "gatewayUrl").

(** [for _, serviceEntry := range serviceEntries { ... }] *)
Fixpoint collectInstances (options : DiscoverOptions)
         (serviceEntries : list api.ServiceEntry)
         (discoveredInstances : list (discoveredService (semver.Version sv)))
  : M world (list (discoveredService (semver.Version sv))) :=
  match serviceEntries with
  | [] => ret discoveredInstances
  | serviceEntry :: rest =>
      let service := api.Service serviceEntry in
      match scanTags (api.svc_Tags service)
                     {| ts_version := semver.Zero sv; ts_versionOk := false;
                        ts_protocol := "http" |} with
      | Panics why => panic why
      | Returns st =>
          if negb (ts_versionOk st) then
            collectInstances options rest discoveredInstances
          else
            let addr :=
              if nonEmpty (api.svc_Address service) then api.svc_Address service
              else api.Node_Address serviceEntry in
            let discoveredInstance :=
              {| ds_id := api.svc_ID service;
                 ds_version := ts_version st;
                 ds_directURL :=
                   ts_protocol st ++ "://" ++ addr ++ ":"
                   ++ FormatInt (api.svc_Port service) |} in
            watchGateway
              (watcherNamespaceOf options (semver.VersionString sv (ts_version st))) ;;;
            collectInstances options rest (discoveredInstances ++ [discoveredInstance])
      end
  end.

(** The end of [DiscoverService], from the call of
    [pickRandomServiceInstance] on. *)
Definition selectService (options : DiscoverOptions)
           (discoveredInstances : list (discoveredService (semver.Version sv))) (seed : nat)
  : M world (string * option error) :=
  d <- gets src ;;
  let '(service, err) :=
    pickRandomServiceInstance discoveredInstances (gatewayURLs d) options
                              (lastKnownService d) seed in
  match err with
  | Some e =>
      if nonEmpty service then ret (lastKnownService d, None)
      else ret ("", Some e)
  | None =>
      modify (with_src (set_lastKnownService service)) ;;;
      ret (service, None)
  end.

Definition DiscoverService (options : DiscoverOptions) (seed : nat)
  : M world (string * option error) :=
  let options := fillDefaultDiscoverOptions options in
  let queryServiceName := do_Environment options ++ "-" ++ do_Value options in
  r <- call (EvHealthService queryServiceName "" true)
            (api.HealthService client queryServiceName "" true) ;;
  match r with
  | inr err =>
      d <- gets src ;;
      if nonEmpty (lastKnownService d) then ret (lastKnownService d, None)
      else ret ("", Some err)
  | inl serviceEntries =>
      discoveredInstances <- collectInstances options serviceEntries [] ;;
      selectService options discoveredInstances seed
  end.

(** The query [DiscoverService] makes, as the backend answers it in the
    world [w], and the world after it. *)
Definition query (options : DiscoverOptions) (w : world)
  : (list api.ServiceEntry + error) * B :=
  let o := fillDefaultDiscoverOptions options in
  api.HealthService client (do_Environment o ++ "-" ++ do_Value o) "" true (agent w).

Definition queried (options : DiscoverOptions) (w : world) : world :=
  let o := fillDefaultDiscoverOptions options in
  {| src := src w; agent := snd (query options w); goroutines := goroutines w;
     trace := (trace w
               ++ [EvHealthService (do_Environment o ++ "-" ++ do_Value o) "" true])%list |}.

(** The namespace a discovered instance is watched under. *)
Definition namespaceOf (options : DiscoverOptions)
           (i : discoveredService (semver.Version sv)) : string :=
  watcherNamespaceOf options (semver.VersionString sv (ds_version i)).

(** *** The process around one discovery source

    What can happen to a source: the caller invokes one of its three methods,
    a goroutine started by [RegisterService] executes [run] once more, or the
    configuration utility calls a subscribed closure. *)
Inductive action :=
| DoRegisterService (options : RegisterOptions) (uuid4 : string)
| DoDeregisterService
| DoDiscoverService (options : DiscoverOptions) (seed : nat)
| DoGatewayUrlChanged (watcherNamespace value : string)
| DoRun (goroutine : nat).

Definition perform (a : action) : M world unit :=
  match a with
  | DoRegisterService options uuid4 => _ <- RegisterService options uuid4 ;; ret tt
  | DoDeregisterService => _ <- DeregisterService ;; ret tt
  | DoDiscoverService options seed => _ <- DiscoverService options seed ;; ret tt
  | DoGatewayUrlChanged watcherNamespace value =>
      modify (with_src (set_gatewayURLs (gatewayUrlChanged watcherNamespace value)))
  | DoRun g =>
      gs <- gets goroutines ;;
      match nth_error gs g with
      | None => ret tt
      | Some retryDelay =>
          next <- runBody retryDelay ;;
          resume g next
      end
  end.

Fixpoint perform_all (actions : list action) : M world unit :=
  match actions with
  | [] => ret tt
  | a :: rest => perform a ;;; perform_all rest
  end.

End Source.

(** [newConsulDiscoverySource], given the values it reads from the
    configuration. *)
Definition newConsulDiscoverySource (options : config.Options)
           (startRD maxRD : Z) (protocol : string) : consulDiscoverySource :=
  {| startRetryDelay := startRD;
     maxRetryDelay := maxRD;
     protocol := protocol;
     configOptions := options;
     options := None;
     serviceInstance := None;
     lastKnownService := "";
     gatewayURLs := [] |}.

(** *** What is observed of a run *)

(** The events of an attempt: the calls of [register] and [ttlUpdate]. *)
Definition attemptEvent (e : event) : bool :=
  match e with
  | EvHealthService _ _ _ | EvServiceRegister _ | EvUpdateTTL _ _ => true
  | _ => false
  end.

(** The durations slept, in the order of the trace. *)
Definition sleepsOf (tr : list event) : list Z :=
  flat_map (fun e => match e with EvSleep d => [d] | _ => [] end) tr.

(** The source with [isRegistered] stored. *)
Definition registeredAs (b : bool) (d : consulDiscoverySource) : consulDiscoverySource :=
  {| startRetryDelay := startRetryDelay d;
     maxRetryDelay := maxRetryDelay d;
     protocol := protocol d;
     configOptions := configOptions d;
     options := options d;
     serviceInstance := option_map (set_isRegistered b) (serviceInstance d);
     lastKnownService := lastKnownService d;
     gatewayURLs := gatewayURLs d |}.

Definition registered {B} (w : @world B) : bool :=
  match serviceInstance (src w) with
  | Some inst => isRegistered inst
  | None => false
  end.

(** [RegisterService] has been called: both pointers are set. *)
Definition ready {B} (w : @world B) : Prop :=
  serviceInstance (src w) <> None /\ options (src w) <> None.

(** What the body of [run] does after the attempt: the sleep, if any. *)
Definition pauseOf (ok wasRegistered : bool) (r : Z) (opts : registerConfiguration)
  : list event :=
  if ok then
    if wasRegistered then [EvSleep (Duration (rc_Discovery_PingInterval opts) Second)]
    else []
  else [EvSleep (Duration r Millisecond)].

(** The number of attempt events in a trace. *)
Definition attempts (tr : list event) : nat := List.length (filter attemptEvent tr).


(** The namespaces whose "gatewayUrl" key was read, and those it was
    subscribed to, in the order of the trace. *)
Definition readsOf (tr : list event) : list string :=
  flat_map (fun e => match e with EvGetString ns _ => [ns] | _ => [] end) tr.

Definition subscriptionsOf (tr : list event) : list string :=
  flat_map (fun e => match e with EvSubscribe ns _ => [ns] | _ => [] end) tr.

(** The namespaces that have an entry in the gateway watch cache. *)
Definition watched {B} (w : @world B) : list string :=
  map gatewayID (gatewayURLs (src w)).

(** The cache of a source against the trace of its world. *)
Definition cacheConsistent {B} (w : @world B) : Prop :=
  consistent watched (fun w => readsOf (trace w)) (fun w => subscriptionsOf (trace w)) w.

Definition cacheGrows {B} (w w' : @world B) : Prop :=
  grows watched (fun w => readsOf (trace w)) (fun w => subscriptionsOf (trace w)) w w'.

(** The fields of a source that a discovery does not write. *)
Definition identity (d d' : consulDiscoverySource) : Prop :=
  startRetryDelay d' = startRetryDelay d
  /\ maxRetryDelay d' = maxRetryDelay d
  /\ protocol d' = protocol d
  /\ configOptions d' = configOptions d
  /\ options d' = options d
  /\ serviceInstance d' = serviceInstance d.

(** What a step of a discovery leaves alone and what it may do to the
    cache. *)
Definition discoveryStep {B} (w w' : @world B) : Prop :=
  identity (src w) (src w')
  /\ lastKnownService (src w') = lastKnownService (src w)
  /\ goroutines w' = goroutines w
  /\ cacheGrows w w'.

(** The cache agrees with the history, and [RegisterService] has set both
    pointers or none. *)
Definition sound {B} (w : @world B) : Prop :=
  cacheConsistent w /\ (serviceInstance (src w) = None \/ ready w).

(** Is the action a call of [RegisterService]? *)
Definition registers (a : action) : bool :=
  match a with
  | DoRegisterService _ _ => true
  | _ => false
  end.

(** No tag that starts with "version" lacks the "=": the scan does not
    panic on these tags. *)
Definition wellFormedTags (tags : list string) : Prop :=
  Forall (fun t => HasPrefix t "version" = true ->
                   nth_error (Split t "=") 1 <> None) tags.

(** The delays of the source are the configured ones, it has started [n]
    goroutines, and each of them stands at the start delay or at a delay
    within the maximum. *)
Definition loopsOk {B} (startRD maxRD : Z) (n : nat) (w : @world B) : Prop :=
  startRetryDelay (src w) = startRD /\ maxRetryDelay (src w) = maxRD
  /\ List.length (goroutines w) = n
  /\ Forall (fun r => r = startRD \/ r <= maxRD) (goroutines w).

(** The events of watching the namespaces [added]: for each the read of
    its "gatewayUrl" key and then the subscription to it. *)
Definition watchEvents (added : list string) : list event :=
  flat_map (fun ns => [EvGetString ns "gatewayUrl"; EvSubscribe ns "gatewayUrl"]) added.

(** The world [w'] differs from [w] by the watching of new namespaces
    only, as far as the cache and the trace go. *)
Definition watchedMore {B} (w w' : @world B) : Prop :=
  exists added,
    watched w' = (watched w ++ added)%list
    /\ trace w' = (trace w ++ watchEvents added)%list.

(** The configuration utility [DiscoverService] makes for a namespace. *)
Definition utilFor {B} (w : @world B) (watcherNamespace : string) : config.Options :=
  {| config.Extension := config.Extension (configOptions (src w));
     config.ExtensionNamespace := watcherNamespace;
     config.ConfigPath := config.ConfigPath (configOptions (src w)) |}.

(** The registration [register] sends for the instance [inst] of the source
    [d] with the registration options [opts]. *)
Definition registrationOf (d : consulDiscoverySource) (inst : consulServiceInstance)
           (opts : registerConfiguration) : api.AgentServiceRegistration :=
  {| api.Port := rc_Server_HTTP_Port opts;
     api.ID := id inst;
     api.Name := name inst;
     api.Tags := [protocol d; versionTag inst];
     api.Address :=
       if nonEmpty (rc_Server_HTTP_Address opts) then rc_Server_HTTP_Address opts else "";
     api.Check :=
       {| api.CheckID := "check-" ++ id inst;
          api.TTL := FormatInt (rc_Discovery_TTL opts) ++ "s";
          api.DeregisterCriticalServiceAfter := FormatInt 10 ++ "s" |} |}.

(** The entry of the health endpoint for a registered service on a node with
    the address [nodeAddress]. *)
Definition entryFor (reg : api.AgentServiceRegistration) (nodeAddress : string)
  : api.ServiceEntry :=
  {| api.Node_Address := nodeAddress;
     api.Service :=
       {| api.svc_ID := api.ID reg;
          api.svc_Service := api.Name reg;
          api.svc_Tags := api.Tags reg;
          api.svc_Address := api.Address reg;
          api.svc_Port := api.Port reg |} |}.

(** A source just made by [newConsulDiscoverySource], in front of a backend
    in state [b]. *)
Definition fresh {B} (options : config.Options) (startRD maxRD : Z)
           (protocol : string) (b : B) : @world B :=
  {| src := newConsulDiscoverySource options startRD maxRD protocol;
     agent := b; goroutines := []; trace := [] |}.

End Consul.

(** * etcd discovery source *)

(** The part of [go.etcd.io/etcd/client] the source uses. *)
Module client.
#[local] Unset Elimination Schemes.
Inductive Node := mkNode (Key Value : string) (Nodes : list Node).
#[local] Set Elimination Schemes.

Definition Key (n : Node) : string := let '(mkNode k _ _) := n in k.
Definition Value (n : Node) : string := let '(mkNode _ v _) := n in v.
Definition Nodes (n : Node) : list Node := let '(mkNode _ _ ns) := n in ns.

Record SetOptions := {
  TTL : Z;
  Dir : bool;
  PrevExist : string;
  Refresh : bool
}.

Record GetOptions := { Recursive : bool }.

Record DeleteOptions := {
  del_Recursive : bool;
  del_Dir : bool
}.

(** [client.PrevExist] *)
Definition PrevExist_true : string := "true".

(** The store behind [client.KeysAPI]: a state [B] and the three calls the
    source makes; [Get] answers with [resp.Node]. A nil [*SetOptions] is
    [None]. *)
Record KeysAPI (B : Type) := {
  Set_ : string -> string -> option SetOptions -> B -> option error * B;
  Get : string -> GetOptions -> B -> (Node + error) * B;
  Delete : string -> DeleteOptions -> B -> option error * B
}.
Arguments Set_ {B}.
Arguments Get {B}.
Arguments Delete {B}.
End client.

Module Etcd.

Record etcdServiceInstance := {
  isRegistered : bool;
  id : string;
  etcdKeyDir : string;
  serviceURL : string;
  singleton : bool
}.

Record etcdDiscoverySource := {
  startRetryDelay : Z;
  maxRetryDelay : Z;
  configOptions : config.Options;
  options : option registerConfiguration;
  serviceInstance : option etcdServiceInstance;
  lastKnownService : string;
  gatewayURLs : list gatewayURLWatch
}.

(** What the source does to the outside world. *)
Inductive event :=
| EvSet (key value : string) (opts : option client.SetOptions)
| EvGet (key : string) (opts : client.GetOptions)
| EvDelete (key : string) (opts : client.DeleteOptions)
| EvSleep (nanoseconds : Z)
| EvGetString (namespace key : string)
| EvSubscribe (namespace key : string).

Definition set_serviceInstance (f : etcdServiceInstance -> etcdServiceInstance)
           (d : etcdDiscoverySource) : etcdDiscoverySource :=
  {| startRetryDelay := startRetryDelay d;
     maxRetryDelay := maxRetryDelay d;
     configOptions := configOptions d;
     options := options d;
     serviceInstance := option_map f (serviceInstance d);
     lastKnownService := lastKnownService d;
     gatewayURLs := gatewayURLs d |}.

Definition set_isRegistered (b : bool) (i : etcdServiceInstance) :=
  {| isRegistered := b; id := id i; etcdKeyDir := etcdKeyDir i;
     serviceURL := serviceURL i; singleton := singleton i |}.

Definition set_serviceURL (url : string) (i : etcdServiceInstance) :=
  {| isRegistered := isRegistered i; id := id i; etcdKeyDir := etcdKeyDir i;
     serviceURL := url; singleton := singleton i |}.

Definition set_gatewayURLs (f : list gatewayURLWatch -> list gatewayURLWatch)
           (d : etcdDiscoverySource) : etcdDiscoverySource :=
  {| startRetryDelay := startRetryDelay d;
     maxRetryDelay := maxRetryDelay d;
     configOptions := configOptions d;
     options := options d;
     serviceInstance := serviceInstance d;
     lastKnownService := lastKnownService d;
     gatewayURLs := f (gatewayURLs d) |}.

Definition set_lastKnownService (s : string)
           (d : etcdDiscoverySource) : etcdDiscoverySource :=
  {| startRetryDelay := startRetryDelay d;
     maxRetryDelay := maxRetryDelay d;
     configOptions := configOptions d;
     options := options d;
     serviceInstance := serviceInstance d;
     lastKnownService := s;
     gatewayURLs := gatewayURLs d |}.

(** The value of the last child called "url", as the loops over
    [instance.Nodes] leave it. *)
Definition urlOf (nodes : list client.Node) : string :=
  fold_left (fun url node =>
               if String.eqb (Base (client.Key node)) "url" then client.Value node
               else url) nodes "".

(** [isActive] at the end of the loop in [isServiceRegistered]: no child
    called "status" holds "disabled". *)
Definition isActiveOf (nodes : list client.Node) : bool :=
  fold_left (fun isActive node =>
               if String.eqb (Base (client.Key node)) "status"
                  && String.eqb (client.Value node) "disabled"
               then false else isActive) nodes true.

Section Source.
Context {B : Type}.
Variable kvClient : client.KeysAPI B.
Variable loadServiceRegisterConfiguration :
  config.Options -> RegisterOptions -> registerConfiguration.

Definition world := world etcdDiscoverySource B event.

Definition sleep (d : Z) : M world unit := emit (EvSleep d).

(** [d.serviceInstance.isRegistered = b] *)
Definition store_isRegistered (b : bool) : M world unit :=
  _ <- deref (fun w => serviceInstance (src w)) ;;
  modify (with_src (set_serviceInstance (set_isRegistered b))).

Definition isServiceRegistered : M world bool :=
  opts <- deref (fun w => options (src w)) ;;
  let etcdKeyDir :=
    "/environments/" ++ rc_Env_Name opts ++ "/services/" ++ rc_Name opts
    ++ "/" ++ rc_Version opts ++ "/instances/" in
  let getOptions := {| client.Recursive := true |} in
  r <- call (EvGet etcdKeyDir getOptions) (client.Get kvClient etcdKeyDir getOptions) ;;
  match r with
  | inr _ => ret false
  | inl node =>
      ret (existsb (fun instance =>
                      isActiveOf (client.Nodes instance)
                      && nonEmpty (urlOf (client.Nodes instance)))
                   (client.Nodes node))
  end.

Definition register (retryDelay : Z) : M world bool :=
  inst <- deref (fun w => serviceInstance (src w)) ;;
  registered <- isServiceRegistered ;;
  if registered && singleton inst then ret false
  else
    opts <- deref (fun w => options (src w)) ;;
    modify (with_src (set_serviceInstance (set_serviceURL (rc_Server_BaseURL opts)))) ;;;
    let dirOptions :=
      {| client.TTL := Duration (rc_Discovery_TTL opts) Second;
         client.Dir := true;
         client.PrevExist := "";
         client.Refresh := false |} in
    err <- call (EvSet (etcdKeyDir inst) "" (Some dirOptions))
                (client.Set_ kvClient (etcdKeyDir inst) "" (Some dirOptions)) ;;
    match err with
    | Some _ => ret false
    | None =>
        err <- call (EvSet (etcdKeyDir inst ++ "/url") (rc_Server_BaseURL opts) None)
                    (client.Set_ kvClient (etcdKeyDir inst ++ "/url")
                                 (rc_Server_BaseURL opts) None) ;;
        match err with
        | Some _ => ret false
        | None => ret true
        end
    end.

Definition ttlUpdate (retryDelay : Z) : M world bool :=
  inst <- deref (fun w => serviceInstance (src w)) ;;
  opts <- deref (fun w => options (src w)) ;;
  let refreshOptions :=
    {| client.TTL := Duration (rc_Discovery_TTL opts) Second;
       client.Dir := true;
       client.PrevExist := client.PrevExist_true;
       client.Refresh := true |} in
  err <- call (EvSet (etcdKeyDir inst) "" (Some refreshOptions))
              (client.Set_ kvClient (etcdKeyDir inst) "" (Some refreshOptions)) ;;
  match err with
  | Some _ => ret false
  | None => ret true
  end.

(** The first half of [run]: one attempt; the result is [ok]. *)
Definition attempt (retryDelay : Z) : M world bool :=
  inst <- deref (fun w => serviceInstance (src w)) ;;
  if negb (isRegistered inst) then
    ok <- register retryDelay ;;
    if ok then store_isRegistered true ;;; ret true
    else ret false
  else
    ok <- ttlUpdate retryDelay ;;
    if negb ok then store_isRegistered false ;;; ret false
    else ret true.

(** The body of [run] up to its tail call [d.run(...)]; the result is the
    argument of that call. *)
Definition runBody (retryDelay : Z) : M world Z :=
  ok <- attempt retryDelay ;;
  if negb ok then
    sleep (Duration retryDelay Millisecond) ;;;
    maxRD <- gets (fun w => maxRetryDelay (src w)) ;;
    ret (nextRetryDelay maxRD retryDelay)
  else
    opts <- deref (fun w => options (src w)) ;;
    sleep (Duration (rc_Discovery_PingInterval opts) Second) ;;;
    gets (fun w => startRetryDelay (src w)).

(** [run] calls itself for ever; [fuel] bounds the calls followed. *)
Fixpoint run (fuel : nat) (retryDelay : Z) : M world unit :=
  match fuel with
  | O => ret tt
  | S fuel' => next <- runBody retryDelay ;; run fuel' next
  end.

(** [RegisterService]; [uuid4] is the text of the UUID that [uuid.NewV4]
    produced. *)
Definition RegisterService (options : RegisterOptions) (uuid4 : string)
  : M world (string * option error) :=
  d <- gets src ;;
  let regconf := loadServiceRegisterConfiguration (configOptions d) options in
  let inst :=
    {| isRegistered := false;
       id := uuid4;
       etcdKeyDir :=
         "/environments/" ++ rc_Env_Name regconf ++ "/services/" ++ rc_Name regconf
         ++ "/" ++ rc_Version regconf ++ "/instances/" ++ uuid4;
       serviceURL := "";
       singleton := ro_Singleton options |} in
  modify (with_src (fun d =>
    {| startRetryDelay := startRetryDelay d;
       maxRetryDelay := maxRetryDelay d;
       configOptions := configOptions d;
       options := Some regconf;
       serviceInstance := Some inst;
       lastKnownService := lastKnownService d;
       gatewayURLs := gatewayURLs d |})) ;;;
  go_run (startRetryDelay d) ;;;
  ret (id inst, None).

(** [DeregisterService] *)
Definition DeregisterService : M world (option error) :=
  inst <- deref (fun w => serviceInstance (src w)) ;;
  let deleteOptions := {| client.del_Recursive := true; client.del_Dir := true |} in
  call (EvDelete (etcdKeyDir inst) deleteOptions)
       (client.Delete kvClient (etcdKeyDir inst) deleteOptions).

(** *** Discovery *)

Variable sv : semver.Lib.
Variable GetString : config.Options -> string -> B -> (string * bool) * B.
Variable fillDefaultDiscoverOptions : DiscoverOptions -> DiscoverOptions.
Variable pickRandomServiceInstance :
  list (discoveredService (semver.Version sv)) -> list gatewayURLWatch ->
  DiscoverOptions -> string -> nat -> string * option error.

(** "add a watch for gatewayUrl for discovering service (if not already
    made)" *)
Definition watchGateway (watcherNamespace : string) : M world unit :=
  d <- gets src ;;
  let util :=
    {| config.Extension := config.Extension (configOptions d);
       config.ExtensionNamespace := watcherNamespace;
       config.ConfigPath := config.ConfigPath (configOptions d) |} in
  if hasWatch (gatewayURLs d) watcherNamespace then ret tt
  else
    g <- call (EvGetString watcherNamespace "gatewayUrl") (GetString util "gatewayUrl") ;;
    modify (with_src (set_gatewayURLs (fun gws =>
      (gws ++ [{| gatewayID := watcherNamespace; gatewayURL := fst g |}])%list))) ;;;
    emit (EvSubscribe watcherNamespace "gatewayUrl").

(** [for _, n := range nodeVersion.Nodes { if path.Base(n.Key) == "instances" ... } ]:
    [None] is the nil pointer the loop leaves when no child is called
    "instances". *)
Definition findInstances (nodes : list client.Node) : option client.Node :=
  find (fun n => String.eqb (Base (client.Key n)) "instances") nodes.

(** [for _, instance := range instances.Nodes { ... }]: a version that fails
    to parse ends the loop. *)
Fixpoint collectVersion (options : DiscoverOptions) (currentVersion : string)
         (instances : list client.Node)
         (discoveredInstances : list (discoveredService (semver.Version sv)))
  : M world (list (discoveredService (semver.Version sv))) :=
  match instances with
  | [] => ret discoveredInstances
  | instance :: rest =>
      match semver.ParseTolerant sv currentVersion with
      | None => ret discoveredInstances
      | Some version =>
          let discoveredInstance :=
            {| ds_id := Base (client.Key instance);
               ds_version := version;
               ds_directURL := urlOf (client.Nodes instance) |} in
          watchGateway (watcherNamespaceOf options (semver.VersionString sv version)) ;;;
          collectVersion options currentVersion rest
                         (discoveredInstances ++ [discoveredInstance])
      end
  end.

(** [for _, nodeVersion := range resp.Node.Nodes { ... }] *)
Fixpoint collectInstances (options : DiscoverOptions)
         (nodeVersions : list client.Node)
         (discoveredInstances : list (discoveredService (semver.Version sv)))
  : M world (list (discoveredService (semver.Version sv))) :=
  match nodeVersions with
  | [] => ret discoveredInstances
  | nodeVersion :: rest =>
      let currentVersion := Base (client.Key nodeVersion) in
      match findInstances (client.Nodes nodeVersion) with
      | None => panic nilDeref
      | Some instances =>
          found <- collectVersion options currentVersion (client.Nodes instances)
                                  discoveredInstances ;;
          collectInstances options rest found
      end
  end.

(** The end of [DiscoverService], from the call of
    [pickRandomServiceInstance] on. *)
Definition selectService (options : DiscoverOptions)
           (discoveredInstances : list (discoveredService (semver.Version sv)))
           (seed : nat)
  : M world (string * option error) :=
  d <- gets src ;;
  let '(service, err) :=
    pickRandomServiceInstance discoveredInstances (gatewayURLs d) options
                              (lastKnownService d) seed in
  match err with
  | Some e =>
      if nonEmpty service then ret (lastKnownService d, None)
      else ret ("", Some e)
  | None =>
      modify (with_src (set_lastKnownService service)) ;;;
      ret (service, None)
  end.

Definition DiscoverService (options : DiscoverOptions) (seed : nat)
  : M world (string * option error) :=
  let options := fillDefaultDiscoverOptions options in
  let kvPath :=
    "environments/" ++ do_Environment options ++ "/services/" ++ do_Value options
    ++ "/" in
  let getOptions := {| client.Recursive := true |} in
  r <- call (EvGet kvPath getOptions) (client.Get kvClient kvPath getOptions) ;;
  match r with
  | inr err =>
      d <- gets src ;;
      if nonEmpty (lastKnownService d) then ret (lastKnownService d, None)
      else ret ("", Some err)
  | inl node =>
      discoveredInstances <- collectInstances options (client.Nodes node) [] ;;
      selectService options discoveredInstances seed
  end.

(** The query [DiscoverService] makes, as the backend answers it in the
    world [w], and the world after it. *)
Definition queryPath (options : DiscoverOptions) : string :=
  let o := fillDefaultDiscoverOptions options in
  "environments/" ++ do_Environment o ++ "/services/" ++ do_Value o ++ "/".

Definition query (options : DiscoverOptions) (w : world)
  : (client.Node + error) * B :=
  client.Get kvClient (queryPath options) {| client.Recursive := true |} (agent w).

Definition queried (options : DiscoverOptions) (w : world) : world :=
  {| src := src w; agent := snd (query options w); goroutines := goroutines w;
     trace := (trace w
               ++ [EvGet (queryPath options) {| client.Recursive := true |}])%list |}.

(** The namespace a discovered instance is watched under. *)
Definition namespaceOf (options : DiscoverOptions)
           (i : discoveredService (semver.Version sv)) : string :=
  watcherNamespaceOf options (semver.VersionString sv (ds_version i)).

(** *** The process around one discovery source *)
Inductive action :=
| DoRegisterService (options : RegisterOptions) (uuid4 : string)
| DoDeregisterService
| DoDiscoverService (options : DiscoverOptions) (seed : nat)
| DoGatewayUrlChanged (watcherNamespace value : string)
| DoRun (goroutine : nat).

Definition perform (a : action) : M world unit :=
  match a with
  | DoRegisterService options uuid4 => _ <- RegisterService options uuid4 ;; ret tt
  | DoDeregisterService => _ <- DeregisterService ;; ret tt
  | DoDiscoverService options seed => _ <- DiscoverService options seed ;; ret tt
  | DoGatewayUrlChanged watcherNamespace value =>
      modify (with_src (set_gatewayURLs (gatewayUrlChanged watcherNamespace value)))
  | DoRun g =>
      gs <- gets goroutines ;;
      match nth_error gs g with
      | None => ret tt
      | Some retryDelay =>
          next <- runBody retryDelay ;;
          resume g next
      end
  end.

Fixpoint perform_all (actions : list action) : M world unit :=
  match actions with
  | [] => ret tt
  | a :: rest => perform a ;;; perform_all rest
  end.

End Source.

(** [newEtcdDiscoverySource], given the values it reads from the
    configuration. *)
Definition newEtcdDiscoverySource (options : config.Options)
           (startRD maxRD : Z) : etcdDiscoverySource :=
  {| startRetryDelay := startRD;
     maxRetryDelay := maxRD;
     configOptions := options;
     options := None;
     serviceInstance := None;
     lastKnownService := "";
     gatewayURLs := [] |}.

(** *** What is observed of a run *)

(** The events of an attempt: the calls of [register] and [ttlUpdate]. *)
Definition attemptEvent (e : event) : bool :=
  match e with
  | EvSet _ _ _ | EvGet _ _ => true
  | _ => false
  end.

(** The write that refreshes the TTL of the instance directory. *)
Definition refreshEvent (keyDir : string) (e : event) : bool :=
  match e with
  | EvSet key _ (Some o) => String.eqb key keyDir && client.Refresh o
  | _ => false
  end.

Definition getEvent (e : event) : bool :=
  match e with
  | EvGet _ _ => true
  | _ => false
  end.

Definition sleepsOf (tr : list event) : list Z :=
  flat_map (fun e => match e with EvSleep d => [d] | _ => [] end) tr.

Definition registered {B} (w : @world B) : bool :=
  match serviceInstance (src w) with
  | Some inst => isRegistered inst
  | None => false
  end.

Definition ready {B} (w : @world B) : Prop :=
  serviceInstance (src w) <> None /\ options (src w) <> None.

(** Everything of the source but the service instance. *)
Definition untouched (d d' : etcdDiscoverySource) : Prop :=
  startRetryDelay d' = startRetryDelay d
  /\ maxRetryDelay d' = maxRetryDelay d
  /\ configOptions d' = configOptions d
  /\ options d' = options d
  /\ lastKnownService d' = lastKnownService d
  /\ gatewayURLs d' = gatewayURLs d.

(** The number of attempt events in a trace. *)
Definition attempts (tr : list event) : nat := List.length (filter attemptEvent tr).

(** The namespaces whose "gatewayUrl" key was read, and those it was
    subscribed to, in the order of the trace. *)
Definition readsOf (tr : list event) : list string :=
  flat_map (fun e => match e with EvGetString ns _ => [ns] | _ => [] end) tr.

Definition subscriptionsOf (tr : list event) : list string :=
  flat_map (fun e => match e with EvSubscribe ns _ => [ns] | _ => [] end) tr.

(** The namespaces that have an entry in the gateway watch cache. *)
Definition watched {B} (w : @world B) : list string :=
  map gatewayID (gatewayURLs (src w)).

(** The cache of a source against the trace of its world. *)
Definition cacheConsistent {B} (w : @world B) : Prop :=
  consistent watched (fun w => readsOf (trace w)) (fun w => subscriptionsOf (trace w)) w.

Definition cacheGrows {B} (w w' : @world B) : Prop :=
  grows watched (fun w => readsOf (trace w)) (fun w => subscriptionsOf (trace w)) w w'.

(** The fields of a source that a discovery does not write. *)
Definition identity (d d' : etcdDiscoverySource) : Prop :=
  startRetryDelay d' = startRetryDelay d
  /\ maxRetryDelay d' = maxRetryDelay d
  /\ configOptions d' = configOptions d
  /\ options d' = options d
  /\ serviceInstance d' = serviceInstance d.

(** The directory [isServiceRegistered] lists. *)
Definition instancesDir (opts : registerConfiguration) : string :=
  "/environments/" ++ rc_Env_Name opts ++ "/services/" ++ rc_Name opts
  ++ "/" ++ rc_Version opts ++ "/instances/".

(** What a step of a discovery leaves alone and what it may do to the
    cache. *)
Definition discoveryStep {B} (w w' : @world B) : Prop :=
  identity (src w) (src w')
  /\ lastKnownService (src w') = lastKnownService (src w)
  /\ goroutines w' = goroutines w
  /\ cacheGrows w w'.

(** The cache agrees with the history, and [RegisterService] has set both
    pointers or none. *)
Definition sound {B} (w : @world B) : Prop :=
  cacheConsistent w /\ (serviceInstance (src w) = None \/ ready w).

(** Is the action a call of [RegisterService]? *)
Definition registers (a : action) : bool :=
  match a with
  | DoRegisterService _ _ => true
  | _ => false
  end.

(** The delays of the source are the configured ones, it has started [n]
    goroutines, and each of them stands at the start delay or at a delay
    within the maximum. *)
Definition loopsOk {B} (startRD maxRD : Z) (n : nat) (w : @world B) : Prop :=
  startRetryDelay (src w) = startRD /\ maxRetryDelay (src w) = maxRD
  /\ List.length (goroutines w) = n
  /\ Forall (fun r => r = startRD \/ r <= maxRD) (goroutines w).

(** The events of watching the namespaces [added]: for each the read of
    its "gatewayUrl" key and then the subscription to it. *)
Definition watchEvents (added : list string) : list event :=
  flat_map (fun ns => [EvGetString ns "gatewayUrl"; EvSubscribe ns "gatewayUrl"]) added.

(** The world [w'] differs from [w] by the watching of new namespaces
    only, as far as the cache and the trace go. *)
Definition watchedMore {B} (w w' : @world B) : Prop :=
  exists added,
    watched w' = (watched w ++ added)%list
    /\ trace w' = (trace w ++ watchEvents added)%list.

(** The configuration utility [DiscoverService] makes for a namespace. *)
Definition utilFor {B} (w : @world B) (watcherNamespace : string) : config.Options :=
  {| config.Extension := config.Extension (configOptions (src w));
     config.ExtensionNamespace := watcherNamespace;
     config.ConfigPath := config.ConfigPath (configOptions (src w)) |}.



(** A source just made by [newEtcdDiscoverySource], in front of a backend in
    state [b]. *)
Definition fresh {B} (options : config.Options) (startRD maxRD : Z) (b : B)
  : @world B :=
  {| src := newEtcdDiscoverySource options startRD maxRD;
     agent := b; goroutines := []; trace := [] |}.

End Etcd.

(** * Making the sources

    [newConsulDiscoverySource] and [newEtcdDiscoverySource] as the package
    calls them: they read the configuration file and make the client of the
    backend. The configuration utility, [getRetryDelays] and the
    constructors of the two client libraries are not in this file; they are
    the variables of the section. A nil pointer is [None]. *)
Module Setup.
Section Setup.
Context {Util ConsulClient EtcdClient KeysAPI : Type}.
(** [config.NewUtil] and [GetString] on its result. *)
Variable NewUtil : config.Options -> Util.
Variable GetString : Util -> string -> string * bool.
Variable getRetryDelays : Util -> Z * Z.
(** [api.NewClient] on [api.DefaultConfig()] with the given [Address]. *)
Variable NewClient : string -> ConsulClient + error.
(** [client.New] on a [client.Config] with the given [Endpoints]. *)
Variable New : list string -> EtcdClient + error.
Variable NewKeysAPI : EtcdClient -> KeysAPI.

(** The utility both constructors read from: the configuration file of the
    options, without an extension. *)
Definition confOf (options : config.Options) : Util :=
  NewUtil {| config.Extension := ""; config.ExtensionNamespace := "";
             config.ConfigPath := config.ConfigPath options |}.

Definition createConsulClient (address : string) : option ConsulClient * option error :=
  match NewClient address with
  | inr err => (None, Some err)
  | inl client => (Some client, None)
  end.

Definition createEtcdClient (addresses : string) : option EtcdClient * option error :=
  match New (Split addresses ",") with
  | inr err => (None, Some err)
  | inl client => (Some client, None)
  end.

(** [consulAddress] in [newConsulDiscoverySource]. *)
Definition consulAddress (conf : Util) : string :=
  let '(addr, ok) := GetString conf "kumuluzee.discovery.consul.hosts" in
  if ok then addr else "http://localhost:8500".

(** [etcdAddresses] in [newEtcdDiscoverySource]. *)
Definition etcdAddresses (conf : Util) : string :=
  let '(addr, ok) := GetString conf "kumuluzee.discovery.etcd.hosts" in
  if ok then addr else "http://localhost:2379".

(** The source and its field [client], which stays nil when the client
    could not be made. *)
Definition newConsulDiscoverySource (options : config.Options)
  : Consul.consulDiscoverySource * option ConsulClient :=
  let conf := confOf options in
  let '(startRD, maxRD) := getRetryDelays conf in
  let d_client :=
    let '(client, err) := createConsulClient (consulAddress conf) in
    match err with
    | None => client
    | Some _ => None
    end in
  let protocol :=
    let '(p, ok) := GetString conf "kumuluzee.discovery.consul.protocol" in
    if ok then p else "http" in
  (Consul.newConsulDiscoverySource options startRD maxRD protocol, d_client).

(** The source and its field [kvClient]; [*d.client] panics when the client
    could not be made. *)
Definition newEtcdDiscoverySource (options : config.Options)
  : outcome (Etcd.etcdDiscoverySource * KeysAPI) :=
  let conf := confOf options in
  let '(startRD, maxRD) := getRetryDelays conf in
  let d_client :=
    let '(client, err) := createEtcdClient (etcdAddresses conf) in
    match err with
    | None => client
    | Some _ => None
    end in
  match d_client with
  | None => Panics nilDeref
  | Some client =>
      Returns (Etcd.newEtcdDiscoverySource options startRD maxRD, NewKeysAPI client)
  end.

End Setup.
End Setup.

(** * The retry loop, observed

    Both sources run the same loop: a body that either fails, sleeps for the
    current delay and goes on with [nextRetryDelay], or succeeds and goes on
    with the start delay. *)

(** The largest number of milliseconds whose [time.Duration] fits [int64]. *)
Definition maxMilliseconds : Z := 9223372036854.

Section Streak.
Context {W : Type}.
Variable body : Z -> M W Z.
Variable registered : W -> bool.

(** [k] bodies in a row, each of which leaves the instance unregistered:
    the delay and the world they lead to. *)
Fixpoint failStreak (k : nat) (retryDelay : Z) (w : W) : option (Z * W) :=
  match k with
  | O => Some (retryDelay, w)
  | S k' =>
      match body retryDelay w with
      | Returns (next, w') =>
          if registered w' then None else failStreak k' next w'
      | Panics _ => None
      end
  end.

End Streak.

(** * The selection step *)

(** The Version Resolver and the equality of versions belong to the semver
    library and stay abstract. *)
Section Selection.
Variable sv : semver.Lib.
Variable resolveVersion :
  string -> list (semver.Version sv) -> option (semver.Version sv).
Variable sameVersion : semver.Version sv -> semver.Version sv -> bool.

(** Modelled from the spec: the text of the error of a selection that finds
    no version; the source file that declares it is not among the two
    above. *)
Definition noVersionError : error := "no service version satisfies the selector".

(** The access type [GATEWAY]. *)
Definition AccessTypeGateway : string := "GATEWAY".

(** Modelled from the spec: [pickRandomServiceInstance] is declared in a file
    of the package that is not among the two sources above; only its call in
    [DiscoverService] is. The spec (Discovery Engine, steps 5 to 8) has it
    resolve the requested selector against the parsed versions, choose at
    random among the instances of the resolved version, and answer with the
    cached gateway URL for [GATEWAY] when one is cached and non-empty, with
    the direct URL otherwise. "If no version satisfies the selector, treat
    this as a selection failure equivalent to step 3 (fallback-then-error)":
    the failure hands back the last known service it was given, which is what
    the caller tests, together with the error. *)
Definition pickRandomServiceInstance
           (discoveredInstances : list (discoveredService (semver.Version sv)))
           (gatewayURLs : list gatewayURLWatch) (options : DiscoverOptions)
           (lastKnownService : string) (seed : nat) : string * option error :=
  match resolveVersion (do_Version options) (map ds_version discoveredInstances) with
  | None => (lastKnownService, Some noVersionError)
  | Some version =>
      let candidates :=
        filter (fun i => sameVersion (ds_version i) version) discoveredInstances in
      match nth_error candidates (seed mod List.length candidates)%nat with
      | None => (lastKnownService, Some noVersionError)
      | Some instance =>
          let namespace :=
            watcherNamespaceOf options (semver.VersionString sv version) in
          let gateway :=
            match find (fun w => String.eqb (gatewayID w) namespace) gatewayURLs with
            | Some w => gatewayURL w
            | None => ""
            end in
          if String.eqb (do_AccessType options) AccessTypeGateway && nonEmpty gateway
          then (gateway, None)
          else (ds_directURL instance, None)
      end
  end.
End Selection.

(** * Stand-ins for the collaborators

    Small executable backends and libraries, used where a statement is run on
    concrete data. *)
Module Sample.

(** Versions kept as text; a text parses when it is made of digits and dots
    and is not empty. *)
Definition isVersionChar (c : ascii) : bool :=
  Ascii.eqb c "." || ((48 <=? nat_of_ascii c)%nat && (nat_of_ascii c <=? 57)%nat).

Fixpoint allChars (p : ascii -> bool) (s : string) : bool :=
  match s with
  | EmptyString => true
  | String c s' => p c && allChars p s'
  end.

Definition versions : semver.Lib :=
  {| semver.Version := string;
     semver.Zero := "0.0.0";
     semver.ParseTolerant := fun s =>
       if nonEmpty s && allChars isVersionChar s then Some s else None;
     semver.VersionString := fun v => v |}.

(** A selection that takes the first discovered instance. *)
Definition pickFirst (discoveredInstances : list (discoveredService string))
           (gatewayURLs : list gatewayURLWatch) (options : DiscoverOptions)
           (lastKnownService : string) (seed : nat) : string * option error :=
  match discoveredInstances with
  | [] => (lastKnownService, Some "No service found")
  | instance :: _ => (ds_directURL instance, None)
  end.


Definition loadServiceRegisterConfiguration (c : config.Options) (o : RegisterOptions)
  : registerConfiguration :=
  {| rc_Name := ro_Value o;
     rc_Env_Name := ro_Environment o;
     rc_Version := ro_Version o;
     rc_Server_BaseURL := "http://localhost:8080";
     rc_Server_HTTP_Port := 8080;
     rc_Server_HTTP_Address := "";
     rc_Discovery_TTL := ro_TTL o;
     rc_Discovery_PingInterval := ro_PingInterval o |}.

Definition fillDefaultDiscoverOptions (o : DiscoverOptions) : DiscoverOptions :=
  {| do_Value := do_Value o;
     do_Environment := if nonEmpty (do_Environment o) then do_Environment o else "dev";
     do_Version := if nonEmpty (do_Version o) then do_Version o else "*";
     do_AccessType :=
       if nonEmpty (do_AccessType o) then do_AccessType o else "GATEWAY" |}.

Definition configOptions : config.Options :=
  {| config.Extension := "consul"; config.ExtensionNamespace := "";
     config.ConfigPath := "config/config.yaml" |}.

(** A Consul agent kept in memory: the registered services, each with the
    state of its TTL check. A new check is critical until its first update;
    the health query lists the services of a name whose check passes. *)
Record service := {
  registration : api.AgentServiceRegistration;
  passing : bool
}.

Definition agentState := list service.

Definition hasService (serviceID : string) (st : agentState) : bool :=
  existsb (fun s => String.eqb (api.ID (registration s)) serviceID) st.

Definition hasCheck (checkID : string) (st : agentState) : bool :=
  existsb (fun s => String.eqb (api.CheckID (api.Check (registration s))) checkID) st.

Definition entryOf (s : service) : api.ServiceEntry :=
  {| api.Node_Address := "127.0.0.1";
     api.Service :=
       {| api.svc_ID := api.ID (registration s);
          api.svc_Service := api.Name (registration s);
          api.svc_Tags := api.Tags (registration s);
          api.svc_Address := api.Address (registration s);
          api.svc_Port := api.Port (registration s) |} |}.

Definition memoryAgent : api.Client agentState :=
  {| api.ServiceRegister := fun reg st =>
       (None,
        (filter (fun s => negb (String.eqb (api.ID (registration s)) (api.ID reg))) st
         ++ [{| registration := reg; passing := false |}])%list);
     api.UpdateTTL := fun checkID status st =>
       if hasCheck checkID st then
         (None,
          map (fun s =>
                 if String.eqb (api.CheckID (api.Check (registration s))) checkID
                 then {| registration := registration s;
                         passing := String.eqb status "passing" |}
                 else s) st)
       else (Some "unknown check", st);
     api.ServiceDeregister := fun serviceID st =>
       if hasService serviceID st then
         (None,
          filter (fun s => negb (String.eqb (api.ID (registration s)) serviceID)) st)
       else (Some "unknown service", st);
     api.HealthService := fun name tag passingOnly st =>
       (inl (map entryOf
               (filter (fun s =>
                          String.eqb (api.Name (registration s)) name
                          && (passing s || negb passingOnly)
                          && (String.eqb tag ""
                              || existsb (String.eqb tag) (api.Tags (registration s))))
                       st)),
        st) |}.

(** The agent kept in memory behind a connection that carries [n] more
    calls and is then lost. *)
Definition agentUntil : api.Client (nat * agentState) :=
  {| api.ServiceRegister := fun reg st =>
       match fst st with
       | O => (Some "connection refused", st)
       | S n => let r := api.ServiceRegister memoryAgent reg (snd st) in
                (fst r, (n, snd r))
       end;
     api.UpdateTTL := fun checkID status st =>
       match fst st with
       | O => (Some "connection refused", st)
       | S n => let r := api.UpdateTTL memoryAgent checkID status (snd st) in
                (fst r, (n, snd r))
       end;
     api.ServiceDeregister := fun serviceID st =>
       match fst st with
       | O => (Some "connection refused", st)
       | S n => let r := api.ServiceDeregister memoryAgent serviceID (snd st) in
                (fst r, (n, snd r))
       end;
     api.HealthService := fun name tag passingOnly st =>
       match fst st with
       | O => (inr "connection refused", st)
       | S n => let r := api.HealthService memoryAgent name tag passingOnly (snd st) in
                (fst r, (n, snd r))
       end |}.


(** The agent kept in memory, with a health endpoint that fails. *)
Definition agentWithoutHealth : api.Client agentState :=
  {| api.ServiceRegister := api.ServiceRegister memoryAgent;
     api.UpdateTTL := api.UpdateTTL memoryAgent;
     api.ServiceDeregister := api.ServiceDeregister memoryAgent;
     api.HealthService := fun _ _ _ st => (inr "health endpoint unavailable", st) |}.

(** An agent that cannot be reached. *)
Definition unreachableAgent : api.Client unit :=
  {| api.ServiceRegister := fun _ st => (Some "connection refused", st);
     api.UpdateTTL := fun _ _ st => (Some "connection refused", st);
     api.ServiceDeregister := fun _ st => (Some "connection refused", st);
     api.HealthService := fun _ _ _ st => (inr "connection refused", st) |}.

(** An etcd store that answers every [Get] with the listing it holds and
    accepts every write. *)
Definition store : client.KeysAPI (client.Node + error) :=
  {| client.Set_ := fun _ _ _ st => (None, st);
     client.Get := fun _ _ st => (st, st);
     client.Delete := fun _ _ st => (None, st) |}.

(** A configuration utility without a gateway URL. *)
Definition GetString {B} (c : config.Options) (key : string) (b : B) : (string * bool) * B :=
  (("", false), b).

(** An agent that holds one instance of "svc" in "dev", version 1.0.0, whose
    check passes. *)
Definition healthyAgent : agentState :=
  [{| registration :=
        {| api.Port := 8080; api.ID := "svc-1111"; api.Name := "dev-svc";
           api.Tags := ["http"; "version=1.0.0"]; api.Address := "10.0.0.5";
           api.Check :=
             {| api.CheckID := "check-svc-1111"; api.TTL := "30s";
                api.DeregisterCriticalServiceAfter := "10s" |} |};
      passing := true |}].



(** The listing of [/environments/dev/services/svc/1.0.0/instances/] with one
    instance that has a URL and is not disabled. *)
Definition healthyListing : client.Node :=
  client.mkNode "/environments/dev/services/svc/1.0.0/instances" ""
    [client.mkNode "/environments/dev/services/svc/1.0.0/instances/1111" ""
       [client.mkNode "/environments/dev/services/svc/1.0.0/instances/1111/url"
                      "http://10.0.0.5:8080" []]].

(** The options of the README's example, for the service "svc". *)
(** A service of another origin, tagged "versioned", whose check passes. *)
Definition versionedService : service :=
  {| registration :=
       {| api.Port := 7070; api.ID := "svc-3333"; api.Name := "dev-svc";
          api.Tags := ["http"; "versioned"]; api.Address := "10.0.0.7";
          api.Check :=
            {| api.CheckID := "check-svc-3333"; api.TTL := "30s";
               api.DeregisterCriticalServiceAfter := "10s" |} |};
     passing := true |}.

(** A listing of "svc" in "dev" whose version directory 1.0.0 is empty. *)
Definition emptyVersionListing : client.Node :=
  client.mkNode "/environments/dev/services/svc" ""
    [client.mkNode "/environments/dev/services/svc/1.0.0" "" []].

Definition registerOptions (singleton : bool) : RegisterOptions :=
  {| ro_Value := "svc"; ro_TTL := 30; ro_PingInterval := 20;
     ro_Environment := "dev"; ro_Version := "1.0.0"; ro_Singleton := singleton |}.

Definition discoverOptions (value : string) : DiscoverOptions :=
  {| do_Value := value; do_Environment := "dev"; do_Version := "*";
     do_AccessType := "DIRECT" |}.

(** A fresh Consul source in front of a backend in state [b]. *)
Definition consulWorld {B} (startRD maxRD : Z) (b : B) : @Consul.world B :=
  Consul.fresh configOptions startRD maxRD "http" b.

(** A fresh etcd source in front of a backend in state [b]. *)
Definition etcdWorld {B} (startRD maxRD : Z) (b : B) : @Etcd.world B :=
  Etcd.fresh configOptions startRD maxRD b.

(** The world a computation ends in; the start world when it panics. *)
Definition after {W A} (m : M W A) (w : W) : W :=
  match m w with
  | Returns (_, w') => w'
  | Panics _ => w
  end.

End Sample.

(** * Properties *)

#[local] Open Scope list_scope.

(** ** Reasoning about computations *)

Lemma bind_Returns {W A B} (m : M W A) (k : A -> M W B) w b w' :
  bind m k w = Returns (b, w') ->
  exists a w1, m w = Returns (a, w1) /\ k a w1 = Returns (b, w').
Proof.
  unfold bind. destruct (m w) as [[a w1]|why]; [eauto | discriminate].
Qed.

Lemma bind_step {W A B} (m : M W A) (k : A -> M W B) w a w1 :
  m w = Returns (a, w1) -> bind m k w = k a w1.
Proof. unfold bind. intros ->. reflexivity. Qed.

Ltac run_go :=
  cbv [bind ret gets modify deref call emit panic Consul.sleep Etcd.sleep
       with_src go_run resume] in *;
  cbn [src agent goroutines trace fst snd] in *.

Ltac known Hi Ho :=
  repeat (first [rewrite Hi | rewrite Ho | progress cbn -[append]]).

Ltac innermost x :=
  lazymatch x with
  | context [match ?y with _ => _ end] => innermost y
  | _ => destruct x eqn:?
  end.

Ltac branch Hi Ho :=
  known Hi Ho;
  repeat (lazymatch goal with
          | |- context [match ?x with _ => _ end] => innermost x
          end; known Hi Ho).

(** ** The shape of a retry loop

    Both sources run the same loop: a body that either fails, sleeps for the
    current delay and goes on with [nextRetryDelay], or succeeds and goes on
    with the start delay. What follows from that shape alone is proved once. *)

Lemma wrap64_small z : - 2 ^ 63 <= z < 2 ^ 63 -> wrap64 z = z.
Proof.
  intros H. unfold wrap64.
  rewrite Z.mod_small by lia. lia.
Qed.

Lemma nextRetryDelay_min maxRD r :
  0 <= r <= maxRD -> maxRD <= maxMilliseconds ->
  nextRetryDelay maxRD r = Z.min (r * 2) maxRD.
Proof.
  unfold nextRetryDelay, maxMilliseconds. intros Hr Hm.
  rewrite wrap64_small by lia.
  destruct (Z.gtb_spec (r * 2) maxRD); lia.
Qed.

Lemma min_pow_step start maxRD k :
  0 <= start <= maxRD ->
  Z.min (Z.min (start * 2 ^ Z.of_nat k) maxRD * 2) maxRD
  = Z.min (start * 2 ^ Z.of_nat (S k)) maxRD.
Proof.
  intros H. rewrite Nat2Z.inj_succ, Z.pow_succ_r by lia.
  assert (0 < 2 ^ Z.of_nat k) by (apply Z.pow_pos_nonneg; lia).
  nia.
Qed.

Lemma min_pow_shift r maxRD k :
  0 <= r <= maxRD ->
  Z.min (Z.min (r * 2) maxRD * 2 ^ Z.of_nat k) maxRD
  = Z.min (r * 2 ^ Z.of_nat (S k)) maxRD.
Proof.
  intros H. rewrite Nat2Z.inj_succ, Z.pow_succ_r by lia.
  assert (0 < 2 ^ Z.of_nat k) by (apply Z.pow_pos_nonneg; lia).
  nia.
Qed.

Lemma Duration_milliseconds r :
  0 <= r <= maxMilliseconds -> Duration r Millisecond = r * 1000000.
Proof.
  unfold Duration, Millisecond, maxMilliseconds. intros H.
  apply wrap64_small. lia.
Qed.

Section Loop.
Context {W : Type}.
Variable body : Z -> M W Z.
Variable registered : W -> bool.
Variable sleeps : W -> list Z.
Variable startOf maxOf : W -> Z.
Variable ready : W -> Prop.

Hypothesis body_spec : forall r w,
  ready w ->
  exists next w' pause,
    body r w = Returns (next, w')
    /\ ready w' /\ startOf w' = startOf w /\ maxOf w' = maxOf w
    /\ sleeps w' = sleeps w ++ pause
    /\ (registered w' = false ->
        next = nextRetryDelay (maxOf w) r /\ pause = [Duration r Millisecond])
    /\ (registered w' = true -> next = startOf w).

Lemma failStreak_delay k : forall r w rk wk,
  ready w -> 0 <= r <= maxOf w -> maxOf w <= maxMilliseconds ->
  failStreak body registered k r w = Some (rk, wk) ->
  ready wk /\ startOf wk = startOf w /\ maxOf wk = maxOf w
  /\ rk = Z.min (r * 2 ^ Z.of_nat k) (maxOf w).
Proof.
  induction k as [|k IH]; intros r w rk wk Hready Hr Hmax Hs; cbn in Hs.
  - inversion Hs; subst. repeat split; try assumption.
    rewrite Z.pow_0_r. lia.
  - destruct (body_spec r w Hready)
      as (next & w' & pause & Hb & Hready' & Hst & Hmx & _ & Hfail & _).
    rewrite Hb in Hs. destruct (registered w') eqn:Hreg; [discriminate|].
    destruct (Hfail eq_refl) as [-> _].
    rewrite nextRetryDelay_min in Hs by assumption.
    apply IH in Hs; try assumption; try lia.
    destruct Hs as (Hrk & Hsk & Hmk & ->).
    repeat split; try congruence.
    rewrite Hmx. apply min_pow_shift. assumption.
Qed.

(** After [k] failures in a row that started with the start delay, the next
    body runs with [min (start * 2^k) max]; when it fails too it sleeps that
    many milliseconds and doubles again, and when it succeeds the delay is
    back at the start delay. *)
Lemma failStreak_next k w rk wk :
  ready w -> 0 <= startOf w <= maxOf w -> maxOf w <= maxMilliseconds ->
  failStreak body registered k (startOf w) w = Some (rk, wk) ->
  rk = Z.min (startOf w * 2 ^ Z.of_nat k) (maxOf w)
  /\ exists next w' pause,
       body rk wk = Returns (next, w')
       /\ sleeps w' = sleeps wk ++ pause
       /\ (registered w' = false ->
           next = Z.min (startOf w * 2 ^ Z.of_nat (S k)) (maxOf w)
           /\ pause = [Z.min (startOf w * 2 ^ Z.of_nat k) (maxOf w) * 1000000])
       /\ (registered w' = true -> next = startOf w).
Proof.
  intros Hready Hr Hmax Hs.
  destruct (failStreak_delay k _ _ _ _ Hready Hr Hmax Hs) as (Hrk & Hsk & Hmk & ->).
  split; [reflexivity|].
  destruct (body_spec (Z.min (startOf w * 2 ^ Z.of_nat k) (maxOf w)) wk Hrk)
    as (next & w' & pause & Hb & _ & _ & _ & Hsl & Hfail & Hok).
  exists next, w', pause. repeat split; try assumption.
  - destruct (Hfail H) as [-> _]. rewrite Hmk.
    assert (0 <= startOf w * 2 ^ Z.of_nat k) by (apply Z.mul_nonneg_nonneg; lia).
    rewrite nextRetryDelay_min by lia.
    apply min_pow_step. assumption.
  - destruct (Hfail H) as [_ ->].
    assert (0 <= startOf w * 2 ^ Z.of_nat k) by (apply Z.mul_nonneg_nonneg; lia).
    rewrite Duration_milliseconds by lia. reflexivity.
  - intros H. rewrite (Hok H). assumption.
Qed.
End Loop.

(** ** The Consul registration loop *)

Section ConsulLoop.
Import Consul.

Lemma consul_registeredAs_same d inst :
  serviceInstance d = Some inst -> registeredAs (isRegistered inst) d = d.
Proof.
  intros H. destruct d; cbn in *; subst. destruct inst; reflexivity.
Qed.

Context {B : Type} (client : api.Client B).

#[local] Opaque Duration nextRetryDelay FormatInt.

Lemma consul_runBody_spec (r : Z) (w : world) inst opts :
  serviceInstance (src w) = Some inst -> options (src w) = Some opts ->
  exists ok next w' e evs,
    runBody client r w = Returns (next, w')
    /\ src w' = registeredAs ok (src w)
    /\ goroutines w' = goroutines w
    /\ trace w' = trace w ++ e :: evs ++ pauseOf ok (isRegistered inst) r opts
    /\ attemptEvent e = true /\ forallb attemptEvent evs = true
    /\ e = (if isRegistered inst
            then EvUpdateTTL ("check-" ++ id inst)%string "passing"
            else EvHealthService (id inst) "" true)
    /\ next = (if ok then startRetryDelay (src w)
               else nextRetryDelay (maxRetryDelay (src w)) r).
Proof.
  intros Hi Ho. pose proof (consul_registeredAs_same _ _ Hi) as Hsame.
  unfold runBody, attempt, register, ttlUpdate, isServiceRegistered, store_isRegistered.
  run_go. branch Hi Ho; try (cbn in *; congruence).
  all: lazymatch goal with
       | |- context [EvSleep (Duration _ Millisecond)] => exists false
       | _ => exists true
       end.
  all: rewrite <- ?app_assoc; cbn [app].
  all: do 2 eexists.
  all: lazymatch goal with
       | |- context [_ ++ [?e; ?e2; EvSleep _]] => exists e, [e2]
       | |- context [_ ++ [?e; EvSleep _]] => exists e, []
       | |- context [_ ++ [?e; ?e2]] => exists e, [e2]
       | |- context [_ ++ [?e]] => exists e, []
       end.
  all: split; [reflexivity|]; cbn [src goroutines trace].
  all: repeat match goal with H : isRegistered inst = _ |- _ => rewrite H in * end.
  all: repeat split;
    first [ reflexivity
          | symmetry; exact Hsame
          | unfold registeredAs; rewrite Hi, Ho; reflexivity ].
Qed.

Lemma consul_sleepsOf_app tr1 tr2 : sleepsOf (tr1 ++ tr2) = sleepsOf tr1 ++ sleepsOf tr2.
Proof. unfold sleepsOf. apply flat_map_app. Qed.

Lemma consul_sleepsOf_attempt evs : forallb attemptEvent evs = true -> sleepsOf evs = [].
Proof.
  induction evs as [|e evs IH]; cbn; [reflexivity|].
  intros H. apply andb_prop in H as [He Hevs].
  destruct e; cbn in *; try discriminate; auto.
Qed.

Lemma consul_ready_inv (w : @world B) :
  ready w -> exists inst opts,
    serviceInstance (src w) = Some inst /\ options (src w) = Some opts.
Proof.
  intros [Hi Ho].
  destruct (serviceInstance (src w)) as [inst|]; [|contradiction].
  destruct (options (src w)) as [opts|]; [|contradiction].
  eauto.
Qed.

(** The body of [run] in the terms of the retry loop. *)
Lemma consul_runBody_loop (r : Z) (w : world) :
  ready w ->
  exists next w' pause,
    runBody client r w = Returns (next, w')
    /\ ready w'
    /\ startRetryDelay (src w') = startRetryDelay (src w)
    /\ maxRetryDelay (src w') = maxRetryDelay (src w)
    /\ sleepsOf (trace w') = sleepsOf (trace w) ++ pause
    /\ (registered w' = false ->
        next = nextRetryDelay (maxRetryDelay (src w)) r
        /\ pause = [Duration r Millisecond])
    /\ (registered w' = true -> next = startRetryDelay (src w)).
Proof.
  intros Hready. destruct (consul_ready_inv w Hready) as (inst & opts & Hi & Ho).
  destruct (consul_runBody_spec r w inst opts Hi Ho)
    as (ok & next & w' & e & evs & Hrun & Hsrc & Hgo & Htr & He & Hevs & _ & Hnext).
  exists next, w', (sleepsOf (pauseOf ok (isRegistered inst) r opts)).
  assert (Hreg : registered w' = ok).
  { unfold registered. rewrite Hsrc. cbn. rewrite Hi. reflexivity. }
  split; [exact Hrun|]. split.
  { unfold ready. rewrite Hsrc. cbn. rewrite Hi, Ho. split; discriminate. }
  rewrite Hsrc, Htr, Hreg. cbn [registeredAs startRetryDelay maxRetryDelay].
  repeat split.
  - change (e :: evs ++ pauseOf ok (isRegistered inst) r opts)
      with ((e :: evs) ++ pauseOf ok (isRegistered inst) r opts).
    rewrite !consul_sleepsOf_app.
    rewrite (consul_sleepsOf_attempt (e :: evs)) by (cbn; rewrite He, Hevs; reflexivity).
    reflexivity.
  - rewrite H in Hnext. exact Hnext.
  - rewrite H. reflexivity.
  - intros H. rewrite H in Hnext. exact Hnext.
Qed.

Lemma consul_RegisterService_spec loadConf (options : RegisterOptions) (uuid4 : string)
      (w : @world B) :
  exists w' : @world B,
    RegisterService loadConf options uuid4 w
    = Returns ((rc_Name (loadConf (configOptions (src w)) options) ++ "-" ++ uuid4,
                None)%string, w')
    /\ ready w' /\ registered w' = false
    /\ startRetryDelay (src w') = startRetryDelay (src w)
    /\ maxRetryDelay (src w') = maxRetryDelay (src w)
    /\ lastKnownService (src w') = lastKnownService (src w)
    /\ gatewayURLs (src w') = gatewayURLs (src w)
    /\ agent w' = agent w /\ trace w' = trace w
    /\ goroutines w' = goroutines w ++ [startRetryDelay (src w)].
Proof.
  unfold RegisterService. run_go. eexists. split; [reflexivity|].
  unfold ready, registered. cbn. repeat split; discriminate.
Qed.

Lemma consul_DeregisterService_spec (w : world) inst :
  serviceInstance (src w) = Some inst ->
  exists err w',
    DeregisterService client w = Returns (err, w')
    /\ src w' = src w /\ goroutines w' = goroutines w
    /\ trace w' = trace w ++ [EvServiceDeregister (id inst)].
Proof.
  intros Hi. unfold DeregisterService. run_go. rewrite Hi.
  do 2 eexists. split; [reflexivity|]. cbn. auto.
Qed.

End ConsulLoop.

(** ** The etcd registration loop *)

Section EtcdLoop.
Import Etcd.

Context {B : Type} (kvClient : client.KeysAPI B).

#[local] Opaque Duration nextRetryDelay FormatInt.

Lemma etcd_runBody_spec (r : Z) (w : world) inst opts :
  serviceInstance (src w) = Some inst -> options (src w) = Some opts ->
  exists ok next w' e evs inst',
    runBody kvClient r w = Returns (next, w')
    /\ untouched (src w) (src w')
    /\ serviceInstance (src w') = Some inst'
    /\ isRegistered inst' = ok /\ id inst' = id inst
    /\ etcdKeyDir inst' = etcdKeyDir inst /\ singleton inst' = singleton inst
    /\ goroutines w' = goroutines w
    /\ trace w' = trace w ++ e :: evs
                  ++ [EvSleep (if ok then Duration (rc_Discovery_PingInterval opts) Second
                               else Duration r Millisecond)]
    /\ attemptEvent e = true /\ forallb attemptEvent evs = true
    /\ (if isRegistered inst then refreshEvent (etcdKeyDir inst) e else getEvent e) = true
    /\ next = (if ok then startRetryDelay (src w)
               else nextRetryDelay (maxRetryDelay (src w)) r).
Proof.
  intros Hi Ho.
  unfold runBody, attempt, register, ttlUpdate, isServiceRegistered, store_isRegistered.
  run_go. branch Hi Ho; try (cbn in *; congruence).
  all: lazymatch goal with
       | |- context [EvSleep (Duration _ Millisecond)] => exists false
       | _ => exists true
       end.
  all: rewrite <- ?app_assoc; cbn [app].
  all: do 2 eexists.
  all: lazymatch goal with
       | |- context [_ ++ [?e; ?e2; ?e3; EvSleep _]] => exists e, [e2; e3]
       | |- context [_ ++ [?e; ?e2; EvSleep _]] => exists e, [e2]
       | |- context [_ ++ [?e; EvSleep _]] => exists e, []
       end.
  all: eexists; split; [reflexivity|]; cbn [src goroutines trace].
  all: unfold untouched; cbn -[append]; rewrite ?Hi, ?Ho.
  all: repeat match goal with H : isRegistered inst = _ |- _ => rewrite H in * end.
  all: repeat split; try reflexivity.
  all: cbn -[append]; rewrite ?String.eqb_refl; try reflexivity; try assumption.
Qed.

Lemma etcd_sleepsOf_app tr1 tr2 : sleepsOf (tr1 ++ tr2) = sleepsOf tr1 ++ sleepsOf tr2.
Proof. unfold sleepsOf. apply flat_map_app. Qed.

Lemma etcd_sleepsOf_attempt evs : forallb attemptEvent evs = true -> sleepsOf evs = [].
Proof.
  induction evs as [|e evs IH]; cbn; [reflexivity|].
  intros H. apply andb_prop in H as [He Hevs].
  destruct e; cbn in *; try discriminate; auto.
Qed.

Lemma etcd_ready_inv (w : @world B) :
  ready w -> exists inst opts,
    serviceInstance (src w) = Some inst /\ options (src w) = Some opts.
Proof.
  intros [Hi Ho].
  destruct (serviceInstance (src w)) as [inst|]; [|contradiction].
  destruct (options (src w)) as [opts|]; [|contradiction].
  eauto.
Qed.

(** The body of [run] in the terms of the retry loop. *)
Lemma etcd_runBody_loop (r : Z) (w : world) :
  ready w ->
  exists next w' pause,
    runBody kvClient r w = Returns (next, w')
    /\ ready w'
    /\ startRetryDelay (src w') = startRetryDelay (src w)
    /\ maxRetryDelay (src w') = maxRetryDelay (src w)
    /\ sleepsOf (trace w') = sleepsOf (trace w) ++ pause
    /\ (registered w' = false ->
        next = nextRetryDelay (maxRetryDelay (src w)) r
        /\ pause = [Duration r Millisecond])
    /\ (registered w' = true -> next = startRetryDelay (src w)).
Proof.
  intros Hready. destruct (etcd_ready_inv w Hready) as (inst & opts & Hi & Ho).
  destruct (etcd_runBody_spec r w inst opts Hi Ho)
    as (ok & next & w' & e & evs & inst' & Hrun & Hun & Hi' & Hok & _ & _ & _
        & Hgo & Htr & He & Hevs & _ & Hnext).
  destruct Hun as (Hst & Hmx & _ & Hopt & _ & _).
  exists next, w',
    [if ok then Duration (rc_Discovery_PingInterval opts) Second
     else Duration r Millisecond].
  assert (Hreg : registered w' = ok).
  { unfold registered. rewrite Hi'. exact Hok. }
  split; [exact Hrun|]. split.
  { unfold ready. rewrite Hi', Hopt, Ho. split; discriminate. }
  rewrite Htr, Hreg. repeat split; try assumption.
  - change (e :: evs ++ ?p) with ((e :: evs) ++ p).
    rewrite !etcd_sleepsOf_app.
    rewrite (etcd_sleepsOf_attempt (e :: evs)) by (cbn; rewrite He, Hevs; reflexivity).
    reflexivity.
  - rewrite H in Hnext. exact Hnext.
  - rewrite H. reflexivity.
  - intros H. rewrite H in Hnext. exact Hnext.
Qed.

Lemma etcd_RegisterService_spec loadConf (options : RegisterOptions) (uuid4 : string)
      (w : @world B) :
  exists w' : @world B,
    RegisterService loadConf options uuid4 w = Returns ((uuid4, None), w')
    /\ ready w' /\ registered w' = false
    /\ startRetryDelay (src w') = startRetryDelay (src w)
    /\ maxRetryDelay (src w') = maxRetryDelay (src w)
    /\ lastKnownService (src w') = lastKnownService (src w)
    /\ gatewayURLs (src w') = gatewayURLs (src w)
    /\ agent w' = agent w /\ trace w' = trace w
    /\ goroutines w' = goroutines w ++ [startRetryDelay (src w)].
Proof.
  unfold RegisterService. run_go. eexists. split; [reflexivity|].
  unfold ready, registered. cbn. repeat split; discriminate.
Qed.

Lemma etcd_DeregisterService_spec (w : world) inst :
  serviceInstance (src w) = Some inst ->
  exists err w',
    DeregisterService kvClient w = Returns (err, w')
    /\ src w' = src w /\ goroutines w' = goroutines w
    /\ trace w' = trace w
                  ++ [EvDelete (etcdKeyDir inst)
                               {| client.del_Recursive := true; client.del_Dir := true |}].
Proof.
  intros Hi. unfold DeregisterService. run_go. rewrite Hi.
  do 2 eexists. split; [reflexivity|]. cbn. auto.
Qed.

End EtcdLoop.

(** ** Retry delays *)

(** A source whose start delay exceeds its maximum delay, in front of an
    agent that cannot be reached: the first failure sleeps the start delay,
    5000 ms, where [min (start * 2^k) max] is 2000 ms. And a
    delay of [2^62] ms doubles to [-2^63], not to the maximum. *)
Lemma retry_delay_not_always_clamped :
  let w := Sample.after
             (Consul.RegisterService Sample.loadServiceRegisterConfiguration
                                     (Sample.registerOptions false) "1111")
             (Sample.consulWorld 5000 2000 tt) in
  goroutines w = [5000]
  /\ Consul.sleepsOf (trace (Sample.after (Consul.run Sample.unreachableAgent 3 5000) w))
     = [5000000000; 2000000000; 2000000000]
  /\ Consul.sleepsOf (trace (Sample.after (Consul.run Sample.unreachableAgent 3 5000) w))
     <> map (fun k => Z.min (5000 * 2 ^ k) 2000 * 1000000) [0; 1; 2]
  /\ nextRetryDelay (2 ^ 63 - 1) (2 ^ 62) = - 2 ^ 63
  /\ nextRetryDelay (2 ^ 63 - 1) (2 ^ 62) <> Z.min (2 ^ 62 * 2) (2 ^ 63 - 1).
Proof.
  cbv zeta. repeat split; try (vm_compute; reflexivity); vm_compute; discriminate.
Qed.

(** C4, as amended. For a source with [0 <= startRetryDelay <= maxRetryDelay]
    and [maxRetryDelay] small enough for its [time.Duration] to fit [int64]:
    [RegisterService] starts [run] with the start delay; after [k] failed
    attempts in a row that began with the start delay, the next attempt runs with
    [min (start * 2^k) max]; if it fails it sleeps that many milliseconds and
    the delay doubles, clamped at the maximum; if it succeeds the delay is
    the start delay again. For both sources. *)
Theorem retry_delay_sequence :
  (forall B (client : api.Client B) (w : @Consul.world B) k rk wk,
      Consul.ready w ->
      0 <= Consul.startRetryDelay (src w) <= Consul.maxRetryDelay (src w) ->
      Consul.maxRetryDelay (src w) <= maxMilliseconds ->
      failStreak (Consul.runBody client) Consul.registered k
                 (Consul.startRetryDelay (src w)) w = Some (rk, wk) ->
      rk = Z.min (Consul.startRetryDelay (src w) * 2 ^ Z.of_nat k)
                 (Consul.maxRetryDelay (src w))
      /\ exists next w' pause,
           Consul.runBody client rk wk = Returns (next, w')
           /\ Consul.sleepsOf (trace w') = Consul.sleepsOf (trace wk) ++ pause
           /\ (Consul.registered w' = false ->
               next = Z.min (Consul.startRetryDelay (src w) * 2 ^ Z.of_nat (S k))
                            (Consul.maxRetryDelay (src w))
               /\ pause = [Z.min (Consul.startRetryDelay (src w) * 2 ^ Z.of_nat k)
                                 (Consul.maxRetryDelay (src w)) * 1000000])
           /\ (Consul.registered w' = true -> next = Consul.startRetryDelay (src w)))
  /\ (forall B (kvClient : client.KeysAPI B) (w : @Etcd.world B) k rk wk,
      Etcd.ready w ->
      0 <= Etcd.startRetryDelay (src w) <= Etcd.maxRetryDelay (src w) ->
      Etcd.maxRetryDelay (src w) <= maxMilliseconds ->
      failStreak (Etcd.runBody kvClient) Etcd.registered k
                 (Etcd.startRetryDelay (src w)) w = Some (rk, wk) ->
      rk = Z.min (Etcd.startRetryDelay (src w) * 2 ^ Z.of_nat k)
                 (Etcd.maxRetryDelay (src w))
      /\ exists next w' pause,
           Etcd.runBody kvClient rk wk = Returns (next, w')
           /\ Etcd.sleepsOf (trace w') = Etcd.sleepsOf (trace wk) ++ pause
           /\ (Etcd.registered w' = false ->
               next = Z.min (Etcd.startRetryDelay (src w) * 2 ^ Z.of_nat (S k))
                            (Etcd.maxRetryDelay (src w))
               /\ pause = [Z.min (Etcd.startRetryDelay (src w) * 2 ^ Z.of_nat k)
                                 (Etcd.maxRetryDelay (src w)) * 1000000])
           /\ (Etcd.registered w' = true -> next = Etcd.startRetryDelay (src w)))
  /\ (forall B loadConf options uuid4 (w : @Consul.world B),
      exists res w',
        Consul.RegisterService loadConf options uuid4 w = Returns (res, w')
        /\ goroutines w' = goroutines w ++ [Consul.startRetryDelay (src w)])
  /\ (forall B loadConf options uuid4 (w : @Etcd.world B),
      exists res w',
        Etcd.RegisterService loadConf options uuid4 w = Returns (res, w')
        /\ goroutines w' = goroutines w ++ [Etcd.startRetryDelay (src w)]).
Proof.
  split; [|split; [|split]].
  - intros B client w k rk wk Hready Hr Hmax Hs.
    exact (failStreak_next (Consul.runBody client) Consul.registered
             (fun w => Consul.sleepsOf (trace w))
             (fun w => Consul.startRetryDelay (src w))
             (fun w => Consul.maxRetryDelay (src w))
             Consul.ready (fun r w H => consul_runBody_loop client r w H)
             k w rk wk Hready Hr Hmax Hs).
  - intros B kvClient w k rk wk Hready Hr Hmax Hs.
    exact (failStreak_next (Etcd.runBody kvClient) Etcd.registered
             (fun w => Etcd.sleepsOf (trace w))
             (fun w => Etcd.startRetryDelay (src w))
             (fun w => Etcd.maxRetryDelay (src w))
             Etcd.ready (fun r w H => etcd_runBody_loop kvClient r w H)
             k w rk wk Hready Hr Hmax Hs).
  - intros B loadConf options uuid4 w.
    destruct (consul_RegisterService_spec loadConf options uuid4 w)
      as (w' & Hr & _ & _ & _ & _ & _ & _ & _ & _ & Hg).
    eauto.
  - intros B loadConf options uuid4 w.
    destruct (etcd_RegisterService_spec loadConf options uuid4 w)
      as (w' & Hr & _ & _ & _ & _ & _ & _ & _ & _ & Hg).
    eauto.
Qed.

(** The theorem at work: start 100 ms, maximum 2000 ms, an agent that cannot
    be reached; after five failures the sixth attempt runs with 2000 ms. *)
Lemma retry_delay_sequence_witness :
  let w := Sample.after
             (Consul.RegisterService Sample.loadServiceRegisterConfiguration
                                     (Sample.registerOptions false) "1111")
             (Sample.consulWorld 100 2000 tt) in
  exists rk wk,
    failStreak (Consul.runBody Sample.unreachableAgent) Consul.registered 5
               (Consul.startRetryDelay (src w)) w = Some (rk, wk)
    /\ rk = Z.min (Consul.startRetryDelay (src w) * 2 ^ Z.of_nat 5)
                  (Consul.maxRetryDelay (src w)).
Proof.
  intros w.
  destruct (failStreak (Consul.runBody Sample.unreachableAgent) Consul.registered 5
                       (Consul.startRetryDelay (src w)) w) as [[rk wk]|] eqn:Hs.
  - exists rk, wk. split; [reflexivity|].
    refine (proj1 (proj1 retry_delay_sequence unit Sample.unreachableAgent w 5%nat rk wk
                         _ _ _ Hs)).
    + split; discriminate.
    + vm_compute. split; discriminate.
    + vm_compute. discriminate.
  - vm_compute in Hs. discriminate.
Defined.

(** ** The first heartbeat *)

(** The etcd source registers and then sleeps the ping interval (20 s) before
    its first TTL refresh: the event after the two writes of [register] is
    the sleep, and the refresh comes after it. *)
Lemma etcd_first_heartbeat_waits :
  let w := Sample.after
             (Etcd.RegisterService Sample.loadServiceRegisterConfiguration
                                   (Sample.registerOptions false) "2222")
             (Sample.etcdWorld 100 2000
                (inr "key not found" : client.Node + error)) in
  let tr := trace (Sample.after (Etcd.run Sample.store 2 100) w) in
  map Etcd.attemptEvent tr = [true; true; true; false; true; false]
  /\ nth_error tr 3 = Some (Etcd.EvSleep (20 * Second))
  /\ option_map (Etcd.refreshEvent "/environments/dev/services/svc/1.0.0/instances/2222")
                (nth_error tr 4) = Some true.
Proof. cbv zeta. repeat split; vm_compute; reflexivity. Qed.

(** C3, as amended. Consul source: a body of [run] that registers the
    instance sleeps nothing and hands on the start delay, and the next body
    begins with the TTL update; a body whose TTL update succeeds ends with a
    sleep of the ping interval. etcd source: a body that registers the
    instance ends with a sleep of the ping interval, so the first refresh
    waits like every other. *)
Theorem first_heartbeat :
  (forall B (client : api.Client B) (r : Z) (w : @Consul.world B) inst opts,
      Consul.serviceInstance (src w) = Some inst ->
      Consul.options (src w) = Some opts ->
      exists next w',
        Consul.runBody client r w = Returns (next, w')
        /\ (Consul.isRegistered inst = false -> Consul.registered w' = true ->
            Consul.sleepsOf (trace w') = Consul.sleepsOf (trace w)
            /\ next = Consul.startRetryDelay (src w)
            /\ exists next2 w2 evs,
                 Consul.runBody client next w' = Returns (next2, w2)
                 /\ trace w2 = trace w'
                      ++ Consul.EvUpdateTTL ("check-" ++ Consul.id inst)%string "passing"
                      :: evs)
        /\ (Consul.isRegistered inst = true -> Consul.registered w' = true ->
            exists evs,
              trace w' = trace w
                ++ Consul.EvUpdateTTL ("check-" ++ Consul.id inst)%string "passing"
                :: evs ++ [Consul.EvSleep (Duration (rc_Discovery_PingInterval opts) Second)]
              /\ Consul.sleepsOf evs = []))
  /\ (forall B (kvClient : client.KeysAPI B) (r : Z) (w : @Etcd.world B) inst opts,
      Etcd.serviceInstance (src w) = Some inst ->
      Etcd.options (src w) = Some opts ->
      exists next w',
        Etcd.runBody kvClient r w = Returns (next, w')
        /\ (Etcd.registered w' = true ->
            exists evs,
              trace w' = trace w
                ++ evs ++ [Etcd.EvSleep (Duration (rc_Discovery_PingInterval opts) Second)]
              /\ Etcd.sleepsOf evs = [])).
Proof.
  split.
  - intros B client r w inst opts Hi Ho.
    destruct (consul_runBody_spec client r w inst opts Hi Ho)
      as (ok & next & w' & e & evs & Hrun & Hsrc & Hgo & Htr & He & Hevs & Hfirst & Hnext).
    assert (Hreg : Consul.registered w' = ok).
    { unfold Consul.registered. rewrite Hsrc. cbn. rewrite Hi. reflexivity. }
    exists next, w'. split; [exact Hrun|]. rewrite Hreg. split.
    + intros Hnot ->. rewrite Hnot in *. cbn in Htr. rewrite app_nil_r in Htr.
      split; [|split; [exact Hnext|]].
      * rewrite Htr, consul_sleepsOf_app.
        rewrite (consul_sleepsOf_attempt (e :: evs))
          by (cbn; rewrite He, Hevs; reflexivity).
        apply app_nil_r.
      * assert (Hi' : Consul.serviceInstance (src w')
                      = Some (Consul.set_isRegistered true inst)).
        { rewrite Hsrc. cbn. rewrite Hi. reflexivity. }
        assert (Ho' : Consul.options (src w') = Some opts).
        { rewrite Hsrc. cbn. exact Ho. }
        destruct (consul_runBody_spec client next w' _ opts Hi' Ho')
          as (ok2 & next2 & w2 & e2 & evs2 & Hrun2 & _ & _ & Htr2 & _ & _ & He2 & _).
        cbn in He2. subst e2. eauto.
    + intros Hyes ->. rewrite Hyes in *. subst e. cbn in Htr.
      exists evs. split; [exact Htr|].
      apply consul_sleepsOf_attempt. exact Hevs.
  - intros B kvClient r w inst opts Hi Ho.
    destruct (etcd_runBody_spec kvClient r w inst opts Hi Ho)
      as (ok & next & w' & e & evs & inst' & Hrun & _ & Hi' & Hok & _ & _ & _
          & _ & Htr & He & Hevs & _ & _).
    exists next, w'. split; [exact Hrun|].
    unfold Etcd.registered. rewrite Hi', Hok. intros ->.
    exists (e :: evs). split; [exact Htr|].
    apply etcd_sleepsOf_attempt. cbn. rewrite He, Hevs. reflexivity.
Qed.

(** The theorem at work on a fresh Consul source in front of an agent kept in
    memory: the registering body sleeps nothing and the next one starts with
    the TTL update of the instance's check. *)
Lemma first_heartbeat_witness :
  let w := Sample.after
             (Consul.RegisterService Sample.loadServiceRegisterConfiguration
                                     (Sample.registerOptions false) "2222")
             (Sample.consulWorld 100 2000 ([] : Sample.agentState)) in
  exists next w',
    Consul.runBody Sample.memoryAgent 100 w = Returns (next, w')
    /\ Consul.sleepsOf (trace w') = Consul.sleepsOf (trace w)
    /\ next = 100
    /\ exists next2 w2 evs,
         Consul.runBody Sample.memoryAgent next w' = Returns (next2, w2)
         /\ trace w2 = trace w' ++ Consul.EvUpdateTTL "check-svc-2222" "passing" :: evs.
Proof.
  intros w.
  destruct (proj1 first_heartbeat _ Sample.memoryAgent 100 w _ _ eq_refl eq_refl)
    as (next & w' & Hrun & Hfirst & _).
  exists next, w'. split; [exact Hrun|].
  apply Hfirst; [reflexivity|].
  vm_compute in Hrun. inversion Hrun. reflexivity.
Defined.

(** ** Deregistration and the loop *)


Section ConsulSchedule.
Import Consul.
Context {B : Type} (client : api.Client B).
Variable loadConf : config.Options -> RegisterOptions -> registerConfiguration.
Variable sv : semver.Lib.
Variable getString : config.Options -> string -> B -> (string * bool) * B.
Variable fillDefaults : DiscoverOptions -> DiscoverOptions.
Variable pick :
  list (discoveredService (semver.Version sv)) -> list gatewayURLWatch ->
  DiscoverOptions -> string -> nat -> string * option error.



End ConsulSchedule.

Section EtcdSchedule.
Import Etcd.
Context {B : Type} (kvClient : client.KeysAPI B).
Variable loadConf : config.Options -> RegisterOptions -> registerConfiguration.
Variable sv : semver.Lib.
Variable getString : config.Options -> string -> B -> (string * bool) * B.
Variable fillDefaults : DiscoverOptions -> DiscoverOptions.
Variable pick :
  list (discoveredService (semver.Version sv)) -> list gatewayURLWatch ->
  DiscoverOptions -> string -> nat -> string * option error.



End EtcdSchedule.




(** ** What RegisterService returns *)



(** ** The singleton check *)

(** etcd source: with [singleton] set, an attempt to register while the
    listing of the service's instances holds one that is active and has a URL
    is refused: nothing is written, the instance stays unregistered, and the
    body sleeps the current delay and doubles it. *)
Lemma etcd_singleton_conflict_refused
      B (kvClient : client.KeysAPI B) (r : Z) (w : @Etcd.world B) inst opts node :
  Etcd.serviceInstance (src w) = Some inst ->
  Etcd.options (src w) = Some opts ->
  Etcd.isRegistered inst = false ->
  Etcd.singleton inst = true ->
  fst (client.Get kvClient (Etcd.instancesDir opts) {| client.Recursive := true |} (agent w))
  = inl node ->
  existsb (fun instance =>
             Etcd.isActiveOf (client.Nodes instance)
             && nonEmpty (Etcd.urlOf (client.Nodes instance)))
          (client.Nodes node) = true ->
  exists w',
    Etcd.runBody kvClient r w
    = Returns (nextRetryDelay (Etcd.maxRetryDelay (src w)) r, w')
    /\ Etcd.registered w' = false
    /\ trace w' = trace w
         ++ [Etcd.EvGet (Etcd.instancesDir opts) {| client.Recursive := true |};
             Etcd.EvSleep (Duration r Millisecond)].
Proof.
  intros Hi Ho Hreg Hsing Hget Hex. unfold Etcd.instancesDir in *.
  unfold Etcd.runBody, Etcd.attempt, Etcd.register, Etcd.isServiceRegistered,
    Etcd.registered.
  run_go. known Hi Ho. rewrite Hreg. known Hi Ho.
  rewrite Hget. known Hi Ho. rewrite Hex, Hsing. known Hi Ho.
  eexists. split; [reflexivity|]. cbn -[append Duration].
  rewrite Hi, Hreg, <- app_assoc. auto.
Qed.

(** C2 on the Consul source, at a failing input. The agent holds a passing
    instance "svc-1111" of the service "dev-svc" with the tag
    "version=1.0.0". A second source registers "svc" in "dev", version 1.0.0,
    with [Singleton] set: [isServiceRegistered] queries the health of the
    service named by the new instance's own id, "svc-2222", finds nothing,
    and the attempt registers the instance; the agent then holds both. *)
Theorem consul_singleton_check_queries_instance_id :
  let w := Sample.after
             (Consul.RegisterService Sample.loadServiceRegisterConfiguration
                                     (Sample.registerOptions true) "2222")
             (Sample.consulWorld 100 2000 Sample.healthyAgent) in
  let w' := Sample.after (Consul.runBody Sample.memoryAgent 100) w in
  option_map Consul.singleton (Consul.serviceInstance (src w)) = Some true
  /\ option_map Consul.name (Consul.serviceInstance (src w)) = Some "dev-svc"
  /\ map (fun e => api.svc_ID (api.Service e))
         (match fst (api.HealthService Sample.memoryAgent "dev-svc" "version=1.0.0" true
                                       (agent w)) with
          | inl l => l
          | inr _ => []
          end) = ["svc-1111"]
  /\ nth_error (trace w') 0 = Some (Consul.EvHealthService "svc-2222" "" true)
  /\ option_map Consul.attemptEvent (nth_error (trace w') 1) = Some true
  /\ List.length (trace w') = 2%nat
  /\ Consul.registered w' = true
  /\ map (fun s => api.ID (Sample.registration s)) (agent w') = ["svc-1111"; "svc-2222"].
Proof. cbv zeta. repeat split; vm_compute; reflexivity. Qed.

(** ** The gateway watch cache *)

Section CacheFacts.
Context {W : Type}.
Variable keys reads subs : W -> list string.

Lemma grows_refl w : grows keys reads subs w w.
Proof. exists []. rewrite !app_nil_r. auto. Qed.

Lemma grows_trans w1 w2 w3 :
  grows keys reads subs w1 w2 -> grows keys reads subs w2 w3 ->
  grows keys reads subs w1 w3.
Proof.
  intros (a1 & Hk1 & Hr1 & Hs1 & Hn1) (a2 & Hk2 & Hr2 & Hs2 & Hn2).
  exists (a1 ++ a2). rewrite Hk2, Hr2, Hs2, Hk1, Hr1, Hs1, <- !app_assoc.
  repeat split. intros Hn. rewrite app_assoc, <- Hk1, <- Hk2. auto.
Qed.

Lemma grows_consistent w w' :
  consistent keys reads subs w -> grows keys reads subs w w' ->
  consistent keys reads subs w'.
Proof.
  intros (Hn & Hr & Hs) (added & Hk' & Hr' & Hs' & Hn').
  unfold consistent. rewrite Hk', Hr', Hs', Hr, Hs. rewrite <- Hk'. auto.
Qed.

Lemma grows_In w w' ns :
  grows keys reads subs w w' -> In ns (keys w) -> In ns (keys w').
Proof.
  intros (added & Hk & _) Hin. rewrite Hk. apply in_or_app. auto.
Qed.
End CacheFacts.

Lemma NoDup_snoc {A} (l : list A) x : NoDup l -> ~ In x l -> NoDup (l ++ [x]).
Proof.
  induction l as [|a l IH]; cbn; intros Hn Hx.
  - constructor; [intros []|constructor].
  - inversion Hn; subst. constructor.
    + intros Hin. apply in_app_or in Hin as [Hin|[->|[]]]; tauto.
    + apply IH; tauto.
Qed.

Lemma hasWatch_In gws ns : hasWatch gws ns = true <-> In ns (map gatewayID gws).
Proof.
  unfold hasWatch. rewrite existsb_exists, in_map_iff. split.
  - intros (w & Hin & He). apply String.eqb_eq in He. eauto.
  - intros (w & He & Hin). exists w. split; [exact Hin|]. apply String.eqb_eq. exact He.
Qed.

Lemma gatewayUrlChanged_keys ns value gws :
  map gatewayID (gatewayUrlChanged ns value gws) = map gatewayID gws.
Proof.
  induction gws as [|w gws IH]; cbn; [reflexivity|].
  destruct (String.eqb (gatewayID w) ns); cbn; [reflexivity|].
  rewrite IH. reflexivity.
Qed.

Section ConsulDiscovery.
Import Consul.
Context {B : Type} (client : api.Client B).
Variable loadConf : config.Options -> RegisterOptions -> registerConfiguration.
Variable sv : semver.Lib.
Variable getString : config.Options -> string -> B -> (string * bool) * B.
Variable fillDefaults : DiscoverOptions -> DiscoverOptions.
Variable pick :
  list (discoveredService (semver.Version sv)) -> list gatewayURLWatch ->
  DiscoverOptions -> string -> nat -> string * option error.

Lemma consul_identity_refl d : identity d d.
Proof. unfold identity. auto 10. Qed.

Lemma consul_identity_trans d1 d2 d3 : identity d1 d2 -> identity d2 d3 -> identity d1 d3.
Proof. unfold identity. intuition congruence. Qed.

Lemma consul_step_refl (w : @world B) : discoveryStep w w.
Proof.
  unfold discoveryStep. split; [apply consul_identity_refl|].
  split; [reflexivity|]. split; [reflexivity|]. apply grows_refl.
Qed.

Lemma consul_step_trans (w1 w2 w3 : @world B) : discoveryStep w1 w2 -> discoveryStep w2 w3 -> discoveryStep w1 w3.
Proof.
  intros (Hi1 & Hl1 & Hg1 & Hc1) (Hi2 & Hl2 & Hg2 & Hc2).
  unfold discoveryStep. split; [|split; [|split]]; try congruence.
  - eapply consul_identity_trans; eassumption.
  - eapply grows_trans; eassumption.
Qed.

Lemma consul_watchGateway_spec ns (w : @world B) :
  exists w',
    watchGateway getString ns w = Returns (tt, w')
    /\ discoveryStep w w' /\ In ns (watched w').
Proof.
  unfold watchGateway. run_go.
  destruct (hasWatch (gatewayURLs (src w)) ns) eqn:Hw.
  - exists w. split; [reflexivity|]. split; [apply consul_step_refl|].
    apply hasWatch_In. exact Hw.
  - eexists. split; [reflexivity|].
    unfold discoveryStep, cacheGrows, grows, watched, identity, readsOf, subscriptionsOf.
    cbn -[append]. rewrite map_app. cbn -[append].
    repeat split.
    + exists [ns]. rewrite <- app_assoc, !flat_map_app. cbn -[append].
      repeat split.
      intros Hn. apply NoDup_snoc; [exact Hn|].
      intros Hin. apply hasWatch_In in Hin. congruence.
    + apply in_or_app. right. left. reflexivity.
Qed.
Lemma consul_collect_spec options entries : forall acc (w : @world B) insts w',
  collectInstances sv getString options entries acc w = Returns (insts, w') ->
  discoveryStep w w'
  /\ exists new, insts = acc ++ new
       /\ forall i, In i new -> In (namespaceOf sv options i) (watched w').
Proof.
  induction entries as [|entry entries IH]; intros acc w insts w' H; cbn -[append] in H.
  - inversion H; subst. split; [apply consul_step_refl|].
    exists []. rewrite app_nil_r. split; [reflexivity|]. intros i [].
  - destruct (scanTags sv _ _) as [st|why]; [|discriminate].
    destruct (ts_versionOk sv st); cbn -[append] in H.
    + destruct (consul_watchGateway_spec
                  (watcherNamespaceOf options (semver.VersionString sv (ts_version sv st))) w)
        as (w1 & Hw & Hstep1 & Hin1).
      rewrite (bind_step _ _ _ _ _ Hw) in H.
      apply IH in H as (Hstep2 & new & -> & Hnew).
      split; [eapply consul_step_trans; eassumption|].
      eexists (_ :: new). rewrite <- app_assoc. split; [reflexivity|].
      intros i [<-|Hi]; [|auto].
      destruct Hstep2 as (_ & _ & _ & Hg).
      eapply grows_In; [exact Hg|]. exact Hin1.
    + apply IH in H. exact H.
Qed.

Lemma consul_select_spec options insts seed (w : @world B) :
  exists res (w' : @world B),
    selectService sv pick options insts seed w = Returns (res, w')
    /\ identity (src w) (src w') /\ goroutines w' = goroutines w
    /\ gatewayURLs (src w') = gatewayURLs (src w)
    /\ agent w' = agent w /\ trace w' = trace w
    /\ (snd res = None -> lastKnownService (src w') = fst res)
    /\ res = (let '(service, err) :=
                 pick insts (gatewayURLs (src w)) options (lastKnownService (src w)) seed in
               match err with
               | Some e => if nonEmpty service then (lastKnownService (src w), None)
                           else ("", Some e)
               | None => (service, None)
               end).
Proof.
  unfold selectService. run_go.
  destruct (pick insts _ options _ seed) as [service [e|]].
  - destruct (nonEmpty service); do 2 eexists; (split; [reflexivity|]);
      cbn; repeat split; try apply consul_identity_refl; try discriminate.
  - do 2 eexists. split; [reflexivity|]. cbn. repeat split.
Qed.

Lemma consul_readsOf_app tr1 tr2 : readsOf (tr1 ++ tr2) = readsOf tr1 ++ readsOf tr2.
Proof. unfold readsOf. apply flat_map_app. Qed.

Lemma consul_subscriptionsOf_app tr1 tr2 :
  subscriptionsOf (tr1 ++ tr2) = subscriptionsOf tr1 ++ subscriptionsOf tr2.
Proof. unfold subscriptionsOf. apply flat_map_app. Qed.

(** A world that differs in the backend's state and in events other than
    reads and subscriptions is the same to the cache. *)
Lemma consul_cacheGrows_quiet (w w' : @world B) evs :
  gatewayURLs (src w') = gatewayURLs (src w) ->
  trace w' = trace w ++ evs -> readsOf evs = [] -> subscriptionsOf evs = [] ->
  cacheGrows w w'.
Proof.
  intros Hg Ht Hr Hs. exists []. unfold watched.
  rewrite Hg, Ht, consul_readsOf_app, consul_subscriptionsOf_app, Hr, Hs, !app_nil_r.
  auto.
Qed.

Lemma consul_Discover_unfold options seed (w : @world B) :
  DiscoverService client sv getString fillDefaults pick options seed w
  = match fst (query client fillDefaults options w) with
    | inr err =>
        Returns (if nonEmpty (lastKnownService (src w))
                 then (lastKnownService (src w), None) else ("", Some err),
                 queried client fillDefaults options w)
    | inl serviceEntries =>
        bind (collectInstances sv getString (fillDefaults options) serviceEntries [])
             (fun insts => selectService sv pick (fillDefaults options) insts seed)
             (queried client fillDefaults options w)
    end.
Proof.
  unfold DiscoverService, query, queried. run_go.
  destruct (fst (api.HealthService _ _ _ _ _)) as [l|err]; [reflexivity|].
  destruct (nonEmpty _); reflexivity.
Qed.

Lemma consul_queried_step options (w : @world B) : discoveryStep w (queried client fillDefaults options w).
Proof.
  unfold discoveryStep, queried. cbn -[append].
  split; [apply consul_identity_refl|]. split; [reflexivity|]. split; [reflexivity|].
  eapply consul_cacheGrows_quiet; reflexivity.
Qed.

Lemma consul_Discover_spec options seed (w : @world B) res w' :
  DiscoverService client sv getString fillDefaults pick options seed w = Returns (res, w') ->
  identity (src w) (src w') /\ goroutines w' = goroutines w
  /\ cacheGrows w w'
  /\ (snd res = None -> fst res <> "" -> lastKnownService (src w') = fst res).
Proof.
  rewrite consul_Discover_unfold.
  pose proof (consul_queried_step options w) as (Hi0 & Hl0 & Hg0 & Hc0).
  destruct (fst (query client fillDefaults options w)) as [entries|err].
  - intros H. apply bind_Returns in H as (insts & w1 & Hcol & Hsel).
    apply consul_collect_spec in Hcol as ((Hi1 & Hl1 & Hg1 & Hc1) & _).
    destruct (consul_select_spec (fillDefaults options) insts seed w1)
      as (res2 & w2 & Hsel2 & Hi2 & Hg2 & Hgw2 & Ha2 & Ht2 & Hlk & _).
    rewrite Hsel2 in Hsel. inversion Hsel; subst res2 w2.
    split; [eauto using consul_identity_trans|]. split; [congruence|].
    split; [|auto].
    eapply grows_trans; [exact Hc0|]. eapply grows_trans; [exact Hc1|].
    eapply consul_cacheGrows_quiet with (evs := []);
      rewrite ?app_nil_r; auto.
  - intros H. inversion H; subst. split; [exact Hi0|]. split; [exact Hg0|].
    split; [exact Hc0|].
    destruct (nonEmpty (lastKnownService (src w))) eqn:Hne; cbn.
    + intros _ _. reflexivity.
    + discriminate.
Qed.
Lemma consul_quiet_attempt evs :
  forallb attemptEvent evs = true -> readsOf evs = [] /\ subscriptionsOf evs = [].
Proof.
  induction evs as [|e evs IH]; cbn; [auto|].
  intros H. apply andb_prop in H as [He Hevs].
  destruct e; cbn in *; try discriminate; auto.
Qed.

Lemma consul_runBody_unregistered r (w : @world B) :
  serviceInstance (src w) = None -> runBody client r w = Panics nilDeref.
Proof.
  intros Hnone. unfold runBody, attempt. run_go. rewrite Hnone. reflexivity.
Qed.

Lemma consul_Deregister_unregistered (w : @world B) :
  serviceInstance (src w) = None -> DeregisterService client w = Panics nilDeref.
Proof.
  intros Hnone. unfold DeregisterService. run_go. rewrite Hnone. reflexivity.
Qed.

Lemma consul_runBody_quiet r (w : @world B) next w' :
  ready w -> runBody client r w = Returns (next, w') ->
  ready w' /\ cacheGrows w w'.
Proof.
  intros Hready Hrun. destruct (consul_ready_inv w Hready) as (inst & opts & Hi & Ho).
  destruct (consul_runBody_spec client r w inst opts Hi Ho)
    as (ok & next' & w1 & e & evs & Hrun' & Hsrc & Hgo & Htr & He & Hevs & _).
  rewrite Hrun in Hrun'. inversion Hrun'; subst next' w1. split.
  - unfold ready. rewrite Hsrc. cbn. rewrite Hi, Ho. split; discriminate.
  - destruct (consul_quiet_attempt (e :: evs)) as [Hq1 Hq2];
      [cbn; rewrite He, Hevs; reflexivity|].
    change (e :: evs ++ ?p) with ((e :: evs) ++ p) in Htr.
    eapply consul_cacheGrows_quiet; [rewrite Hsrc; reflexivity | exact Htr | | ].
    + rewrite consul_readsOf_app, Hq1.
      unfold pauseOf. destruct ok, (isRegistered inst); reflexivity.
    + rewrite consul_subscriptionsOf_app, Hq2.
      unfold pauseOf. destruct ok, (isRegistered inst); reflexivity.
Qed.


(** Every action keeps the cache sound and lets it grow only. *)
Lemma consul_perform_sound a (w w' : @world B) :
  sound w -> perform client loadConf sv getString fillDefaults pick a w = Returns (tt, w') ->
  sound w' /\ cacheGrows w w'.
Proof.
  intros [Hcache Hptr] H.
  assert (Hgrow : cacheGrows w w' /\ (serviceInstance (src w') = None \/ ready w')).
  { destruct a as [options uuid4| |options seed|ns value|g]; unfold perform in H.
    - destruct (consul_RegisterService_spec loadConf options uuid4 w)
        as (w1 & Hr & Hready & _ & _ & _ & _ & Hgw & _ & Htr & _).
      rewrite (bind_step _ _ _ _ _ Hr) in H. inversion H; subst w1.
      split; [|right; exact Hready].
      eapply consul_cacheGrows_quiet with (evs := []);
        rewrite ?app_nil_r; auto.
    - apply bind_Returns in H as (err & w1 & Hd & Hret). inversion Hret; subst w1.
      destruct Hptr as [Hnone|Hready].
      { rewrite (consul_Deregister_unregistered w Hnone) in Hd. discriminate. }
      destruct (consul_ready_inv w Hready) as (inst & opts & Hi & Ho).
      destruct (consul_DeregisterService_spec client w inst Hi)
        as (err' & w1 & Hd' & Hsrc & _ & Htr).
      rewrite Hd in Hd'. inversion Hd'; subst err' w1. split.
      + eapply consul_cacheGrows_quiet; [rewrite Hsrc; reflexivity|exact Htr| |];
          reflexivity.
      + right. unfold ready. rewrite Hsrc. exact Hready.
    - apply bind_Returns in H as (res & w1 & Hd & Hret). inversion Hret; subst w1.
      apply consul_Discover_spec in Hd as (Hid & _ & Hg & _). split; [exact Hg|].
      destruct Hid as (_ & _ & _ & _ & Ho & Hi). unfold ready. rewrite Hi, Ho. exact Hptr.
    - unfold modify in H. inversion H; subst w'. split; [|exact Hptr].
      exists []. unfold watched. cbn. rewrite gatewayUrlChanged_keys, !app_nil_r. auto.
    - unfold bind at 1, gets at 1 in H.
      destruct (nth_error (goroutines w) g) as [r|].
      + apply bind_Returns in H as (next & w1 & Hrun & Hres).
        destruct Hptr as [Hnone|Hready].
        { rewrite (consul_runBody_unregistered r w Hnone) in Hrun. discriminate. }
        destruct (consul_runBody_quiet r w next w1 Hready Hrun) as (Hready1 & Hg1).
        unfold resume, modify in Hres. inversion Hres; subst w'. split.
        * destruct Hg1 as (added & Hk & Hr & Hs & Hn). exists added. auto.
        * right. exact Hready1.
      + inversion H; subst w'. split; [apply grows_refl|exact Hptr]. }
  destruct Hgrow as [Hg Hp]. split; [|exact Hg]. split; [|exact Hp].
  eapply grows_consistent; eassumption.
Qed.


(** Without a call of [RegisterService] the instance pointer stays nil. *)
Lemma consul_perform_all_unregistered acts : forall (w w' : @world B),
  existsb registers acts = false ->
  serviceInstance (src w) = None ->
  perform_all client loadConf sv getString fillDefaults pick acts w = Returns (tt, w') ->
  serviceInstance (src w') = None.
Proof.
  induction acts as [|a acts IH]; intros w w' Hno Hnone H; cbn in H.
  - inversion H; subst. exact Hnone.
  - cbn in Hno. apply orb_false_iff in Hno as [Ha Hacts].
    apply bind_Returns in H as ([] & w1 & Hp & Hrest).
    apply (IH w1 w' Hacts); [|exact Hrest].
    destruct a as [options uuid4| |options seed|ns value|g];
      unfold perform in Hp; try discriminate.
    + apply bind_Returns in Hp as (err & w2 & Hd & _).
      rewrite (consul_Deregister_unregistered w Hnone) in Hd. discriminate.
    + apply bind_Returns in Hp as (res & w2 & Hd & Hret). inversion Hret; subst w2.
      apply consul_Discover_spec in Hd as ((_ & _ & _ & _ & _ & Hi) & _).
      rewrite Hi. exact Hnone.
    + unfold modify in Hp. inversion Hp; subst w1. exact Hnone.
    + unfold bind at 1, gets at 1 in Hp.
      destruct (nth_error (goroutines w) g) as [r|].
      * apply bind_Returns in Hp as (next & w2 & Hrun & _).
        rewrite (consul_runBody_unregistered r w Hnone) in Hrun. discriminate.
      * inversion Hp; subst w1. exact Hnone.
Qed.
End ConsulDiscovery.

Section EtcdDiscovery.
Import Etcd.
Context {B : Type} (kvClient : client.KeysAPI B).
Variable loadConf : config.Options -> RegisterOptions -> registerConfiguration.
Variable sv : semver.Lib.
Variable getString : config.Options -> string -> B -> (string * bool) * B.
Variable fillDefaults : DiscoverOptions -> DiscoverOptions.
Variable pick :
  list (discoveredService (semver.Version sv)) -> list gatewayURLWatch ->
  DiscoverOptions -> string -> nat -> string * option error.

Lemma etcd_identity_refl d : identity d d.
Proof. unfold identity. auto 10. Qed.

Lemma etcd_identity_trans d1 d2 d3 : identity d1 d2 -> identity d2 d3 -> identity d1 d3.
Proof. unfold identity. intuition congruence. Qed.

Lemma etcd_step_refl (w : @world B) : discoveryStep w w.
Proof.
  unfold discoveryStep. split; [apply etcd_identity_refl|].
  split; [reflexivity|]. split; [reflexivity|]. apply grows_refl.
Qed.

Lemma etcd_step_trans (w1 w2 w3 : @world B) : discoveryStep w1 w2 -> discoveryStep w2 w3 -> discoveryStep w1 w3.
Proof.
  intros (Hi1 & Hl1 & Hg1 & Hc1) (Hi2 & Hl2 & Hg2 & Hc2).
  unfold discoveryStep. split; [|split; [|split]]; try congruence.
  - eapply etcd_identity_trans; eassumption.
  - eapply grows_trans; eassumption.
Qed.

Lemma etcd_watchGateway_spec ns (w : @world B) :
  exists w',
    watchGateway getString ns w = Returns (tt, w')
    /\ discoveryStep w w' /\ In ns (watched w').
Proof.
  unfold watchGateway. run_go.
  destruct (hasWatch (gatewayURLs (src w)) ns) eqn:Hw.
  - exists w. split; [reflexivity|]. split; [apply etcd_step_refl|].
    apply hasWatch_In. exact Hw.
  - eexists. split; [reflexivity|].
    unfold discoveryStep, cacheGrows, grows, watched, identity, readsOf, subscriptionsOf.
    cbn -[append]. rewrite map_app. cbn -[append].
    repeat split.
    + exists [ns]. rewrite <- app_assoc, !flat_map_app. cbn -[append].
      repeat split.
      intros Hn. apply NoDup_snoc; [exact Hn|].
      intros Hin. apply hasWatch_In in Hin. congruence.
    + apply in_or_app. right. left. reflexivity.
Qed.
Lemma etcd_collectVersion_spec options currentVersion instances :
  forall acc (w : @world B) insts w',
  collectVersion sv getString options currentVersion instances acc w = Returns (insts, w') ->
  discoveryStep w w'
  /\ exists new, insts = acc ++ new
       /\ forall i, In i new -> In (namespaceOf sv options i) (watched w').
Proof.
  induction instances as [|instance instances IH]; intros acc w insts w' H;
    cbn -[append] in H.
  - inversion H; subst. split; [apply etcd_step_refl|].
    exists []. rewrite app_nil_r. split; [reflexivity|]. intros i [].
  - destruct (semver.ParseTolerant sv currentVersion) as [version|].
    + destruct (etcd_watchGateway_spec
                  (watcherNamespaceOf options (semver.VersionString sv version)) w)
        as (w1 & Hw & Hstep1 & Hin1).
      rewrite (bind_step _ _ _ _ _ Hw) in H.
      apply IH in H as (Hstep2 & new & -> & Hnew).
      split; [eapply etcd_step_trans; eassumption|].
      eexists (_ :: new). rewrite <- app_assoc. split; [reflexivity|].
      intros i [<-|Hi]; [|auto].
      destruct Hstep2 as (_ & _ & _ & Hg).
      eapply grows_In; [exact Hg|]. exact Hin1.
    + inversion H; subst. split; [apply etcd_step_refl|].
      exists []. rewrite app_nil_r. split; [reflexivity|]. intros i [].
Qed.

Lemma etcd_collect_spec options nodeVersions : forall acc (w : @world B) insts w',
  collectInstances sv getString options nodeVersions acc w = Returns (insts, w') ->
  discoveryStep w w'
  /\ exists new, insts = acc ++ new
       /\ forall i, In i new -> In (namespaceOf sv options i) (watched w').
Proof.
  induction nodeVersions as [|nodeVersion nodeVersions IH]; intros acc w insts w' H;
    cbn -[append] in H.
  - inversion H; subst. split; [apply etcd_step_refl|].
    exists []. rewrite app_nil_r. split; [reflexivity|]. intros i [].
  - destruct (findInstances (client.Nodes nodeVersion)) as [instances|]; [|discriminate].
    apply bind_Returns in H as (found & w1 & Hv & Hrest).
    apply etcd_collectVersion_spec in Hv as (Hstep1 & new1 & -> & Hnew1).
    apply IH in Hrest as (Hstep2 & new2 & -> & Hnew2).
    split; [eapply etcd_step_trans; eassumption|].
    exists (new1 ++ new2). rewrite app_assoc. split; [reflexivity|].
    intros i Hi. apply in_app_or in Hi as [Hi|Hi]; [|auto].
    destruct Hstep2 as (_ & _ & _ & Hg).
    eapply grows_In; [exact Hg|]. auto.
Qed.

Lemma etcd_select_spec options insts seed (w : @world B) :
  exists res (w' : @world B),
    selectService sv pick options insts seed w = Returns (res, w')
    /\ identity (src w) (src w') /\ goroutines w' = goroutines w
    /\ gatewayURLs (src w') = gatewayURLs (src w)
    /\ agent w' = agent w /\ trace w' = trace w
    /\ (snd res = None -> lastKnownService (src w') = fst res)
    /\ res = (let '(service, err) :=
                 pick insts (gatewayURLs (src w)) options (lastKnownService (src w)) seed in
               match err with
               | Some e => if nonEmpty service then (lastKnownService (src w), None)
                           else ("", Some e)
               | None => (service, None)
               end).
Proof.
  unfold selectService. run_go.
  destruct (pick insts _ options _ seed) as [service [e|]].
  - destruct (nonEmpty service); do 2 eexists; (split; [reflexivity|]);
      cbn; repeat split; try apply etcd_identity_refl; try discriminate.
  - do 2 eexists. split; [reflexivity|]. cbn. repeat split.
Qed.

Lemma etcd_readsOf_app tr1 tr2 : readsOf (tr1 ++ tr2) = readsOf tr1 ++ readsOf tr2.
Proof. unfold readsOf. apply flat_map_app. Qed.

Lemma etcd_subscriptionsOf_app tr1 tr2 :
  subscriptionsOf (tr1 ++ tr2) = subscriptionsOf tr1 ++ subscriptionsOf tr2.
Proof. unfold subscriptionsOf. apply flat_map_app. Qed.

(** A world that differs in the backend's state and in events other than
    reads and subscriptions is the same to the cache. *)
Lemma etcd_cacheGrows_quiet (w w' : @world B) evs :
  gatewayURLs (src w') = gatewayURLs (src w) ->
  trace w' = trace w ++ evs -> readsOf evs = [] -> subscriptionsOf evs = [] ->
  cacheGrows w w'.
Proof.
  intros Hg Ht Hr Hs. exists []. unfold watched.
  rewrite Hg, Ht, etcd_readsOf_app, etcd_subscriptionsOf_app, Hr, Hs, !app_nil_r.
  auto.
Qed.

Lemma etcd_Discover_unfold options seed (w : @world B) :
  DiscoverService kvClient sv getString fillDefaults pick options seed w
  = match fst (query kvClient fillDefaults options w) with
    | inr err =>
        Returns (if nonEmpty (lastKnownService (src w))
                 then (lastKnownService (src w), None) else ("", Some err),
                 queried kvClient fillDefaults options w)
    | inl node =>
        bind (collectInstances sv getString (fillDefaults options) (client.Nodes node) [])
             (fun insts => selectService sv pick (fillDefaults options) insts seed)
             (queried kvClient fillDefaults options w)
    end.
Proof.
  unfold DiscoverService, query, queried, queryPath. run_go.
  destruct (fst (client.Get _ _ _ _)) as [node|err]; [reflexivity|].
  destruct (nonEmpty _); reflexivity.
Qed.

Lemma etcd_queried_step options (w : @world B) : discoveryStep w (queried kvClient fillDefaults options w).
Proof.
  unfold discoveryStep, queried. cbn -[append].
  split; [apply etcd_identity_refl|]. split; [reflexivity|]. split; [reflexivity|].
  eapply etcd_cacheGrows_quiet; reflexivity.
Qed.

Lemma etcd_Discover_spec options seed (w : @world B) res w' :
  DiscoverService kvClient sv getString fillDefaults pick options seed w = Returns (res, w') ->
  identity (src w) (src w') /\ goroutines w' = goroutines w
  /\ cacheGrows w w'
  /\ (snd res = None -> fst res <> "" -> lastKnownService (src w') = fst res).
Proof.
  rewrite etcd_Discover_unfold.
  pose proof (etcd_queried_step options w) as (Hi0 & Hl0 & Hg0 & Hc0).
  destruct (fst (query kvClient fillDefaults options w)) as [entries|err].
  - intros H. apply bind_Returns in H as (insts & w1 & Hcol & Hsel).
    apply etcd_collect_spec in Hcol as ((Hi1 & Hl1 & Hg1 & Hc1) & _).
    destruct (etcd_select_spec (fillDefaults options) insts seed w1)
      as (res2 & w2 & Hsel2 & Hi2 & Hg2 & Hgw2 & Ha2 & Ht2 & Hlk & _).
    rewrite Hsel2 in Hsel. inversion Hsel; subst res2 w2.
    split; [eauto using etcd_identity_trans|]. split; [congruence|].
    split; [|auto].
    eapply grows_trans; [exact Hc0|]. eapply grows_trans; [exact Hc1|].
    eapply etcd_cacheGrows_quiet with (evs := []);
      rewrite ?app_nil_r; auto.
  - intros H. inversion H; subst. split; [exact Hi0|]. split; [exact Hg0|].
    split; [exact Hc0|].
    destruct (nonEmpty (lastKnownService (src w))) eqn:Hne; cbn.
    + intros _ _. reflexivity.
    + discriminate.
Qed.
Lemma etcd_quiet_attempt evs :
  forallb attemptEvent evs = true -> readsOf evs = [] /\ subscriptionsOf evs = [].
Proof.
  induction evs as [|e evs IH]; cbn; [auto|].
  intros H. apply andb_prop in H as [He Hevs].
  destruct e; cbn in *; try discriminate; auto.
Qed.

Lemma etcd_runBody_unregistered r (w : @world B) :
  serviceInstance (src w) = None -> runBody kvClient r w = Panics nilDeref.
Proof.
  intros Hnone. unfold runBody, attempt. run_go. rewrite Hnone. reflexivity.
Qed.

Lemma etcd_Deregister_unregistered (w : @world B) :
  serviceInstance (src w) = None -> DeregisterService kvClient w = Panics nilDeref.
Proof.
  intros Hnone. unfold DeregisterService. run_go. rewrite Hnone. reflexivity.
Qed.

Lemma etcd_runBody_quiet r (w : @world B) next w' :
  ready w -> runBody kvClient r w = Returns (next, w') ->
  ready w' /\ cacheGrows w w'.
Proof.
  intros Hready Hrun. destruct (etcd_ready_inv w Hready) as (inst & opts & Hi & Ho).
  destruct (etcd_runBody_spec kvClient r w inst opts Hi Ho)
    as (ok & next' & w1 & e & evs & inst' & Hrun' & Hun & Hi' & _ & _ & _ & _
        & Hgo & Htr & He & Hevs & _).
  destruct Hun as (_ & _ & _ & Hopt & _ & Hgw).
  rewrite Hrun in Hrun'. inversion Hrun'; subst next' w1. split.
  - unfold ready. rewrite Hi', Hopt, Ho. split; discriminate.
  - destruct (etcd_quiet_attempt (e :: evs)) as [Hq1 Hq2];
      [cbn; rewrite He, Hevs; reflexivity|].
    change (e :: evs ++ ?p) with ((e :: evs) ++ p) in Htr.
    eapply etcd_cacheGrows_quiet; [exact Hgw | exact Htr | | ].
    + rewrite etcd_readsOf_app, Hq1. reflexivity.
    + rewrite etcd_subscriptionsOf_app, Hq2. reflexivity.
Qed.

(** Every action keeps the cache sound and lets it grow only. *)
Lemma etcd_perform_sound a (w w' : @world B) :
  sound w -> perform kvClient loadConf sv getString fillDefaults pick a w = Returns (tt, w') ->
  sound w' /\ cacheGrows w w'.
Proof.
  intros [Hcache Hptr] H.
  assert (Hgrow : cacheGrows w w' /\ (serviceInstance (src w') = None \/ ready w')).
  { destruct a as [options uuid4| |options seed|ns value|g]; unfold perform in H.
    - destruct (etcd_RegisterService_spec loadConf options uuid4 w)
        as (w1 & Hr & Hready & _ & _ & _ & _ & Hgw & _ & Htr & _).
      rewrite (bind_step _ _ _ _ _ Hr) in H. inversion H; subst w1.
      split; [|right; exact Hready].
      eapply etcd_cacheGrows_quiet with (evs := []);
        rewrite ?app_nil_r; auto.
    - apply bind_Returns in H as (err & w1 & Hd & Hret). inversion Hret; subst w1.
      destruct Hptr as [Hnone|Hready].
      { rewrite (etcd_Deregister_unregistered w Hnone) in Hd. discriminate. }
      destruct (etcd_ready_inv w Hready) as (inst & opts & Hi & Ho).
      destruct (etcd_DeregisterService_spec kvClient w inst Hi)
        as (err' & w1 & Hd' & Hsrc & _ & Htr).
      rewrite Hd in Hd'. inversion Hd'; subst err' w1. split.
      + eapply etcd_cacheGrows_quiet; [rewrite Hsrc; reflexivity|exact Htr| |];
          reflexivity.
      + right. unfold ready. rewrite Hsrc. exact Hready.
    - apply bind_Returns in H as (res & w1 & Hd & Hret). inversion Hret; subst w1.
      apply etcd_Discover_spec in Hd as (Hid & _ & Hg & _). split; [exact Hg|].
      destruct Hid as (_ & _ & _ & Ho & Hi). unfold ready. rewrite Hi, Ho. exact Hptr.
    - unfold modify in H. inversion H; subst w'. split; [|exact Hptr].
      exists []. unfold watched. cbn. rewrite gatewayUrlChanged_keys, !app_nil_r. auto.
    - unfold bind at 1, gets at 1 in H.
      destruct (nth_error (goroutines w) g) as [r|].
      + apply bind_Returns in H as (next & w1 & Hrun & Hres).
        destruct Hptr as [Hnone|Hready].
        { rewrite (etcd_runBody_unregistered r w Hnone) in Hrun. discriminate. }
        destruct (etcd_runBody_quiet r w next w1 Hready Hrun) as (Hready1 & Hg1).
        unfold resume, modify in Hres. inversion Hres; subst w'. split.
        * destruct Hg1 as (added & Hk & Hr & Hs & Hn). exists added. auto.
        * right. exact Hready1.
      + inversion H; subst w'. split; [apply grows_refl|exact Hptr]. }
  destruct Hgrow as [Hg Hp]. split; [|exact Hg]. split; [|exact Hp].
  eapply grows_consistent; eassumption.
Qed.


(** Without a call of [RegisterService] the instance pointer stays nil. *)
Lemma etcd_perform_all_unregistered acts : forall (w w' : @world B),
  existsb registers acts = false ->
  serviceInstance (src w) = None ->
  perform_all kvClient loadConf sv getString fillDefaults pick acts w = Returns (tt, w') ->
  serviceInstance (src w') = None.
Proof.
  induction acts as [|a acts IH]; intros w w' Hno Hnone H; cbn in H.
  - inversion H; subst. exact Hnone.
  - cbn in Hno. apply orb_false_iff in Hno as [Ha Hacts].
    apply bind_Returns in H as ([] & w1 & Hp & Hrest).
    apply (IH w1 w' Hacts); [|exact Hrest].
    destruct a as [options uuid4| |options seed|ns value|g];
      unfold perform in Hp; try discriminate.
    + apply bind_Returns in Hp as (err & w2 & Hd & _).
      rewrite (etcd_Deregister_unregistered w Hnone) in Hd. discriminate.
    + apply bind_Returns in Hp as (res & w2 & Hd & Hret). inversion Hret; subst w2.
      apply etcd_Discover_spec in Hd as ((_ & _ & _ & _ & Hi) & _).
      rewrite Hi. exact Hnone.
    + unfold modify in Hp. inversion Hp; subst w1. exact Hnone.
    + unfold bind at 1, gets at 1 in Hp.
      destruct (nth_error (goroutines w) g) as [r|].
      * apply bind_Returns in Hp as (next & w2 & Hrun & _).
        rewrite (etcd_runBody_unregistered r w Hnone) in Hrun. discriminate.
      * inversion Hp; subst w1. exact Hnone.
Qed.
End EtcdDiscovery.



(** ** A nil service instance *)

(** C10. On a source made by its constructor, after any actions among which
    there is no call of [RegisterService], [DeregisterService] panics with a
    nil pointer dereference. For both sources. *)
Theorem deregister_before_register_panics :
  (forall B (client : api.Client B) loadConf sv getString fillDefaults pick
          cfg startRD maxRD protocol b acts (w : @Consul.world B),
      existsb Consul.registers acts = false ->
      Consul.perform_all client loadConf sv getString fillDefaults pick acts
                         (Consul.fresh cfg startRD maxRD protocol b) = Returns (tt, w) ->
      Consul.DeregisterService client w = Panics nilDeref)
  /\ (forall B (kvClient : client.KeysAPI B) loadConf sv getString fillDefaults pick
          cfg startRD maxRD b acts (w : @Etcd.world B),
      existsb Etcd.registers acts = false ->
      Etcd.perform_all kvClient loadConf sv getString fillDefaults pick acts
                       (Etcd.fresh cfg startRD maxRD b) = Returns (tt, w) ->
      Etcd.DeregisterService kvClient w = Panics nilDeref).
Proof.
  split.
  - intros B client loadConf sv getString fillDefaults pick cfg startRD maxRD protocol b
           acts w Hno Hall.
    apply consul_Deregister_unregistered.
    eapply consul_perform_all_unregistered; [exact Hno| |exact Hall]. reflexivity.
  - intros B kvClient loadConf sv getString fillDefaults pick cfg startRD maxRD b
           acts w Hno Hall.
    apply etcd_Deregister_unregistered.
    eapply etcd_perform_all_unregistered; [exact Hno| |exact Hall]. reflexivity.
Qed.

(** The theorem at work: a fresh Consul source and a fresh etcd source, each
    after one discovery, panic on [DeregisterService]. *)
Lemma deregister_before_register_panics_witness :
  Consul.DeregisterService Sample.memoryAgent
    (Sample.after
       (Consul.perform_all Sample.memoryAgent
          Sample.loadServiceRegisterConfiguration Sample.versions
          Sample.GetString Sample.fillDefaultDiscoverOptions Sample.pickFirst
          [Consul.DoDiscoverService (Sample.discoverOptions "svc") 0])
       (Consul.fresh Sample.configOptions 100 2000 "http" Sample.healthyAgent))
  = Panics nilDeref
  /\ Etcd.DeregisterService Sample.store
       (Sample.after
          (Etcd.perform_all Sample.store
             Sample.loadServiceRegisterConfiguration Sample.versions
             Sample.GetString Sample.fillDefaultDiscoverOptions Sample.pickFirst
             [Etcd.DoDiscoverService (Sample.discoverOptions "svc") 0])
          (Etcd.fresh Sample.configOptions 100 2000
                      (inr "key not found" : client.Node + error)))
     = Panics nilDeref.
Proof.
  split.
  - eapply (proj1 deregister_before_register_panics _ Sample.memoryAgent
              Sample.loadServiceRegisterConfiguration Sample.versions
              Sample.GetString Sample.fillDefaultDiscoverOptions Sample.pickFirst
              Sample.configOptions 100 2000 "http" Sample.healthyAgent
              [Consul.DoDiscoverService (Sample.discoverOptions "svc") 0]).
    + reflexivity.
    + vm_compute. reflexivity.
  - eapply (proj2 deregister_before_register_panics _ Sample.store
              Sample.loadServiceRegisterConfiguration Sample.versions
              Sample.GetString Sample.fillDefaultDiscoverOptions Sample.pickFirst
              Sample.configOptions 100 2000 (inr "key not found")
              [Etcd.DoDiscoverService (Sample.discoverOptions "svc") 0]).
    + reflexivity.
    + vm_compute. reflexivity.
Defined.

(** ** The last known service *)

Lemma nonEmpty_true s : s <> "" -> nonEmpty s = true.
Proof.
  intros H. unfold nonEmpty. destruct (String.eqb_spec s ""); [contradiction|reflexivity].
Qed.

(** C7. The last known service is one value of the source: when a discovery
    has returned a non-empty URL without error, a later discovery through
    the same source whose backend query fails returns that URL without error,
    whatever service it asks for. For both sources. *)
Theorem last_known_service_is_shared :
  (forall B (client : api.Client B) sv getString fillDefaults pick
          optionsA seedA (w w1 : @Consul.world B) url optionsB seedB err,
      Consul.DiscoverService client sv getString fillDefaults pick optionsA seedA w
      = Returns ((url, None), w1) ->
      url <> "" ->
      fst (Consul.query client fillDefaults optionsB w1) = inr err ->
      exists w2,
        Consul.DiscoverService client sv getString fillDefaults pick optionsB seedB w1
        = Returns ((url, None), w2))
  /\ (forall B (kvClient : client.KeysAPI B) sv getString fillDefaults pick
          optionsA seedA (w w1 : @Etcd.world B) url optionsB seedB err,
      Etcd.DiscoverService kvClient sv getString fillDefaults pick optionsA seedA w
      = Returns ((url, None), w1) ->
      url <> "" ->
      fst (Etcd.query kvClient fillDefaults optionsB w1) = inr err ->
      exists w2,
        Etcd.DiscoverService kvClient sv getString fillDefaults pick optionsB seedB w1
        = Returns ((url, None), w2)).
Proof.
  split.
  - intros B client sv getString fillDefaults pick optionsA seedA w w1 url
           optionsB seedB err HA Hurl HB.
    apply consul_Discover_spec in HA as (_ & _ & _ & Hlk).
    specialize (Hlk eq_refl Hurl). cbn in Hlk.
    rewrite consul_Discover_unfold, HB, Hlk, (nonEmpty_true url Hurl). eauto.
  - intros B kvClient sv getString fillDefaults pick optionsA seedA w w1 url
           optionsB seedB err HA Hurl HB.
    apply etcd_Discover_spec in HA as (_ & _ & _ & Hlk).
    specialize (Hlk eq_refl Hurl). cbn in Hlk.
    rewrite etcd_Discover_unfold, HB, Hlk, (nonEmpty_true url Hurl). eauto.
Qed.

(** The theorem at work: "svc" is discovered through a Consul source, the
    connection to the agent is lost, and the discovery of "billing" through
    the same source returns the URL of "svc". *)
Lemma last_known_service_is_shared_witness :
  let w := Consul.fresh Sample.configOptions 100 2000 "http" (1%nat, Sample.healthyAgent) in
  let discover := Consul.DiscoverService Sample.agentUntil Sample.versions
                    Sample.GetString Sample.fillDefaultDiscoverOptions Sample.pickFirst in
  exists w1 w2,
    discover (Sample.discoverOptions "svc") 0%nat w
    = Returns (("http://10.0.0.5:8080", None), w1)
    /\ discover (Sample.discoverOptions "billing") 0%nat w1
       = Returns (("http://10.0.0.5:8080", None), w2).
Proof.
  intros w discover.
  destruct (discover (Sample.discoverOptions "svc") 0%nat w) as [[res w1]|why] eqn:HA;
    [|vm_compute in HA; discriminate].
  assert (Hres : res = ("http://10.0.0.5:8080", None)).
  { vm_compute in HA. inversion HA. reflexivity. }
  subst res. exists w1.
  destruct (proj1 last_known_service_is_shared _ Sample.agentUntil Sample.versions
                  Sample.GetString Sample.fillDefaultDiscoverOptions Sample.pickFirst
                  (Sample.discoverOptions "svc") 0%nat w w1 "http://10.0.0.5:8080"
                  (Sample.discoverOptions "billing") 0%nat "connection refused" HA)
    as (w2 & HB).
  - discriminate.
  - vm_compute in HA. inversion HA. reflexivity.
  - exists w2. split; [reflexivity | exact HB].
Defined.

(** ** Fallback on failure *)




(** ** Records whose version does not parse *)

Section ConsulUnparsable.
Import Consul.
Context {B : Type}.
Variable sv : semver.Lib.
Variable getString : config.Options -> string -> B -> (string * bool) * B.


End ConsulUnparsable.

Section EtcdUnparsable.
Import Etcd.
Context {B : Type}.
Variable sv : semver.Lib.
Variable getString : config.Options -> string -> B -> (string * bool) * B.


End EtcdUnparsable.



(** * Further properties of the two sources *)

(** ** The singleton check of the etcd source *)

(** The refusal at work: an etcd source registers "svc" with [Singleton] set
    while the store lists an active instance with a URL; the body of [run]
    only reads, sleeps 100 ms and goes on with 200 ms. *)
Lemma etcd_singleton_conflict_refused_witness :
  let w := Sample.after
             (Etcd.RegisterService Sample.loadServiceRegisterConfiguration
                                   (Sample.registerOptions true) "2222")
             (Sample.etcdWorld 100 2000
                (inl Sample.healthyListing : client.Node + error)) in
  exists w',
    Etcd.runBody Sample.store 100 w
    = Returns (nextRetryDelay (Etcd.maxRetryDelay (src w)) 100, w')
    /\ Etcd.registered w' = false
    /\ trace w' = trace w
         ++ [Etcd.EvGet "/environments/dev/services/svc/1.0.0/instances/"
                        {| client.Recursive := true |};
             Etcd.EvSleep (Duration 100 Millisecond)].
Proof.
  intros w.
  refine (etcd_singleton_conflict_refused _ Sample.store 100 w _ _ Sample.healthyListing
            eq_refl eq_refl eq_refl eq_refl eq_refl _).
  vm_compute. reflexivity.
Defined.

(** ** The singleton check when the backend cannot answer *)

(** When the query of [isServiceRegistered] fails, the check answers "not
    registered": the attempt is not refused, whatever [singleton] is, and
    goes on to write the registration. Consul source: the call after the
    health query is [ServiceRegister] for the instance, and [register]
    succeeds exactly when that call does. etcd source: the call after the
    listing is the write of the instance directory. *)
Theorem singleton_check_fails_open :
  (forall B (client : api.Client B) (r : Z) (w : @Consul.world B) inst opts err,
      Consul.serviceInstance (src w) = Some inst ->
      Consul.options (src w) = Some opts ->
      fst (api.HealthService client (Consul.id inst) "" true (agent w)) = inr err ->
      exists reg ok w',
        Consul.register client r w = Returns (ok, w')
        /\ (ok = true <->
            fst (api.ServiceRegister client reg
                   (snd (api.HealthService client (Consul.id inst) "" true (agent w))))
            = None)
        /\ api.ID reg = Consul.id inst /\ api.Name reg = Consul.name inst
        /\ trace w' = trace w ++ [Consul.EvHealthService (Consul.id inst) "" true;
                                  Consul.EvServiceRegister reg])
  /\ (forall B (kvClient : client.KeysAPI B) (r : Z) (w : @Etcd.world B) inst opts err,
      Etcd.serviceInstance (src w) = Some inst ->
      Etcd.options (src w) = Some opts ->
      fst (client.Get kvClient (Etcd.instancesDir opts) {| client.Recursive := true |}
                      (agent w)) = inr err ->
      exists ok w' o evs,
        Etcd.register kvClient r w = Returns (ok, w')
        /\ trace w' = trace w
             ++ Etcd.EvGet (Etcd.instancesDir opts) {| client.Recursive := true |}
             :: Etcd.EvSet (Etcd.etcdKeyDir inst) "" (Some o) :: evs
        /\ client.Dir o = true /\ client.Refresh o = false).
Proof.
  split.
  - intros B client r w inst opts err Hi Ho Hq.
    unfold Consul.register, Consul.isServiceRegistered. run_go.
    known Hi Ho. rewrite Hq. known Hi Ho.
    destruct (fst (api.ServiceRegister client _ _)) as [e|] eqn:Hreg; known Hi Ho.
    all: do 3 eexists; rewrite <- app_assoc; cbn [app];
      (split; [reflexivity|]); rewrite Hreg;
      (split; [split; discriminate || reflexivity|]); repeat split.
  - intros B kvClient r w inst opts err Hi Ho Hq. unfold Etcd.instancesDir in *.
    unfold Etcd.register, Etcd.isServiceRegistered. run_go.
    known Hi Ho. rewrite Hq. known Hi Ho.
    destruct (fst (client.Set_ kvClient (Etcd.etcdKeyDir inst) _ _ _)) as [e1|] eqn:H1;
      known Hi Ho.
    + do 4 eexists. rewrite <- app_assoc. cbn [app].
      split; [reflexivity|]. repeat split.
    + destruct (fst (client.Set_ kvClient _ _ None _)) as [e2|] eqn:H2; known Hi Ho.
      all: do 4 eexists; rewrite <- !app_assoc; cbn [app];
        (split; [reflexivity|]); repeat split.
Qed.

(** The theorem at work: the agent holds a passing instance of "svc" and its
    health endpoint fails; a second source with [Singleton] set registers
    all the same. *)
Lemma singleton_check_fails_open_witness :
  let w := Sample.after
             (Consul.RegisterService Sample.loadServiceRegisterConfiguration
                                     (Sample.registerOptions true) "2222")
             (Sample.consulWorld 100 2000 Sample.healthyAgent) in
  exists reg w',
    Consul.register Sample.agentWithoutHealth 100 w = Returns (true, w')
    /\ api.ID reg = "svc-2222" /\ api.Name reg = "dev-svc"
    /\ trace w' = trace w ++ [Consul.EvHealthService "svc-2222" "" true;
                              Consul.EvServiceRegister reg].
Proof.
  intros w.
  destruct (proj1 singleton_check_fails_open _ Sample.agentWithoutHealth 100 w _ _
                  "health endpoint unavailable" eq_refl eq_refl eq_refl)
    as (reg & ok & w' & Hreg & Hok & Hid & Hname & Htr).
  exists reg, w'. replace ok with true in Hreg.
  - repeat split; assumption.
  - symmetry. apply Hok. reflexivity.
Defined.

(** ** What the loop tries next *)

(** The attempt of a body of [run] is decided by the outcome of the body
    before it: after a body that leaves the instance registered the next one
    begins with the TTL update, and after a body that failed, be it a
    registration or a TTL update, the next one begins with the query of
    [isServiceRegistered], that is, it registers again. For both sources. *)
Theorem next_attempt_follows_outcome :
  (forall B (client : api.Client B) (r : Z) (w : @Consul.world B) inst opts,
      Consul.serviceInstance (src w) = Some inst ->
      Consul.options (src w) = Some opts ->
      exists next w1 next2 w2 e evs,
        Consul.runBody client r w = Returns (next, w1)
        /\ Consul.runBody client next w1 = Returns (next2, w2)
        /\ trace w2 = trace w1 ++ e :: evs
        /\ e = (if Consul.registered w1
                then Consul.EvUpdateTTL ("check-" ++ Consul.id inst)%string "passing"
                else Consul.EvHealthService (Consul.id inst) "" true))
  /\ (forall B (kvClient : client.KeysAPI B) (r : Z) (w : @Etcd.world B) inst opts,
      Etcd.serviceInstance (src w) = Some inst ->
      Etcd.options (src w) = Some opts ->
      exists next w1 next2 w2 e evs,
        Etcd.runBody kvClient r w = Returns (next, w1)
        /\ Etcd.runBody kvClient next w1 = Returns (next2, w2)
        /\ trace w2 = trace w1 ++ e :: evs
        /\ (if Etcd.registered w1 then Etcd.refreshEvent (Etcd.etcdKeyDir inst) e
            else Etcd.getEvent e) = true).
Proof.
  split.
  - intros B client r w inst opts Hi Ho.
    destruct (consul_runBody_spec client r w inst opts Hi Ho)
      as (ok & next & w1 & e1 & evs1 & Hrun & Hsrc & _).
    assert (Hi1 : Consul.serviceInstance (src w1)
                  = Some (Consul.set_isRegistered ok inst)).
    { rewrite Hsrc. cbn. rewrite Hi. reflexivity. }
    assert (Ho1 : Consul.options (src w1) = Some opts).
    { rewrite Hsrc. cbn. exact Ho. }
    destruct (consul_runBody_spec client next w1 _ opts Hi1 Ho1)
      as (ok2 & next2 & w2 & e & evs & Hrun2 & _ & _ & Htr2 & _ & _ & He & _).
    exists next, w1, next2, w2, e, (evs ++ Consul.pauseOf ok2 ok next opts).
    split; [exact Hrun|]. split; [exact Hrun2|]. split; [exact Htr2|].
    unfold Consul.registered. rewrite Hi1. exact He.
  - intros B kvClient r w inst opts Hi Ho.
    destruct (etcd_runBody_spec kvClient r w inst opts Hi Ho)
      as (ok & next & w1 & e1 & evs1 & inst1 & Hrun & Hun & Hi1 & Hok & _ & Hkey & _).
    destruct Hun as (_ & _ & _ & Hopt & _).
    assert (Ho1 : Etcd.options (src w1) = Some opts) by (rewrite Hopt; exact Ho).
    destruct (etcd_runBody_spec kvClient next w1 inst1 opts Hi1 Ho1)
      as (ok2 & next2 & w2 & e & evs & inst2 & Hrun2 & _ & _ & _ & _ & _ & _ & _
          & Htr2 & _ & _ & He & _).
    do 6 eexists.
    split; [exact Hrun|]. split; [exact Hrun2|]. split; [exact Htr2|].
    unfold Etcd.registered. rewrite Hi1, <- Hkey. exact He.
Qed.

(** The theorem at work: the agent is lost after the registration; the TTL
    update fails, and the body after it begins with the health query of a
    new registration. *)
Lemma next_attempt_follows_outcome_witness :
  let w := Sample.after
             (Consul.run Sample.agentUntil 1 100)
             (Sample.after
                (Consul.RegisterService Sample.loadServiceRegisterConfiguration
                                        (Sample.registerOptions false) "2222")
                (Sample.consulWorld 100 2000 (2%nat, ([] : Sample.agentState)))) in
  Consul.registered w = true
  /\ exists next w1 next2 w2 evs,
       Consul.runBody Sample.agentUntil 100 w = Returns (next, w1)
       /\ Consul.registered w1 = false
       /\ Consul.runBody Sample.agentUntil next w1 = Returns (next2, w2)
       /\ trace w2 = trace w1 ++ Consul.EvHealthService "svc-2222" "" true :: evs.
Proof.
  intros w. split; [reflexivity|].
  destruct (proj1 next_attempt_follows_outcome _ Sample.agentUntil 100 w _ _
                  eq_refl eq_refl)
    as (next & w1 & next2 & w2 & e & evs & Hrun & Hrun2 & Htr & He).
  assert (Hreg : Consul.registered w1 = false).
  { vm_compute in Hrun. inversion Hrun. reflexivity. }
  rewrite Hreg in He. subst e.
  exists next, w1, next2, w2, evs. auto.
Defined.

(** ** The loops of a source and their delays *)

Lemma nextRetryDelay_le maxRD r : nextRetryDelay maxRD r <= maxRD.
Proof.
  unfold nextRetryDelay. cbv zeta.
  destruct (Z.gtb_spec (wrap64 (r * 2)) maxRD); lia.
Qed.

Lemma Forall_replaceNth {A} (P : A -> Prop) l g x :
  Forall P l -> P x -> Forall P (replaceNth g x l).
Proof.
  intros Hl Hx. revert g. induction Hl as [|a l Ha Hl IH]; intros [|g]; cbn;
    constructor; auto.
Qed.

Lemma length_replaceNth {A} (l : list A) g x :
  List.length (replaceNth g x l) = List.length l.
Proof.
  revert g. induction l as [|a l IH]; intros [|g]; cbn; auto.
Qed.

Section ConsulLoops.
Import Consul.
Context {B : Type} (client : api.Client B).
Variable loadConf : config.Options -> RegisterOptions -> registerConfiguration.
Variable sv : semver.Lib.
Variable getString : config.Options -> string -> B -> (string * bool) * B.
Variable fillDefaults : DiscoverOptions -> DiscoverOptions.
Variable pick :
  list (discoveredService (semver.Version sv)) -> list gatewayURLWatch ->
  DiscoverOptions -> string -> nat -> string * option error.
Variable startRD maxRD : Z.

Lemma consul_perform_loops a n (w w' : @world B) :
  sound w -> loopsOk startRD maxRD n w ->
  perform client loadConf sv getString fillDefaults pick a w = Returns (tt, w') ->
  loopsOk startRD maxRD (if registers a then S n else n) w'.
Proof.
  intros [_ Hptr] (Hs & Hm & Hlen & Hall) H. unfold loopsOk.
  destruct a as [options uuid4| |options seed|ns value|g]; unfold perform in H;
    cbn [registers].
  - destruct (consul_RegisterService_spec loadConf options uuid4 w)
      as (w1 & Hr & _ & _ & Hs1 & Hm1 & _ & _ & _ & _ & Hg1).
    rewrite (bind_step _ _ _ _ _ Hr) in H. inversion H; subst w1.
    rewrite Hs1, Hm1, Hg1, length_app, Hs. cbn. repeat split; try lia; try assumption.
    apply Forall_app. split; [exact Hall|]. constructor; [left; reflexivity|constructor].
  - apply bind_Returns in H as (err & w1 & Hd & Hret). inversion Hret; subst w1.
    destruct Hptr as [Hnone|Hready].
    { rewrite (consul_Deregister_unregistered client w Hnone) in Hd. discriminate. }
    destruct (consul_ready_inv w Hready) as (inst & opts & Hi & Ho).
    destruct (consul_DeregisterService_spec client w inst Hi)
      as (err' & w1 & Hd' & Hsrc & Hgo & _).
    rewrite Hd in Hd'. inversion Hd'; subst err' w1.
    rewrite Hsrc, Hgo. auto.
  - apply bind_Returns in H as (res & w1 & Hd & Hret). inversion Hret; subst w1.
    apply consul_Discover_spec in Hd as ((Hs1 & Hm1 & _) & Hgo & _).
    rewrite Hs1, Hm1, Hgo. auto.
  - unfold modify in H. inversion H; subst w'. cbn. auto.
  - unfold bind at 1, gets at 1 in H.
    destruct (nth_error (goroutines w) g) as [r|]; [|inversion H; subst w'; auto].
    apply bind_Returns in H as (next & w1 & Hrun & Hres).
    destruct Hptr as [Hnone|Hready].
    { rewrite (consul_runBody_unregistered client r w Hnone) in Hrun. discriminate. }
    destruct (consul_ready_inv w Hready) as (inst & opts & Hi & Ho).
    destruct (consul_runBody_spec client r w inst opts Hi Ho)
      as (ok & next' & w1' & e & evs & Hrun' & Hspec).
    rewrite Hrun in Hrun'. inversion Hrun'; subst next' w1'.
    destruct Hspec as (Hsrc & Hgo & _ & _ & _ & _ & Hnext).
    unfold resume, modify in Hres. inversion Hres; subst w'. cbn [src goroutines].
    rewrite Hsrc, Hgo, length_replaceNth. cbn [registeredAs startRetryDelay maxRetryDelay].
    repeat split; try assumption.
    apply Forall_replaceNth; [exact Hall|].
    rewrite Hnext, Hs, Hm. destruct ok; [left; reflexivity|right; apply nextRetryDelay_le].
Qed.

Lemma consul_perform_all_loops acts : forall n (w w' : @world B),
  sound w -> loopsOk startRD maxRD n w ->
  perform_all client loadConf sv getString fillDefaults pick acts w = Returns (tt, w') ->
  loopsOk startRD maxRD (List.length (filter registers acts) + n) w'.
Proof.
  induction acts as [|a acts IH]; intros n w w' Hsound Hok H; cbn in H.
  - inversion H; subst. exact Hok.
  - apply bind_Returns in H as ([] & w1 & Ha & Hrest).
    destruct (consul_perform_sound client loadConf sv getString fillDefaults pick
                a w w1 Hsound Ha) as [Hsound1 _].
    pose proof (consul_perform_loops a n w w1 Hsound Hok Ha) as Hok1.
    pose proof (IH _ w1 w' Hsound1 Hok1 Hrest) as Hfinal.
    cbn [filter]. destruct (registers a); cbn [List.length];
      [rewrite Nat.add_succ_r in Hfinal|]; exact Hfinal.
Qed.
End ConsulLoops.

Section EtcdLoops.
Import Etcd.
Context {B : Type} (kvClient : client.KeysAPI B).
Variable loadConf : config.Options -> RegisterOptions -> registerConfiguration.
Variable sv : semver.Lib.
Variable getString : config.Options -> string -> B -> (string * bool) * B.
Variable fillDefaults : DiscoverOptions -> DiscoverOptions.
Variable pick :
  list (discoveredService (semver.Version sv)) -> list gatewayURLWatch ->
  DiscoverOptions -> string -> nat -> string * option error.
Variable startRD maxRD : Z.

Lemma etcd_perform_loops a n (w w' : @world B) :
  sound w -> loopsOk startRD maxRD n w ->
  perform kvClient loadConf sv getString fillDefaults pick a w = Returns (tt, w') ->
  loopsOk startRD maxRD (if registers a then S n else n) w'.
Proof.
  intros [_ Hptr] (Hs & Hm & Hlen & Hall) H. unfold loopsOk.
  destruct a as [options uuid4| |options seed|ns value|g]; unfold perform in H;
    cbn [registers].
  - destruct (etcd_RegisterService_spec loadConf options uuid4 w)
      as (w1 & Hr & _ & _ & Hs1 & Hm1 & _ & _ & _ & _ & Hg1).
    rewrite (bind_step _ _ _ _ _ Hr) in H. inversion H; subst w1.
    rewrite Hs1, Hm1, Hg1, length_app, Hs. cbn. repeat split; try lia; try assumption.
    apply Forall_app. split; [exact Hall|]. constructor; [left; reflexivity|constructor].
  - apply bind_Returns in H as (err & w1 & Hd & Hret). inversion Hret; subst w1.
    destruct Hptr as [Hnone|Hready].
    { rewrite (etcd_Deregister_unregistered kvClient w Hnone) in Hd. discriminate. }
    destruct (etcd_ready_inv w Hready) as (inst & opts & Hi & Ho).
    destruct (etcd_DeregisterService_spec kvClient w inst Hi)
      as (err' & w1 & Hd' & Hsrc & Hgo & _).
    rewrite Hd in Hd'. inversion Hd'; subst err' w1.
    rewrite Hsrc, Hgo. auto.
  - apply bind_Returns in H as (res & w1 & Hd & Hret). inversion Hret; subst w1.
    apply etcd_Discover_spec in Hd as ((Hs1 & Hm1 & _) & Hgo & _).
    rewrite Hs1, Hm1, Hgo. auto.
  - unfold modify in H. inversion H; subst w'. cbn. auto.
  - unfold bind at 1, gets at 1 in H.
    destruct (nth_error (goroutines w) g) as [r|]; [|inversion H; subst w'; auto].
    apply bind_Returns in H as (next & w1 & Hrun & Hres).
    destruct Hptr as [Hnone|Hready].
    { rewrite (etcd_runBody_unregistered kvClient r w Hnone) in Hrun. discriminate. }
    destruct (etcd_ready_inv w Hready) as (inst & opts & Hi & Ho).
    destruct (etcd_runBody_spec kvClient r w inst opts Hi Ho)
      as (ok & next' & w1' & e & evs & inst' & Hrun' & Hspec).
    rewrite Hrun in Hrun'. inversion Hrun'; subst next' w1'.
    destruct Hspec as ((Hs1 & Hm1 & _) & _ & _ & _ & _ & _ & Hgo & _ & _ & _ & _ & Hnext).
    unfold resume, modify in Hres. inversion Hres; subst w'. cbn [src goroutines].
    rewrite Hs1, Hm1, Hgo, length_replaceNth.
    repeat split; try assumption.
    apply Forall_replaceNth; [exact Hall|].
    rewrite Hnext, Hs, Hm. destruct ok; [left; reflexivity|right; apply nextRetryDelay_le].
Qed.

Lemma etcd_perform_all_loops acts : forall n (w w' : @world B),
  sound w -> loopsOk startRD maxRD n w ->
  perform_all kvClient loadConf sv getString fillDefaults pick acts w = Returns (tt, w') ->
  loopsOk startRD maxRD (List.length (filter registers acts) + n) w'.
Proof.
  induction acts as [|a acts IH]; intros n w w' Hsound Hok H; cbn in H.
  - inversion H; subst. exact Hok.
  - apply bind_Returns in H as ([] & w1 & Ha & Hrest).
    destruct (etcd_perform_sound kvClient loadConf sv getString fillDefaults pick
                a w w1 Hsound Ha) as [Hsound1 _].
    pose proof (etcd_perform_loops a n w w1 Hsound Hok Ha) as Hok1.
    pose proof (IH _ w1 w' Hsound1 Hok1 Hrest) as Hfinal.
    cbn [filter]. destruct (registers a); cbn [List.length];
      [rewrite Nat.add_succ_r in Hfinal|]; exact Hfinal.
Qed.
End EtcdLoops.

(** From a fresh source and after any actions whatever: nothing writes the
    two configured delays; the source has as many goroutines as
    [RegisterService] was called, none ever ends; and each goroutine stands
    at the start delay or at a delay that does not exceed the maximum, so no
    wait is longer than the larger of the two. For both sources, and also
    when the doubling overflows. *)
Theorem loops_and_their_delays :
  (forall B (client : api.Client B) loadConf sv getString fillDefaults pick
          cfg startRD maxRD protocol b acts (w : @Consul.world B),
      Consul.perform_all client loadConf sv getString fillDefaults pick acts
                         (Consul.fresh cfg startRD maxRD protocol b) = Returns (tt, w) ->
      Consul.startRetryDelay (src w) = startRD
      /\ Consul.maxRetryDelay (src w) = maxRD
      /\ List.length (goroutines w) = List.length (filter Consul.registers acts)
      /\ Forall (fun r => r = startRD \/ r <= maxRD) (goroutines w))
  /\ (forall B (kvClient : client.KeysAPI B) loadConf sv getString fillDefaults pick
          cfg startRD maxRD b acts (w : @Etcd.world B),
      Etcd.perform_all kvClient loadConf sv getString fillDefaults pick acts
                       (Etcd.fresh cfg startRD maxRD b) = Returns (tt, w) ->
      Etcd.startRetryDelay (src w) = startRD
      /\ Etcd.maxRetryDelay (src w) = maxRD
      /\ List.length (goroutines w) = List.length (filter Etcd.registers acts)
      /\ Forall (fun r => r = startRD \/ r <= maxRD) (goroutines w)).
Proof.
  split.
  - intros B client loadConf sv getString fillDefaults pick cfg startRD maxRD protocol b
           acts w Hall.
    assert (Hfresh : Consul.sound (Consul.fresh cfg startRD maxRD protocol b)).
    { split; [|left; reflexivity]. split; [constructor|]. split; reflexivity. }
    pose proof (consul_perform_all_loops client loadConf sv getString fillDefaults pick
                  startRD maxRD acts 0%nat _ w Hfresh) as H.
    rewrite Nat.add_0_r in H. apply H; [|exact Hall].
    repeat split. constructor.
  - intros B kvClient loadConf sv getString fillDefaults pick cfg startRD maxRD b
           acts w Hall.
    assert (Hfresh : Etcd.sound (Etcd.fresh cfg startRD maxRD b)).
    { split; [|left; reflexivity]. split; [constructor|]. split; reflexivity. }
    pose proof (etcd_perform_all_loops kvClient loadConf sv getString fillDefaults pick
                  startRD maxRD acts 0%nat _ w Hfresh) as H.
    rewrite Nat.add_0_r in H. apply H; [|exact Hall].
    repeat split. constructor.
Qed.

(** The theorem at work: two calls of [RegisterService] on a source with
    start 100 ms and maximum 250 ms, in front of an agent that cannot be
    reached; the first goroutine has failed three times and the second
    once. *)
Lemma loops_and_their_delays_witness :
  let w := Sample.after
             (Consul.perform_all Sample.unreachableAgent
                Sample.loadServiceRegisterConfiguration Sample.versions
                Sample.GetString Sample.fillDefaultDiscoverOptions Sample.pickFirst
                [Consul.DoRegisterService (Sample.registerOptions false) "1111";
                 Consul.DoRun 0; Consul.DoRun 0; Consul.DoRun 0;
                 Consul.DoRegisterService (Sample.registerOptions false) "2222";
                 Consul.DoRun 1])
             (Consul.fresh Sample.configOptions 100 250 "http" tt) in
  goroutines w = [250; 200]
  /\ List.length (goroutines w) = 2%nat
  /\ Forall (fun r => r = 100 \/ r <= 250) (goroutines w).
Proof.
  intros w. split; [vm_compute; reflexivity|].
  destruct (proj1 loops_and_their_delays _ Sample.unreachableAgent
                  Sample.loadServiceRegisterConfiguration Sample.versions
                  Sample.GetString Sample.fillDefaultDiscoverOptions Sample.pickFirst
                  Sample.configOptions 100 250 "http" tt
                  [Consul.DoRegisterService (Sample.registerOptions false) "1111";
                   Consul.DoRun 0; Consul.DoRun 0; Consul.DoRun 0;
                   Consul.DoRegisterService (Sample.registerOptions false) "2222";
                   Consul.DoRun 1] w) as (_ & _ & Hlen & Hall).
  - vm_compute. reflexivity.
  - split; assumption.
Defined.

(** ** The footprint of a discovery *)

Section ConsulFootprint.
Import Consul.
Context {B : Type} (client : api.Client B).
Variable sv : semver.Lib.
Variable getString : config.Options -> string -> B -> (string * bool) * B.
Variable fillDefaults : DiscoverOptions -> DiscoverOptions.
Variable pick :
  list (discoveredService (semver.Version sv)) -> list gatewayURLWatch ->
  DiscoverOptions -> string -> nat -> string * option error.




End ConsulFootprint.

Section EtcdFootprint.
Import Etcd.
Context {B : Type} (kvClient : client.KeysAPI B).
Variable sv : semver.Lib.
Variable getString : config.Options -> string -> B -> (string * bool) * B.
Variable fillDefaults : DiscoverOptions -> DiscoverOptions.
Variable pick :
  list (discoveredService (semver.Version sv)) -> list gatewayURLWatch ->
  DiscoverOptions -> string -> nat -> string * option error.





End EtcdFootprint.



(** ** What a discovery returns and remembers *)

(** Whatever the selection step does: when [DiscoverService] returns an
    error the URL is empty and the last known service is left as it was; when
    it returns a nil error the last known service afterwards is the URL
    returned. So the last known service changes only to a URL that was
    returned without error. For both sources. *)
Theorem discover_result_and_last_known :
  (forall B (client : api.Client B) sv getString fillDefaults pick options seed
          (w w' : @Consul.world B) url err,
      Consul.DiscoverService client sv getString fillDefaults pick options seed w
      = Returns ((url, err), w') ->
      match err with
      | Some _ => url = "" /\ Consul.lastKnownService (src w')
                             = Consul.lastKnownService (src w)
      | None => Consul.lastKnownService (src w') = url
      end)
  /\ (forall B (kvClient : client.KeysAPI B) sv getString fillDefaults pick options seed
          (w w' : @Etcd.world B) url err,
      Etcd.DiscoverService kvClient sv getString fillDefaults pick options seed w
      = Returns ((url, err), w') ->
      match err with
      | Some _ => url = "" /\ Etcd.lastKnownService (src w')
                             = Etcd.lastKnownService (src w)
      | None => Etcd.lastKnownService (src w') = url
      end).
Proof.
  split.
  - intros B client sv getString fillDefaults pick options seed w w' url err H.
    rewrite consul_Discover_unfold in H.
    destruct (fst (Consul.query client fillDefaults options w)) as [entries|e].
    + apply bind_Returns in H as (insts & w1 & Hcol & Hsel).
      apply consul_collect_spec in Hcol as ((_ & Hlk & _) & _). cbn in Hlk.
      unfold Consul.selectService in Hsel. run_go.
      destruct (pick insts _ _ _ seed) as [service [e|]].
      * destruct (nonEmpty service); inversion Hsel; subst; auto.
      * inversion Hsel; subst. reflexivity.
    + destruct (nonEmpty (Consul.lastKnownService (src w))); inversion H; subst; auto.
  - intros B kvClient sv getString fillDefaults pick options seed w w' url err H.
    rewrite etcd_Discover_unfold in H.
    destruct (fst (Etcd.query kvClient fillDefaults options w)) as [node|e].
    + apply bind_Returns in H as (insts & w1 & Hcol & Hsel).
      apply etcd_collect_spec in Hcol as ((_ & Hlk & _) & _). cbn in Hlk.
      unfold Etcd.selectService in Hsel. run_go.
      destruct (pick insts _ _ _ seed) as [service [e|]].
      * destruct (nonEmpty service); inversion Hsel; subst; auto.
      * inversion Hsel; subst. reflexivity.
    + destruct (nonEmpty (Etcd.lastKnownService (src w))); inversion H; subst; auto.
Qed.

(** The theorem at work: a discovery of "svc" through a fresh Consul source
    returns the URL of the healthy instance and remembers it. *)
Lemma discover_result_and_last_known_witness :
  let w := Consul.fresh Sample.configOptions 100 2000 "http" Sample.healthyAgent in
  let w' := Sample.after
              (Consul.DiscoverService Sample.memoryAgent Sample.versions
                 Sample.GetString Sample.fillDefaultDiscoverOptions Sample.pickFirst
                 (Sample.discoverOptions "svc") 0%nat) w in
  Consul.lastKnownService (src w) = ""
  /\ Consul.lastKnownService (src w') = "http://10.0.0.5:8080".
Proof.
  intros w w'. split; [reflexivity|].
  apply (proj1 discover_result_and_last_known _ Sample.memoryAgent Sample.versions
               Sample.GetString Sample.fillDefaultDiscoverOptions Sample.pickFirst
               (Sample.discoverOptions "svc") 0%nat w w' "http://10.0.0.5:8080" None).
  vm_compute. reflexivity.
Defined.

(** ** The values of the gateway watch cache *)

Lemma gatewayURLOf_app gws more ns :
  gatewayURLOf (gws ++ more) ns
  = match gatewayURLOf gws ns with
    | Some url => Some url
    | None => gatewayURLOf more ns
    end.
Proof.
  unfold gatewayURLOf. induction gws as [|w gws IH]; cbn; [reflexivity|].
  destruct (String.eqb (gatewayID w) ns); [reflexivity|exact IH].
Qed.

Lemma gatewayURLOf_None gws ns : hasWatch gws ns = false -> gatewayURLOf gws ns = None.
Proof.
  unfold hasWatch, gatewayURLOf. induction gws as [|w gws IH]; cbn; [reflexivity|].
  destruct (String.eqb (gatewayID w) ns); [discriminate|exact IH].
Qed.

Lemma gatewayURLOf_Some gws ns :
  hasWatch gws ns = true -> exists url, gatewayURLOf gws ns = Some url.
Proof.
  unfold hasWatch, gatewayURLOf. induction gws as [|w gws IH]; cbn; [discriminate|].
  destruct (String.eqb (gatewayID w) ns); [intros _; eexists; reflexivity|exact IH].
Qed.

(** The closure subscribed to a namespace's "gatewayUrl" key, called with a
    new value: the URL cached for that namespace becomes the value if the
    namespace is cached, and no entry is made if it is not; the URLs of all
    other namespaces and the keys of the cache stay; of two calls for the
    same namespace the later value remains. *)
Theorem gateway_url_change_updates_one_entry (ns value : string)
        (gws : list gatewayURLWatch) :
  (forall ns',
      gatewayURLOf (gatewayUrlChanged ns value gws) ns'
      = if String.eqb ns' ns
        then option_map (fun _ => value) (gatewayURLOf gws ns)
        else gatewayURLOf gws ns')
  /\ map gatewayID (gatewayUrlChanged ns value gws) = map gatewayID gws
  /\ (forall value2,
         gatewayUrlChanged ns value2 (gatewayUrlChanged ns value gws)
         = gatewayUrlChanged ns value2 gws).
Proof.
  split; [|split].
  - intros ns'. unfold gatewayURLOf.
    induction gws as [|w gws IH]; cbn.
    + destruct (String.eqb ns' ns); reflexivity.
    + destruct (String.eqb (gatewayID w) ns) eqn:Hid; cbn.
      * apply String.eqb_eq in Hid. rewrite Hid.
        rewrite (String.eqb_sym ns ns').
        destruct (String.eqb ns' ns); reflexivity.
      * destruct (String.eqb (gatewayID w) ns') eqn:Hid'; [|exact IH].
        apply String.eqb_eq in Hid'. rewrite <- Hid', Hid. reflexivity.
  - induction gws as [|w gws IH]; cbn; [reflexivity|].
    destruct (String.eqb (gatewayID w) ns); cbn; [reflexivity|].
    rewrite IH. reflexivity.
  - intros value2. induction gws as [|w gws IH]; cbn; [reflexivity|].
    destruct (String.eqb (gatewayID w) ns) eqn:Hid; cbn; rewrite Hid; [reflexivity|].
    rewrite IH. reflexivity.
Qed.

(** The watch block of [DiscoverService], for both sources: it never fails;
    a namespace that is not cached gets the value just read from the
    configuration, found or not; a namespace that is cached keeps its URL and
    nothing is read; the URLs of all other namespaces stay. *)
Theorem watch_caches_first_read :
  (forall B getString ns (w : @Consul.world B),
      exists w',
        Consul.watchGateway getString ns w = Returns (tt, w')
        /\ gatewayURLOf (Consul.gatewayURLs (src w')) ns
           = Some (match gatewayURLOf (Consul.gatewayURLs (src w)) ns with
                   | Some url => url
                   | None => fst (fst (getString (Consul.utilFor w ns) "gatewayUrl"
                                                 (agent w)))
                   end)
        /\ (hasWatch (Consul.gatewayURLs (src w)) ns = true -> w' = w)
        /\ (forall ns', ns' <> ns ->
              gatewayURLOf (Consul.gatewayURLs (src w')) ns'
              = gatewayURLOf (Consul.gatewayURLs (src w)) ns'))
  /\ (forall B getString ns (w : @Etcd.world B),
      exists w',
        Etcd.watchGateway getString ns w = Returns (tt, w')
        /\ gatewayURLOf (Etcd.gatewayURLs (src w')) ns
           = Some (match gatewayURLOf (Etcd.gatewayURLs (src w)) ns with
                   | Some url => url
                   | None => fst (fst (getString (Etcd.utilFor w ns) "gatewayUrl"
                                                 (agent w)))
                   end)
        /\ (hasWatch (Etcd.gatewayURLs (src w)) ns = true -> w' = w)
        /\ (forall ns', ns' <> ns ->
              gatewayURLOf (Etcd.gatewayURLs (src w')) ns'
              = gatewayURLOf (Etcd.gatewayURLs (src w)) ns')).
Proof.
  split; intros B getString ns w.
  - unfold Consul.watchGateway, Consul.utilFor. run_go.
    destruct (hasWatch (Consul.gatewayURLs (src w)) ns) eqn:Hw.
    + exists w. split; [reflexivity|].
      destruct (gatewayURLOf_Some _ _ Hw) as (url & Hurl). rewrite Hurl. auto.
    + eexists. split; [reflexivity|]. cbn -[append].
      rewrite (gatewayURLOf_None _ _ Hw). split; [|split; [discriminate|]].
      * rewrite gatewayURLOf_app, (gatewayURLOf_None _ _ Hw).
        unfold gatewayURLOf. cbn. rewrite String.eqb_refl. reflexivity.
      * intros ns' Hne. rewrite gatewayURLOf_app.
        destruct (gatewayURLOf (Consul.gatewayURLs (src w)) ns'); [reflexivity|].
        unfold gatewayURLOf. cbn.
        destruct (String.eqb_spec ns ns'); [congruence|reflexivity].
  - unfold Etcd.watchGateway, Etcd.utilFor. run_go.
    destruct (hasWatch (Etcd.gatewayURLs (src w)) ns) eqn:Hw.
    + exists w. split; [reflexivity|].
      destruct (gatewayURLOf_Some _ _ Hw) as (url & Hurl). rewrite Hurl. auto.
    + eexists. split; [reflexivity|]. cbn -[append].
      rewrite (gatewayURLOf_None _ _ Hw). split; [|split; [discriminate|]].
      * rewrite gatewayURLOf_app, (gatewayURLOf_None _ _ Hw).
        unfold gatewayURLOf. cbn. rewrite String.eqb_refl. reflexivity.
      * intros ns' Hne. rewrite gatewayURLOf_app.
        destruct (gatewayURLOf (Etcd.gatewayURLs (src w)) ns'); [reflexivity|].
        unfold gatewayURLOf. cbn.
        destruct (String.eqb_spec ns ns'); [congruence|reflexivity].
Qed.

(** ** From registration to discovery *)

(** Consul source. The only registration [register] sends is
    [registrationOf], with the id, the name and the version tag that
    [RegisterService] gave the instance. When the configured protocol is
    "http" or "https" and the version holds no "=", the health entry of that
    registration is read back by the loop of [DiscoverService]: if the
    version parses, as an instance with the registered id, the parsed version
    and the URL protocol://address:port, where the address is the registered
    one or else the node's; if it does not parse, the entry is dropped. *)
Theorem consul_registration_is_read_back :
  forall B (client : api.Client B) sv getString (r : Z) (w : @Consul.world B) inst opts,
    Consul.serviceInstance (src w) = Some inst ->
    Consul.options (src w) = Some opts ->
    (exists ok w1 evs,
        Consul.register client r w = Returns (ok, w1)
        /\ trace w1 = trace w ++ evs
        /\ forall reg, In (Consul.EvServiceRegister reg) evs ->
                       reg = Consul.registrationOf (src w) inst opts)
    /\ (forall version nodeAddress options acc (w2 : @Consul.world B),
           Consul.versionTag inst = ("version=" ++ version)%string ->
           Consul.protocol (src w) = "http" \/ Consul.protocol (src w) = "https" ->
           splitOn "=" version = (version, []) ->
           Consul.collectInstances sv getString options
             [Consul.entryFor (Consul.registrationOf (src w) inst opts) nodeAddress]
             acc w2
           = match semver.ParseTolerant sv version with
             | None => Returns (acc, w2)
             | Some v =>
                 bind (Consul.watchGateway getString
                         (watcherNamespaceOf options (semver.VersionString sv v)))
                      (fun _ =>
                         ret (acc ++
                              [{| ds_id := Consul.id inst;
                                  ds_version := v;
                                  ds_directURL :=
                                    (Consul.protocol (src w) ++ "://"
                                     ++ (if nonEmpty (rc_Server_HTTP_Address opts)
                                         then rc_Server_HTTP_Address opts
                                         else nodeAddress)
                                     ++ ":" ++ FormatInt (rc_Server_HTTP_Port opts))%string
                               |}]))
                      w2
             end).
Proof.
  intros B client sv getString r w inst opts Hi Ho. split.
  - unfold Consul.register, Consul.isServiceRegistered, Consul.registrationOf. run_go.
    branch Hi Ho.
    all: do 3 eexists; rewrite <- ?app_assoc; (split; [reflexivity|]);
      (split; [reflexivity|]); cbn [app]; intros reg Hin.
    all: repeat (destruct Hin as [Hin|Hin]; try discriminate; try contradiction).
    all: inversion Hin; subst; cbn; rewrite ?Heqb0; reflexivity.
  - intros version nodeAddress options acc w2 Htag Hproto Hsplit.
    unfold Consul.entryFor, Consul.registrationOf.
    cbn [Consul.collectInstances api.Service api.svc_Tags api.svc_ID api.svc_Address
         api.svc_Port api.Node_Address api.Tags api.ID api.Address api.Port].
    rewrite Htag.
    assert (Hscan : forall proto, proto = "http" \/ proto = "https" ->
              Consul.scanTags sv [proto; ("version=" ++ version)%string]
                {| Consul.ts_version := semver.Zero sv; Consul.ts_versionOk := false;
                   Consul.ts_protocol := "http" |}
              = Returns
                  match semver.ParseTolerant sv version with
                  | Some v => {| Consul.ts_version := v; Consul.ts_versionOk := true;
                                 Consul.ts_protocol := proto |}
                  | None => {| Consul.ts_version := semver.Zero sv;
                               Consul.ts_versionOk := false;
                               Consul.ts_protocol := proto |}
                  end).
    { intros proto [->| ->]; cbn; unfold Split; cbn; rewrite Hsplit; cbn;
        destruct (semver.ParseTolerant sv version); reflexivity. }
    rewrite (Hscan _ Hproto).
    destruct (semver.ParseTolerant sv version) as [v|]; cbn -[append FormatInt].
    + destruct (nonEmpty (rc_Server_HTTP_Address opts)) eqn:Hne;
        cbn -[append FormatInt]; rewrite ?Hne; try reflexivity.
    + reflexivity.
Qed.

(** The round trip at work: "svc" 1.0.0 is registered in "dev" over http and
    its entry, listed by a node at 10.0.0.9, is collected. *)
Lemma consul_registration_is_read_back_witness :
  let w := Sample.after
             (Consul.RegisterService Sample.loadServiceRegisterConfiguration
                                     (Sample.registerOptions false) "1111")
             (Sample.consulWorld 100 2000 ([] : Sample.agentState)) in
  exists inst opts,
    Consul.serviceInstance (src w) = Some inst
    /\ Consul.options (src w) = Some opts
    /\ Consul.collectInstances Sample.versions Sample.GetString
         (Sample.discoverOptions "svc")
         [Consul.entryFor (Consul.registrationOf (src w) inst opts) "10.0.0.9"] [] w
       = Returns ([{| ds_id := "svc-1111"; ds_version := "1.0.0";
                      ds_directURL := "http://10.0.0.9:8080" |}],
                  Sample.after
                    (Consul.watchGateway Sample.GetString
                       "/environments/dev/services/svc/1.0.0") w).
Proof.
  intros w.
  destruct (Consul.serviceInstance (src w)) as [inst|] eqn:Hi; [|discriminate].
  destruct (Consul.options (src w)) as [opts|] eqn:Ho; [|discriminate].
  exists inst, opts. split; [reflexivity|]. split; [reflexivity|].
  destruct (consul_registration_is_read_back _ Sample.memoryAgent Sample.versions
              Sample.GetString 100 w inst opts Hi Ho) as [_ H].
  vm_compute in Hi. vm_compute in Ho.
  injection Hi as <-. injection Ho as <-.
  rewrite (H "1.0.0"%string "10.0.0.9"%string (Sample.discoverOptions "svc") [] w
             eq_refl (or_introl eq_refl) eq_refl).
  vm_compute. reflexivity.
Defined.










(** ** Listings that stop a discovery *)

Section ConsulMalformed.
Import Consul.
Context {B : Type}.
Variable sv : semver.Lib.
Variable getString : config.Options -> string -> B -> (string * bool) * B.

(** The scan of well-formed tags returns. *)
Lemma consul_scanTags_total tags : forall st,
  wellFormedTags tags -> exists st', scanTags sv tags st = Returns st'.
Proof.
  induction tags as [|t tags IH]; intros st Hwf; cbn [scanTags]; [eauto|].
  inversion Hwf as [|? ? Hhd Htl]; subst.
  destruct (HasPrefix t "version") eqn:Hp.
  - destruct (nth_error (Split t "=") 1) as [s|] eqn:Hs;
      [|exfalso; apply (Hhd eq_refl); reflexivity].
    destruct (semver.ParseTolerant sv s); eauto.
  - destruct (String.eqb t "https"); eauto.
Qed.

(** The scan panics at the first tag that starts with "version" when that
    tag holds no "=". *)
Lemma consul_scanTags_panics before tag rest : forall st,
  Forall (fun t => HasPrefix t "version" = false) before ->
  HasPrefix tag "version" = true ->
  splitOn "=" tag = (tag, []) ->
  scanTags sv (before ++ tag :: rest) st = Panics indexOutOfRange.
Proof.
  induction before as [|t before IH]; intros st Hb Hp Hs; cbn [app scanTags].
  - rewrite Hp. unfold Split. rewrite Hs. reflexivity.
  - inversion Hb as [|? ? Hhd Htl]; subst. rewrite Hhd.
    destruct (String.eqb t "https"); apply IH; assumption.
Qed.

(** A panic of the scan of one entry is the panic of the loop, when the
    entries before it are well formed. *)
Lemma consul_collect_panics options bad post why :
  scanTags sv (api.svc_Tags (api.Service bad))
    {| ts_version := semver.Zero sv; ts_versionOk := false; ts_protocol := "http" |}
  = Panics why ->
  forall pre acc (w : @world B),
    Forall (fun e => wellFormedTags (api.svc_Tags (api.Service e))) pre ->
    collectInstances sv getString options (pre ++ bad :: post) acc w = Panics why.
Proof.
  intros Hbad. induction pre as [|e pre IH]; intros acc w Hpre; cbn [app collectInstances].
  - rewrite Hbad. reflexivity.
  - inversion Hpre as [|? ? Hhd Htl]; subst.
    destruct (consul_scanTags_total (api.svc_Tags (api.Service e))
                {| ts_version := semver.Zero sv; ts_versionOk := false;
                   ts_protocol := "http" |} Hhd) as [st ->].
    destruct (negb (ts_versionOk sv st)); [now apply IH|].
    destruct (consul_watchGateway_spec getString
                (watcherNamespaceOf options (semver.VersionString sv (ts_version sv st))) w)
      as (w1 & Hw & _).
    rewrite !(bind_step _ _ _ _ _ Hw). now apply IH.
Qed.
End ConsulMalformed.

Section EtcdMalformed.
Import Etcd.
Context {B : Type}.
Variable sv : semver.Lib.
Variable getString : config.Options -> string -> B -> (string * bool) * B.

(** The loop over the instances of a version returns. *)
Lemma etcd_collectVersion_total options currentVersion instances :
  forall acc (w : @world B),
    exists insts w',
      collectVersion sv getString options currentVersion instances acc w
      = Returns (insts, w').
Proof.
  induction instances as [|i more IH]; intros acc w; cbn [collectVersion];
    [do 2 eexists; reflexivity|].
  destruct (semver.ParseTolerant sv currentVersion) as [v|];
    [|do 2 eexists; reflexivity].
  destruct (etcd_watchGateway_spec getString
              (watcherNamespaceOf options (semver.VersionString sv v)) w)
    as (w1 & Hw & _).
  destruct (IH (acc ++ [{| ds_id := Base (client.Key i); ds_version := v;
                           ds_directURL := urlOf (client.Nodes i) |}]) w1)
    as (insts & w' & Hrest).
  exists insts, w'. rewrite (bind_step _ _ _ _ _ Hw). exact Hrest.
Qed.

(** The loop over the versions panics at the first version directory
    without a child called "instances". *)
Lemma etcd_collect_panics options bad post :
  findInstances (client.Nodes bad) = None ->
  forall pre acc (w : @world B),
    Forall (fun v => findInstances (client.Nodes v) <> None) pre ->
    collectInstances sv getString options (pre ++ bad :: post) acc w = Panics nilDeref.
Proof.
  intros Hbad. induction pre as [|v pre IH]; intros acc w Hpre; cbn [app collectInstances].
  - rewrite Hbad. reflexivity.
  - inversion Hpre as [|? ? Hhd Htl]; subst.
    destruct (findInstances (client.Nodes v)) as [instances|]; [|contradiction].
    destruct (etcd_collectVersion_total options (Base (client.Key v))
                (client.Nodes instances) acc w) as (found & w1 & Hc).
    rewrite (bind_step _ _ _ _ _ Hc). now apply IH.
Qed.
End EtcdMalformed.

(** [DiscoverService] panics on listings it does not expect. Consul source:
    the health query answers with an entry that has a tag starting with
    "version" and holding no "=", no tag before it starting with "version"
    (the entries before that one being well formed): [t[1]] is out of range.
    etcd source: the listing holds a version directory without a child called
    "instances" (the version directories before it having one): [instances]
    is nil when its [Nodes] are read. *)
Theorem discover_panics_on_malformed_listing :
  (forall B (client : api.Client B) sv getString fillDefaults pick options seed
          (w : @Consul.world B) pre bad post before tag rest,
      fst (Consul.query client fillDefaults options w) = inl (pre ++ bad :: post) ->
      Forall (fun e => Consul.wellFormedTags (api.svc_Tags (api.Service e))) pre ->
      api.svc_Tags (api.Service bad) = before ++ tag :: rest ->
      Forall (fun t => HasPrefix t "version" = false) before ->
      HasPrefix tag "version" = true ->
      splitOn "=" tag = (tag, []) ->
      Consul.DiscoverService client sv getString fillDefaults pick options seed w
      = Panics indexOutOfRange)
  /\ (forall B (kvClient : client.KeysAPI B) sv getString fillDefaults pick options seed
             (w : @Etcd.world B) node pre bad post,
         fst (Etcd.query kvClient fillDefaults options w) = inl node ->
         client.Nodes node = pre ++ bad :: post ->
         Forall (fun v => Etcd.findInstances (client.Nodes v) <> None) pre ->
         Etcd.findInstances (client.Nodes bad) = None ->
         Etcd.DiscoverService kvClient sv getString fillDefaults pick options seed w
         = Panics nilDeref).
Proof.
  split.
  - intros B client sv getString fillDefaults pick options seed w pre bad post
           before tag rest Hq Hpre Htags Hbefore Hp Hs.
    rewrite consul_Discover_unfold, Hq. unfold bind.
    rewrite (consul_collect_panics sv getString (fillDefaults options) bad post
               indexOutOfRange); [reflexivity| |assumption].
    rewrite Htags. now apply consul_scanTags_panics.
  - intros B kvClient sv getString fillDefaults pick options seed w node pre bad post
           Hq Hnodes Hpre Hbad.
    rewrite etcd_Discover_unfold, Hq, Hnodes. unfold bind.
    rewrite (etcd_collect_panics sv getString (fillDefaults options) bad post Hbad);
      [reflexivity|assumption].
Qed.

(** Both panics at work: the agent lists a service tagged "versioned"; the
    store lists a version directory that is empty. *)
Lemma discover_panics_on_malformed_listing_witness :
  Consul.DiscoverService Sample.memoryAgent Sample.versions Sample.GetString
    Sample.fillDefaultDiscoverOptions Sample.pickFirst (Sample.discoverOptions "svc")
    0%nat (Sample.consulWorld 100 2000 (Sample.healthyAgent ++ [Sample.versionedService]))
  = Panics indexOutOfRange
  /\ Etcd.DiscoverService Sample.store Sample.versions Sample.GetString
       Sample.fillDefaultDiscoverOptions Sample.pickFirst (Sample.discoverOptions "svc")
       0%nat (Sample.etcdWorld 100 2000
                (inl Sample.emptyVersionListing : client.Node + error))
     = Panics nilDeref.
Proof.
  split.
  - refine (proj1 discover_panics_on_malformed_listing _ Sample.memoryAgent
              Sample.versions Sample.GetString Sample.fillDefaultDiscoverOptions
              Sample.pickFirst (Sample.discoverOptions "svc") 0%nat
              (Sample.consulWorld 100 2000 (Sample.healthyAgent ++ [Sample.versionedService]))
              (map Sample.entryOf Sample.healthyAgent)
              (Sample.entryOf Sample.versionedService) []
              ["http"] "versioned" [] _ _ _ _ _ _).
    all: try (vm_compute; reflexivity).
    + repeat constructor; cbn; intros; discriminate.
    + repeat constructor.
  - refine (proj2 discover_panics_on_malformed_listing _ Sample.store
              Sample.versions Sample.GetString Sample.fillDefaultDiscoverOptions
              Sample.pickFirst (Sample.discoverOptions "svc") 0%nat
              (Sample.etcdWorld 100 2000
                 (inl Sample.emptyVersionListing : client.Node + error))
              Sample.emptyVersionListing []
              (client.mkNode "/environments/dev/services/svc/1.0.0" "" []) []
              _ _ _ _).
    all: try (vm_compute; reflexivity).
    constructor.
Defined.

(** ** Registering a second time *)




(** ** A source whose client cannot be made *)

(** [newConsulDiscoverySource] returns a source whether or not the client
    could be made: its [client] is nil exactly when [api.NewClient] fails for
    the configured address (http://localhost:8500 when none is configured);
    the source is the new source with the delays of [getRetryDelays] and the
    configured protocol, "http" when none is configured.
    [newEtcdDiscoverySource] panics exactly when [client.New] fails for the
    endpoints, which are the configured hosts (http://localhost:2379 when
    none are configured) split at the commas: [*d.client] is read though
    [d.client] is nil. When the client is made, the source is the new source
    with its keys API. *)
Theorem source_without_client :
  forall Util ConsulClient EtcdClient KeysAPI
         (NewUtil : config.Options -> Util) (GetString : Util -> string -> string * bool)
         (getRetryDelays : Util -> Z * Z)
         (NewClient : string -> ConsulClient + error)
         (New : list string -> EtcdClient + error)
         (NewKeysAPI : EtcdClient -> KeysAPI) (options : config.Options),
    let conf := Setup.confOf NewUtil options in
    let startRD := fst (getRetryDelays conf) in
    let maxRD := snd (getRetryDelays conf) in
    (snd (Setup.newConsulDiscoverySource NewUtil GetString getRetryDelays NewClient options)
     = None
     <-> exists err, NewClient (Setup.consulAddress GetString conf) = inr err)
    /\ (exists p,
           fst (Setup.newConsulDiscoverySource NewUtil GetString getRetryDelays NewClient
                                               options)
           = Consul.newConsulDiscoverySource options startRD maxRD p
           /\ (GetString conf "kumuluzee.discovery.consul.protocol" = (p, true)
               \/ p = "http"
                  /\ snd (GetString conf "kumuluzee.discovery.consul.protocol") = false))
    /\ (Setup.newEtcdDiscoverySource NewUtil GetString getRetryDelays New NewKeysAPI options
        = Panics nilDeref
        <-> exists err, New (Split (Setup.etcdAddresses GetString conf) ",") = inr err)
    /\ (forall client,
           New (Split (Setup.etcdAddresses GetString conf) ",") = inl client ->
           Setup.newEtcdDiscoverySource NewUtil GetString getRetryDelays New NewKeysAPI
                                        options
           = Returns (Etcd.newEtcdDiscoverySource options startRD maxRD, NewKeysAPI client)).
Proof.
  intros Util ConsulClient EtcdClient KeysAPI NewUtil GetString getRetryDelays NewClient
         New NewKeysAPI options conf startRD maxRD.
  unfold Setup.newConsulDiscoverySource, Setup.newEtcdDiscoverySource,
    Setup.createConsulClient, Setup.createEtcdClient.
  fold conf. subst startRD maxRD.
  destruct (getRetryDelays conf) as [startRD maxRD]. cbn [fst snd].
  split; [|split; [|split]].
  - destruct (NewClient (Setup.consulAddress GetString conf)) as [c|err]; cbn.
    + split; [discriminate|intros [err H]; discriminate].
    + split; [eauto|reflexivity].
  - destruct (GetString conf "kumuluzee.discovery.consul.protocol") as [p [|]];
      eexists; (split; [reflexivity|]); cbn; auto.
  - destruct (New (Split (Setup.etcdAddresses GetString conf) ",")) as [c|err]; cbn.
    + split; [discriminate|intros [err H]; discriminate].
    + split; [eauto|reflexivity].
  - intros client ->. reflexivity.
Qed.

(** Both outcomes of [newEtcdDiscoverySource], with a client library that
    refuses an empty endpoint: the hosts "http://10.0.0.1:2379," end in a
    comma and the constructor panics; without configured hosts the source is
    made for the default endpoint. *)
Lemma source_without_client_witness :
  let make hosts :=
    Setup.newEtcdDiscoverySource
      (fun o => config.ConfigPath o)
      (fun (path key : string) =>
         if String.eqb key "kumuluzee.discovery.etcd.hosts" then hosts else ("", false))
      (fun _ => (500, 900000)%Z)
      (fun endpoints => if existsb (String.eqb "") endpoints
                        then inr "empty endpoint" else inl endpoints)
      (fun c : list string => c)
      Sample.configOptions in
  make ("http://10.0.0.1:2379,", true) = Panics nilDeref
  /\ make ("", false)
     = Returns (Etcd.newEtcdDiscoverySource Sample.configOptions 500 900000,
                ["http://localhost:2379"]).
Proof.
  intros make. split.
  - refine (proj2 (proj1 (proj2 (proj2 (source_without_client _ unit _ _ _ _ _
                                          (fun _ => inl tt) _ _ Sample.configOptions))))
              (ex_intro _ "empty endpoint" _)).
    vm_compute. reflexivity.
  - refine (proj2 (proj2 (proj2 (source_without_client _ unit _ _ _ _ _
                                   (fun _ => inl tt) _ _ Sample.configOptions)))
              ["http://localhost:2379"] _).
    vm_compute. reflexivity.
Defined.
